(** * Parlami dashboard: alert triage, source resolution and approval ledger

    A shallow embedding of the decision logic of [app.py]:
    [enrich_alert], the severity sort of [api_alerts_detailed],
    [find_latest_report], and the approval path
    [api_fix] / [save_approval] / [load_approvals].

    Modelling conventions.
    - A document produced by [json.load] is a value of [json].  JSON numbers
      are modelled as integers ([Z]); Python's [bool] is a subclass of [int],
      so [True]/[False] take part in arithmetic and comparisons as 1/0.
    - Text is modelled as [string] (a byte string); [str.lower] is ASCII
      lower-casing, which is what the ASCII keywords of the rule table see.
    - A Python exception is the [Raise] constructor of [result].
    - A [dict] is an association list in insertion order; lookup returns the
      first binding of a key. *)

From Stdlib Require Import ZArith String Ascii List Bool Lia DecimalString.
From Stdlib Require Import Permutation Sorted.
Import ListNotations.

Local Open Scope string_scope.
Local Open Scope Z_scope.

(* ================================================================= *)
(** ** Python values and the primitives the program uses *)

#[local] Set Warnings "-register-all".

Inductive json : Type :=
| JNull
| JBool (b : bool)
| JNum (n : Z)
| JStr (s : string)
| JList (l : list json)
| JObj (kvs : list (string * json)).

Inductive exn : Type :=
| AttributeError
| TypeError
| OSError.

Inductive result (A : Type) : Type :=
| Ok (a : A)
| Raise (e : exn).

Arguments Ok {A} a.
Arguments Raise {A} e.

Definition bind {A B : Type} (m : result A) (k : A -> result B) : result B :=
  match m with
  | Ok a => k a
  | Raise e => Raise e
  end.

Notation "x <- m ;; k" := (bind m (fun x => k))
  (at level 61, m at next level, right associativity).

Definition dict : Type := list (string * json).

Fixpoint lookup (k : string) (d : dict) : option json :=
  match d with
  | [] => None
  | (k', v) :: rest => if (k' =? k)%string then Some v else lookup k rest
  end.

(** [d.get(k, dflt)] on a dict. *)
Definition dict_get (d : dict) (k : string) (dflt : json) : json :=
  match lookup k d with
  | Some v => v
  | None => dflt
  end.

(** [o.get(k, dflt)] on an arbitrary value: only a dict has [get]. *)
Definition py_get (o : json) (k : string) (dflt : json) : result json :=
  match o with
  | JObj d => Ok (dict_get d k dflt)
  | _ => Raise AttributeError
  end.

(** [o.get(k, dflt)] where the key itself is a decoded value: lists and dicts
    are unhashable, every other non-string key is simply not present. *)
Definition py_get_key (o : json) (k : json) (dflt : json) : result json :=
  match o with
  | JObj d =>
      match k with
      | JStr s => Ok (dict_get d s dflt)
      | JList _ | JObj _ => Raise TypeError
      | _ => Ok dflt
      end
  | _ => Raise AttributeError
  end.

(** [o.values()] *)
Definition py_values (o : json) : result (list json) :=
  match o with
  | JObj d => Ok (map snd d)
  | _ => Raise AttributeError
  end.

Fixpoint chars (s : string) : list json :=
  match s with
  | EmptyString => []
  | String c rest => JStr (String c EmptyString) :: chars rest
  end.

(** [for x in o]: lists yield their items, dicts their keys, strings their
    characters; nothing else is iterable. *)
Definition py_iter (o : json) : result (list json) :=
  match o with
  | JList l => Ok l
  | JObj d => Ok (map (fun kv => JStr (fst kv)) d)
  | JStr s => Ok (chars s)
  | _ => Raise TypeError
  end.

(** The integer a value stands for in [>] and [*]; [None] where Python
    raises [TypeError]. *)
Definition as_int (v : json) : option Z :=
  match v with
  | JNum n => Some n
  | JBool b => Some (if b then 1 else 0)
  | _ => None
  end.

Definition py_number (v : json) : result Z :=
  match as_int v with
  | Some n => Ok n
  | None => Raise TypeError
  end.

(** [v > k] *)
Definition py_gt (v : json) (k : Z) : result bool :=
  n <- py_number v ;; Ok (k <? n).

(** [v == k] for an integer literal [k]; never raises. *)
Definition py_eq_int (v : json) (k : Z) : bool :=
  match as_int v with
  | Some n => n =? k
  | None => false
  end.

(** Truth value of a decoded document. *)
Definition truthy (v : json) : bool :=
  match v with
  | JNull => false
  | JBool b => b
  | JNum n => negb (n =? 0)
  | JStr s => negb (s =? EmptyString)%string
  | JList l => match l with [] => false | _ :: _ => true end
  | JObj d => match d with [] => false | _ :: _ => true end
  end.

(** [o.lower()] exists on [str] only. *)
Definition lower_ascii (c : ascii) : ascii :=
  let n := nat_of_ascii c in
  if ((65 <=? n) && (n <=? 90))%nat then ascii_of_nat (n + 32) else c.

Fixpoint lower (s : string) : string :=
  match s with
  | EmptyString => EmptyString
  | String c rest => String (lower_ascii c) (lower rest)
  end.

Definition as_str (v : json) : result string :=
  match v with
  | JStr s => Ok s
  | _ => Raise AttributeError
  end.

(** [needle in hay] on strings. *)
Fixpoint contains (needle hay : string) : bool :=
  prefix needle hay ||
  match hay with
  | EmptyString => false
  | String _ rest => contains needle rest
  end.

Definition str_of_Z (z : Z) : string := NilZero.string_of_int (Z.to_int z).

(** Values that may be used as a dict key. *)
Definition hashable (v : json) : bool :=
  match v with
  | JList _ | JObj _ => false
  | _ => true
  end.

(* ================================================================= *)
(** ** Enrichment engine: [enrich_alert] *)

Record fix_suggestion : Type := mk_fix {
  description : json;
  action_type : string;
  estimated_impact : string;
  assigned_agent : json;
  campaign : option json
}.

Record enriched : Type := mk_enriched {
  alert_id : string;
  agent : string;
  level : json;
  school : json;
  title : string;
  impact_monthly : Z;
  impact_type : string;
  why : json;
  evidence : list string;
  fixes : list fix_suggestion;
  assigned_to : json
}.

(** The three assignments [enriched["why"] = ...], [enriched["evidence"] = ...],
    [enriched["fixes"] = ...] every rule performs. *)
Definition diagnose (e : enriched) (w : json) (ev : list string)
    (fx : list fix_suggestion) : enriched :=
  mk_enriched (alert_id e) (agent e) (level e) (school e) (title e)
    (impact_monthly e) (impact_type e) w ev fx (assigned_to e).

(** A fix without a ["campaign"] key. *)
Definition fix_of (d a i g : string) : fix_suggestion :=
  mk_fix (JStr d) a i (JStr g) None.

(** A rule that fired wrote a non-empty explanation, evidence and fixes. *)
Definition fired (e e' : enriched) : Prop :=
  exists w ev fx,
    e' = diagnose e (JStr w) ev fx /\
    w <> EmptyString /\ ev <> [] /\ fx <> [].

(** *** Rule predicates, in the order of the if/elif chains *)

Definition annunci_zero_conversions (finding : string) : bool :=
  contains "zero conversions" finding || contains "0 conversions" finding.

Definition annunci_high_cpa (finding : string) : bool :=
  contains "cpa" finding &&
  (contains "high" finding || contains "2." finding || contains "3." finding).

(** [or] binds weaker than [and]: collapsed, or (dropped and conversion). *)
Definition annunci_collapsed (finding : string) : bool :=
  contains "collapsed" finding ||
  (contains "dropped" finding && contains "conversion" finding).

Definition annunci_performing (finding : string) : bool :=
  contains "excellent" finding || contains "good" finding ||
  contains "performing" finding.

Definition zona_deindexed (finding : string) : bool :=
  contains "deindex" finding.

Definition zona_zero_results (finding : string) : bool :=
  contains "zero" finding && contains "results" finding.

Definition zona_not_indexed (finding : string) : bool :=
  contains "not appearing" finding || contains "not indexed" finding.

Definition spia_dropped (finding : string) : bool :=
  contains "dropped" finding || contains "drop" finding.

Definition spia_ranking (finding : string) : bool :=
  contains "ranking poorly" finding || contains "low ctr" finding.

Definition bussola_zero_conversions (finding : string) : bool :=
  contains "zero conversions" finding && contains "sessions" finding.

Definition bussola_bounce (finding : string) : bool :=
  contains "bounce" finding.

(** Some rule of the agent's chain fires on the lower-cased finding. *)
Definition rule_matches (agent_id finding : string) : bool :=
  if (agent_id =? "annunci")%string then
    annunci_zero_conversions finding || annunci_high_cpa finding ||
    annunci_collapsed finding || annunci_performing finding
  else if (agent_id =? "zona")%string then
    zona_deindexed finding || zona_zero_results finding ||
    zona_not_indexed finding
  else if (agent_id =? "spia")%string then
    spia_dropped finding || spia_ranking finding
  else if (agent_id =? "bussola")%string then
    bussola_zero_conversions finding || bussola_bounce finding
  else false.

(** *** The campaign scan of the zero-conversions rule *)

(** Inner loop: the first campaign with [conversions == 0] and [spend > 50]
    gives its name and breaks. *)
Fixpoint scan_campaigns (cs : list json) : result (option json) :=
  match cs with
  | [] => Ok None
  | c :: rest =>
      conv <- py_get c "conversions" JNull ;;
      if py_eq_int conv 0 then
        spend <- py_get c "spend" (JNum 0) ;;
        big <- py_gt spend 50 ;;
        if big then
          name <- py_get c "name" (JStr EmptyString) ;; Ok (Some name)
        else scan_campaigns rest
      else scan_campaigns rest
  end.

(** Outer loop over the per-school lists: [break] leaves the inner loop only,
    so a later school overwrites [campaign_name]. *)
Fixpoint find_campaign (schools : list json) (campaign_name : json)
    : result json :=
  match schools with
  | [] => Ok campaign_name
  | cb_school :: rest =>
      cs <- py_iter cb_school ;;
      hit <- scan_campaigns cs ;;
      find_campaign rest
        (match hit with Some name => name | None => campaign_name end)
  end.

(** [report.get('metrics', {}).get(school, {}).get(key, '?')] *)
Definition zona_metric (report school : json) (key : string) : result json :=
  metrics <- py_get report "metrics" (JObj []) ;;
  per_school <- py_get_key metrics school (JObj []) ;;
  py_get per_school key (JStr "?").

(** The generic fallback entry of lines 755-757. *)
Definition manual_review_fix (a : dict) (agent_id : string) : fix_suggestion :=
  mk_fix (dict_get a "action_required" (JStr "Review and take action"))
    "manual_review" "TBD" (dict_get a "assigned_to" (JStr agent_id)) None.

Section Enrichment.

(** Python's [hash] on [str] is salted per process; the engine only needs
    it to be a function. *)
Variable py_hash : string -> Z.

(** [repr] of a list or a dict, used when such a value is interpolated
    into an f-string. *)
Variable py_repr : json -> string.

(** [str(v)], as used by f-string interpolation. *)
Definition py_str (v : json) : string :=
  match v with
  | JStr s => s
  | JNum n => str_of_Z n
  | JBool true => "True"
  | JBool false => "False"
  | JNull => "None"
  | _ => py_repr v
  end.

(** [if agent_id == "annunci": ...] — [impact] is the raw field, [n] its
    integer value. *)
Definition annunci_rules (e : enriched) (report : json)
    (finding raw : string) (impact : json) (n : Z) : result enriched :=
  if annunci_zero_conversions finding then
    breakdown <- py_get report "campaign_breakdown" (JObj []) ;;
    schools <- py_values breakdown ;;
    campaign_name <- find_campaign schools (JStr EmptyString) ;;
    Ok (diagnose e
      (JStr "This campaign has been running for a full week spending money but generating zero tour bookings. Either the targeting is too broad, the landing page isn't converting, or conversion tracking may be broken.")
      [ "$" ++ py_str impact ++ " spent in the last 7 days with 0 conversions";
        if truthy campaign_name then "Campaign: " ++ py_str campaign_name
        else "Multiple campaigns affected";
        "Week-over-week conversions dropped 96% across all campaigns";
        "Other campaigns in the same account are also underperforming" ]
      [ mk_fix (JStr "Pause the campaign immediately to stop wasting budget")
          "pause_campaign"
          ("Save ~$" ++ str_of_Z (n * 4) ++ "/month")
          (JStr "annunci")
          (Some (if truthy campaign_name then campaign_name else JStr raw));
        fix_of "Verify conversion tracking is working with Bussola"
          "verify_tracking" "Ensure data accuracy" "bussola" ])
  else if annunci_high_cpa finding then
    Ok (diagnose e
      (JStr "The cost per acquisition is significantly above target, meaning you're paying too much for each tour booking. This usually means the ad assets or targeting need optimization.")
      [ raw; "Target CPA is $50, current CPA is more than double" ]
      [ fix_of "Audit asset group performance and pause underperformers"
          "audit_assets" "Reduce CPA by 30-50%" "annunci" ])
  else if annunci_collapsed finding then
    Ok (diagnose e
      (JStr "Conversions dropped dramatically (96%) in one week. This is almost certainly a tracking issue — real tour interest doesn't drop this fast. The conversion pixel or form tracking likely broke.")
      [ "Previous week: 129 conversions → This week: 5 conversions (96% drop)";
        "Ad spend only decreased 10%, so ads are still running";
        "All campaigns affected simultaneously — points to tracking, not ad quality" ]
      [ fix_of "Run conversion tracking audit with Bussola"
          "verify_tracking"
          "Critical — all optimization depends on accurate data" "bussola";
        fix_of "Check GTM tags and form submission events"
          "check_gtm" "Identify the exact break point" "bussola" ])
  else if annunci_performing finding then
    Ok (diagnose e
      (JStr "This campaign is performing well and delivering results at or below target cost.")
      [ raw ]
      [ fix_of "Consider increasing budget to get more conversions"
          "increase_budget" "2-3 more tours/week" "annunci" ])
  else Ok e.

(** [elif agent_id == "zona": ...] *)
Definition zona_rules (e : enriched) (report : json)
    (finding raw : string) (school : json) (n : Z) : result enriched :=
  if zona_deindexed finding then
    live <- zona_metric report school "pages_live" ;;
    indexed <- zona_metric report school "pages_indexed" ;;
    Ok (diagnose e
      (JStr "Google can't find these pages because they haven't been submitted to Search Console, or there's a technical block (like a noindex tag). The content is excellent but completely invisible to anyone searching.")
      [ raw;
        "Pages live: " ++ py_str live;
        "Pages indexed: " ++ py_str indexed ]
      [ fix_of "Submit all community pages to Google Search Console for indexing"
          "submit_indexing"
          ("Recover ~$" ++ str_of_Z (n * 4) ++ "/month in organic traffic value")
          "architetto";
        fix_of "Check for noindex tags or robots.txt blocks"
          "check_noindex" "Remove technical barriers" "architetto";
        fix_of "Add pages to XML sitemap"
          "update_sitemap" "Improve crawl discovery" "architetto" ])
  else if zona_zero_results finding then
    Ok (diagnose e
      (JStr "Your school doesn't appear in search results for this important local keyword. Competitors are taking all the traffic. Once community pages get indexed, rankings should improve.")
      [ raw ]
      [ fix_of "Optimize community page for this keyword once indexed"
          "optimize_page"
          ("~$" ++ str_of_Z (n * 4) ++ "/month in organic value") "spia" ])
  else if zona_not_indexed finding then
    Ok (diagnose e
      (JStr "This specific community page exists but isn't showing up in Google. It may need to be manually submitted or there could be a technical issue preventing indexing.")
      [ raw ]
      [ fix_of "Submit page to Search Console and verify indexing"
          "submit_indexing"
          ("~$" ++ str_of_Z (n * 4) ++ "/month potential") "architetto" ])
  else Ok e.

(** [elif agent_id == "spia": ...] *)
Definition spia_rules (e : enriched) (finding raw : string) : enriched :=
  if spia_dropped finding then
    diagnose e
      (JStr "Organic search traffic is declining. This could be due to algorithm changes, new competitors ranking higher, or technical SEO issues affecting your site's visibility.")
      [ raw ]
      [ fix_of "Audit affected pages for technical SEO issues"
          "seo_audit" "Recover lost organic traffic" "spia";
        fix_of "Check for SERP changes and new competitors"
          "competitor_check" "Understand competitive landscape" "spia" ]
  else if spia_ranking finding then
    diagnose e
      (JStr "Content targeting these keywords isn't strong enough to compete. The pages exist but need better optimization, more internal links, and stronger authority signals.")
      [ raw ]
      [ fix_of "Optimize content with better keyword targeting and internal links"
          "optimize_content" "Improve rankings to page 1" "penna" ]
  else e.

(** [elif agent_id == "bussola": ...] *)
Definition bussola_rules (e : enriched) (finding raw : string) : enriched :=
  if bussola_zero_conversions finding then
    diagnose e
      (JStr "People are visiting the site but nobody is converting. Either the contact form is broken, the tracking code isn't firing, or the landing page isn't compelling enough.")
      [ raw ]
      [ fix_of "Test all forms manually and check GTM setup"
          "check_forms" "Fix conversion path" "bussola" ]
  else if bussola_bounce finding then
    diagnose e
      (JStr "Visitors are leaving immediately without interacting. The landing page may be slow, confusing, or not matching what the ad promised.")
      [ raw ]
      [ fix_of "Optimize landing page UX and load time"
          "optimize_page" "Reduce bounce rate, increase conversions"
          "architetto" ]
  else e.

(** The per-agent if/elif dispatch (lines 646-749). *)
Definition apply_rules (e : enriched) (agent_id : string) (report : json)
    (finding raw : string) (school impact : json) (n : Z) : result enriched :=
  if (agent_id =? "annunci")%string then
    annunci_rules e report finding raw impact n
  else if (agent_id =? "zona")%string then
    zona_rules e report finding raw school n
  else if (agent_id =? "spia")%string then
    Ok (spia_rules e finding raw)
  else if (agent_id =? "bussola")%string then
    Ok (bussola_rules e finding raw)
  else Ok e.

(** [if not enriched["why"]: ...] (lines 751-757). *)
Definition fallback (e : enriched) (alert : dict) (agent_id raw : string)
    : enriched :=
  if negb (truthy (why e)) then
    diagnose e
      (dict_get alert "action_required"
         (JStr "Investigation needed to determine root cause."))
      [ raw ]
      [ manual_review_fix alert agent_id ]
  else e.

(** The dict literal of lines 632-644; [n] is the integer value of
    [impact]. *)
Definition base_record (a : dict) (agent_id raw : string) (n : Z)
    : enriched :=
  mk_enriched
    (py_str (dict_get a "school" (JStr "unknown")) ++ "-" ++ agent_id ++ "-" ++
       str_of_Z (Z.abs (py_hash raw) mod 10000))
    agent_id
    (dict_get a "level" (JStr "yellow"))
    (dict_get a "school" (JStr "unknown"))
    raw
    (if 0 <? n then n * 4 else 0)
    (if (agent_id =? "annunci")%string && (0 <? n) then "confirmed"
     else if (agent_id =? "bussola")%string && (0 <? n) then "confirmed"
     else "estimated")
    (JStr EmptyString) [] []
    (dict_get a "assigned_to" (JStr agent_id)).

Definition enrich_alert (alert : json) (agent_id : string) (report : json)
    : result enriched :=
  match alert with
  | JObj a =>
      (* [.lower()] on the finding: only a str has it *)
      raw <- as_str (dict_get a "finding" (JStr EmptyString)) ;;
      let finding := lower raw in
      let school := dict_get a "school" (JStr "unknown") in
      let impact := dict_get a "impact_dollars" (JNum 0) in
      (* [impact > 0] is evaluated for every alert (line 638) and needs a
         number *)
      n <- py_number impact ;;
      let e := base_record a agent_id raw n in
      e' <- apply_rules e agent_id report finding raw school impact n ;;
      Ok (fallback e' a agent_id raw)
  | _ => Raise AttributeError
  end.

End Enrichment.

(** *** The engine over the interpreter's lower-casing *)

Section EnrichmentLowering.

(** [str.lower] of line 619.  It follows the Unicode case mapping: on ASCII
    text it is [lower], but it also folds letters outside ASCII (the Kelvin
    sign U+212A becomes [k]), so which rule a finding reaches is decided by
    this function and not by [lower]. *)
Variable str_lower : string -> string.
Variable py_hash : string -> Z.
Variable py_repr : json -> string.

(** [enrich_alert] (lines 617-759) with line 619 left to [str_lower]. *)
Definition enrich_alert_with (alert : json) (agent_id : string)
    (report : json) : result enriched :=
  match alert with
  | JObj a =>
      raw <- as_str (dict_get a "finding" (JStr EmptyString)) ;;
      let finding := str_lower raw in
      let school := dict_get a "school" (JStr "unknown") in
      let impact := dict_get a "impact_dollars" (JNum 0) in
      n <- py_number impact ;;
      let e := base_record py_hash py_repr a agent_id raw n in
      e' <- apply_rules py_repr e agent_id report finding raw school impact n ;;
      Ok (fallback e' a agent_id raw)
  | _ => Raise AttributeError
  end.

End EnrichmentLowering.

(* ================================================================= *)
(** ** Severity ranking: the sort of [api_alerts_detailed] *)

(** [order.get(a["level"], 3)] with
    [order = {"red": 0, "yellow": 1, "green": 2}]; a list or a dict cannot be
    looked up in a dict. *)
Definition level_rank (lv : json) : result Z :=
  match lv with
  | JStr s =>
      Ok (if (s =? "red")%string then 0
          else if (s =? "yellow")%string then 1
          else if (s =? "green")%string then 2
          else 3)
  | JList _ | JObj _ => Raise TypeError
  | _ => Ok 3
  end.

(** The key [(order.get(a["level"], 3), -a.get("impact_monthly", 0))]. *)
Definition sort_key (a : enriched) : result (Z * Z) :=
  r <- level_rank (level a) ;; Ok (r, - impact_monthly a).

(** Tuples compare lexicographically. *)
Definition key_lt (k1 k2 : Z * Z) : bool :=
  (fst k1 <? fst k2) || ((fst k1 =? fst k2) && (snd k1 <? snd k2)).

(** [list.sort(key=...)] computes every key first, then sorts stably with
    [<] on the keys.  The stable arrangement of a list is unique, so it is
    computed here by insertion from the right. *)
Fixpoint decorate (l : list enriched) : result (list ((Z * Z) * enriched)) :=
  match l with
  | [] => Ok []
  | a :: rest =>
      k <- sort_key a ;;
      ks <- decorate rest ;;
      Ok ((k, a) :: ks)
  end.

Fixpoint insert {A : Type} (x : (Z * Z) * A) (l : list ((Z * Z) * A))
    : list ((Z * Z) * A) :=
  match l with
  | [] => [x]
  | y :: ys =>
      if key_lt (fst y) (fst x) then y :: insert x ys else x :: y :: ys
  end.

Fixpoint stable_sort {A : Type} (l : list ((Z * Z) * A))
    : list ((Z * Z) * A) :=
  match l with
  | [] => []
  | x :: xs => insert x (stable_sort xs)
  end.

Definition sort_alerts (l : list enriched) : result (list enriched) :=
  ks <- decorate l ;; Ok (map snd (stable_sort ks)).

(** [x] occurs before [y] in [l]. *)
Definition precedes {A : Type} (x y : A) (l : list A) : Prop :=
  exists p q r : list A, l = (p ++ x :: q ++ y :: r)%list.

Definition recognized (lv : json) : Prop :=
  lv = JStr "red" \/ lv = JStr "yellow" \/ lv = JStr "green".

Definition key_eqb (k1 k2 : Z * Z) : bool :=
  (fst k1 =? fst k2) && (snd k1 =? snd k2).

(** The alert sorts under key [k]. *)
Definition has_key (k : Z * Z) (a : enriched) : bool :=
  match sort_key a with
  | Ok k' => key_eqb k' k
  | Raise _ => false
  end.

(** Earlier elements never have a larger key. *)
Definition keys_ordered {A : Type} (x y : (Z * Z) * A) : Prop :=
  key_lt (fst y) (fst x) = false.

(** The order [list.sort] leaves between an earlier and a later alert. *)
Definition in_order (x y : enriched) : Prop :=
  exists kx ky,
    sort_key x = Ok kx /\ sort_key y = Ok ky /\ key_lt ky kx = false.

(** A decorated entry pairs an alert with its own key. *)
Definition keyed (p : (Z * Z) * enriched) : Prop :=
  sort_key (snd p) = Ok (fst p).

(* ================================================================= *)
(** ** Source resolver: [find_latest_report] *)

Section SourceResolver.

(** The file system and the bundled sample file as the function reads
    them. *)
Variable REPORTS_DIR : string.
(** [glob.glob(pattern)] *)
Variable glob : string -> list string.
(** [os.path.getmtime(path)]; [None] when it raises [OSError]. *)
Variable getmtime : string -> option Z.
(** [json.load(open(path))]; [None] when opening or parsing raises. *)
Variable read_json : string -> option json.
(** The parsed [data/sample_reports.json]; [None] when loading raises.  The
    program reads it once and memoizes it. *)
Variable sample_file : option json.

Definition load_sample_reports : json :=
  match sample_file with
  | Some doc => doc
  | None => JObj []
  end.

(** [_load_sample_reports().get(agent_id)] *)
Definition sample_report (agent_id : string) : result json :=
  py_get load_sample_reports agent_id JNull.

(** [patterns.get(agent_id, [default patterns])] *)
Definition search_patterns (agent_id : string) : list string :=
  if (agent_id =? "annunci")%string then [REPORTS_DIR ++ "/annunci-*.json"]
  else if (agent_id =? "bussola")%string then [REPORTS_DIR ++ "/bussola*.json"]
  else if (agent_id =? "spia")%string then [REPORTS_DIR ++ "/spia/*.json"]
  else if (agent_id =? "zona")%string then [REPORTS_DIR ++ "/zona-*.json"]
  else [REPORTS_DIR ++ "/" ++ agent_id ++ "*.json";
        REPORTS_DIR ++ "/" ++ agent_id ++ "/*.json"].

Definition matching_files (agent_id : string) : list string :=
  flat_map glob (search_patterns agent_id).

(** [max(files, key=os.path.getmtime)] after the first item: a later file
    replaces the best one only when strictly newer. *)
Fixpoint newest_from (best : string) (best_time : Z) (rest : list string)
    : result string :=
  match rest with
  | [] => Ok best
  | f :: rest' =>
      match getmtime f with
      | None => Raise OSError
      | Some t =>
          if best_time <? t then newest_from f t rest'
          else newest_from best best_time rest'
      end
  end.

Definition find_latest_report (agent_id : string) : result json :=
  match matching_files agent_id with
  | [] => sample_report agent_id
  | f :: rest =>
      match getmtime f with
      | None => Raise OSError
      | Some t =>
          latest <- newest_from f t rest ;;
          match read_json latest with
          | Some doc => Ok doc
          | None => sample_report agent_id
          end
      end
  end.

End SourceResolver.

(* ================================================================= *)
(** ** Approval ledger: [load_approvals], [save_approval], [api_fix] *)

(** What [api_fix] reads from the Flask request. *)
Record request : Type := mk_request {
  args_demo : option string;   (* request.args.get("demo") *)
  referrer : option string;    (* request.referrer *)
  get_json : json              (* request.get_json(); JNull for None *)
}.

(** [jsonify(payload), status] *)
Record response : Type := mk_response {
  status : Z;
  payload : json
}.

(** How the remote store answers the mirror write of this call. *)
Inductive remote_mode : Type :=
| NotConfigured   (* _SUPABASE_AVAILABLE is false *)
| Unreachable     (* the POST raises or answers outside 200/201 *)
| Reachable.      (* the POST is accepted *)

(** The local log, the bundled sample log and the remote action table. *)
Record store : Type := mk_store {
  approvals_file : option json;    (* parsed APPROVALS_FILE, None if unreadable *)
  sample_approvals : option json;  (* parsed data/approvals.json, None if unreadable *)
  disk_writable : bool;            (* makedirs and open(..., "w") succeed *)
  remote_actions : list json       (* rows of parlami_actions *)
}.

Definition load_approvals (st : store) : json :=
  match approvals_file st with
  | Some doc => doc
  | None =>
      match sample_approvals st with
      | Some doc => doc
      | None => JList []
      end
  end.

(** [approvals.append(approval)] needs a list; the whole collection is then
    rewritten.  [disk_writable st = false] stands for [os.makedirs] or
    [open(..., "w")] raising, which happens before the file is touched; a
    [json.dump] that fails after [open] has truncated the file is outside
    this model. *)
Definition save_approval (st : store) (approval : json) : result store :=
  match load_approvals st with
  | JList approvals =>
      if disk_writable st then
        Ok (mk_store (Some (JList (approvals ++ [approval])%list))
              (sample_approvals st) (disk_writable st) (remote_actions st))
      else Raise OSError
  | _ => Raise AttributeError
  end.

(** [request.args.get("demo") == "true" or
     request.referrer and "demo=true" in request.referrer] *)
Definition demo_mode (rq : request) : bool :=
  match args_demo rq with
  | Some v => (v =? "true")%string
  | None => false
  end ||
  match referrer rq with
  | Some r => negb (r =? EmptyString)%string && contains "demo=true" r
  | None => false
  end.

(** The response of a recorded approval. *)
Definition recorded (approval : dict) : response :=
  mk_response 200
    (JObj [ ("success", JBool true); ("approval", JObj approval) ]).

Section Ledger.

(** [datetime.now(timezone.utc).isoformat()] at the time of the call. *)
Variable now : string.
(** [json.dumps] *)
Variable json_dumps : json -> string.
(** The remote store's behaviour during the call. *)
Variable remote : remote_mode.

(** The approval dict of lines 1006-1016. *)
Definition make_approval (data : dict) : dict :=
  [ ("alert_id", dict_get data "alert_id" (JStr EmptyString));
    ("fix_action", dict_get data "fix_action" (JStr EmptyString));
    ("school", dict_get data "school" (JStr EmptyString));
    ("campaign", dict_get data "campaign" (JStr EmptyString));
    ("description", dict_get data "description" (JStr EmptyString));
    ("estimated_impact", dict_get data "estimated_impact" (JStr EmptyString));
    ("approved_by", dict_get data "approved_by" (JStr "client"));
    ("timestamp", dict_get data "timestamp" (JStr now));
    ("status", JStr "approved") ].

(** The row mirrored to [parlami_actions]. *)
Definition action_row (approval : dict) : json :=
  JObj
    [ ("alert_id", dict_get approval "alert_id" (JStr EmptyString));
      ("client_slug", dict_get approval "school" (JStr "unknown"));
      ("school", dict_get approval "school" (JStr "unknown"));
      ("agent", dict_get approval "fix_action" (JStr "manual"));
      ("action_type", dict_get approval "fix_action" (JStr "manual_review"));
      ("description", dict_get approval "description" (JStr EmptyString));
      ("estimated_impact",
         dict_get approval "estimated_impact" (JStr EmptyString));
      ("status", JStr "approved");
      ("approved_by", dict_get approval "approved_by" (JStr "client"));
      ("result",
         JStr (json_dumps
           (JObj [ ("campaign",
                      dict_get approval "campaign" (JStr EmptyString));
                   ("timestamp", dict_get approval "timestamp" JNull) ]))) ].

(** Lines 1019-1036: the mirror write; [_sb_upsert] and the surrounding
    [try] turn every failure into a no-op. *)
Definition mirror (st : store) (approval : dict) : store :=
  match remote with
  | Reachable =>
      mk_store (approvals_file st) (sample_approvals st) (disk_writable st)
        (remote_actions st ++ [action_row approval])%list
  | Unreachable | NotConfigured => st
  end.

(** The handler returns a response or lets an exception escape, and leaves
    a store behind. *)
Definition api_fix (st : store) (rq : request) : result response * store :=
  if demo_mode rq then
    (Ok (mk_response 403
           (JObj [ ("error", JStr "Demo mode — actions disabled");
                   ("demo", JBool true) ])), st)
  else
    let data := get_json rq in
    if negb (truthy data) then
      (Ok (mk_response 400 (JObj [ ("error", JStr "No JSON body") ])), st)
    else
      match data with
      | JObj d =>
          let approval := make_approval d in
          match save_approval st (JObj approval) with
          | Ok st1 =>
              (Ok (recorded approval), mirror st1 approval)
          | Raise e => (Raise e, st)
          end
      | _ => (Raise AttributeError, st)
      end.

End Ledger.

(* ================================================================= *)
(** ** Inputs typed as the data model describes them *)

Definition is_str (v : json) : bool :=
  match v with JStr _ => true | _ => false end.

Definition is_number (v : json) : bool :=
  match as_int v with Some _ => true | None => false end.

Definition is_dict (v : json) : bool :=
  match v with JObj _ => true | _ => false end.

(** RawAlert: a dict whose [finding], when present, is text, whose
    [impact_dollars], when present, is a number, and whose [school], when
    present, is a scalar. *)
Definition well_formed_alert (alert : json) : bool :=
  match alert with
  | JObj a =>
      is_str (dict_get a "finding" (JStr EmptyString)) &&
      is_number (dict_get a "impact_dollars" (JNum 0)) &&
      hashable (dict_get a "school" (JStr "unknown"))
  | _ => false
  end.

(** A campaign entry: a dict whose [spend], when present, is a number. *)
Definition well_formed_campaign (c : json) : bool :=
  match c with
  | JObj d => is_number (dict_get d "spend" (JNum 0))
  | _ => false
  end.

(** A campaign breakdown: per school, a list of campaign entries. *)
Definition well_formed_breakdown (b : json) : bool :=
  match b with
  | JObj d =>
      forallb
        (fun v => match v with
                  | JList cs => forallb well_formed_campaign cs
                  | _ => false
                  end)
        (map snd d)
  | _ => false
  end.

(** A metrics payload: per school, a dict of figures. *)
Definition well_formed_metrics (m : json) : bool :=
  match m with
  | JObj d => forallb is_dict (map snd d)
  | _ => false
  end.

(** CanonicalReport, as far as the rules read it. *)
Definition well_formed_report (report : json) : bool :=
  match report with
  | JObj r =>
      well_formed_breakdown (dict_get r "campaign_breakdown" (JObj [])) &&
      well_formed_metrics (dict_get r "metrics" (JObj []))
  | _ => false
  end.

(** The alert of the zero-conversions scenario. *)
Definition zero_conversions_alert : json :=
  JObj [ ("finding", JStr "Zero conversions despite $420 spend");
         ("school", JStr "beibei");
         ("level", JStr "red");
         ("impact_dollars", JNum 420) ].


(** The alert of the unmatched-finding scenario. *)
Definition unusual_pattern_alert : dict :=
  [ ("finding", JStr "Unusual pattern observed");
    ("action_required", JStr "Review manually") ].



(** An enriched alert of a given level and monthly impact, for the ranking
    scenario. *)
Definition ranked_alert (lv : string) (monthly : Z) : enriched :=
  mk_enriched ("beibei-zona-" ++ lv) "zona" (JStr lv) (JStr "beibei") lv
    monthly "estimated" (JStr "Review") [lv] [] (JStr "zona").


(** A reports directory holding two annunci reports, the second one newer,
    for the resolver scenario. *)
Definition example_glob (pattern : string) : list string :=
  if (pattern =? "/reports/annunci-*.json")%string then
    [ "/reports/annunci-2026-01-01.json"; "/reports/annunci-2026-01-08.json" ]
  else [].


Definition example_read (path : string) : option json :=
  if (path =? "/reports/annunci-2026-01-08.json")%string then
    Some (JObj [ ("date", JStr "2026-01-08") ])
  else None.



(** The ledger scenario: an empty local log on a writable disk, and a
    request that approves a fix without naming who approved it. *)
Definition empty_ledger : store := mk_store None None true [].

Definition example_request : request :=
  mk_request None None
    (JObj [ ("alert_id", JStr "beibei-annunci-42");
            ("fix_action", JStr "pause_campaign");
            ("status", JStr "rejected") ]).


(* ================================================================= *)
(** ** Listing endpoints: [api_alerts], [api_alerts_detailed],
       [api_approvals] *)

(** The ["id"] entries of [AGENTS], in order. *)
Definition AGENTS : list string :=
  [ "marco"; "annunci"; "bussola"; "spia"; "stella"; "zona"; "architetto";
    "penna"; "piazza"; "faccia"; "lettera"; "benvenuta" ].

(** [d[k] = v], and [{**d, k: v}]: an existing key keeps its place. *)
Fixpoint dict_set (d : dict) (k : string) (v : json) : dict :=
  match d with
  | [] => [(k, v)]
  | (k', v') :: rest =>
      if (k' =? k)%string then (k', v) :: rest
      else (k', v') :: dict_set rest k v
  end.

(** [x or dflt] *)
Definition py_or (x dflt : json) : json :=
  if truthy x then x else dflt.

(** Unary minus. *)
Definition py_neg (v : json) : result Z :=
  n <- py_number v ;; Ok (- n).

(** Running a loop body over a list, stopping at the first exception. *)
Fixpoint map_result {A B : Type} (f : A -> result B) (l : list A)
    : result (list B) :=
  match l with
  | [] => Ok []
  | x :: rest =>
      y <- f x ;;
      ys <- map_result f rest ;;
      Ok (y :: ys)
  end.

Fixpoint fold_result {A B : Type} (f : B -> A -> result B) (l : list A)
    (acc : B) : result B :=
  match l with
  | [] => Ok acc
  | x :: rest => acc' <- f acc x ;; fold_result f rest acc'
  end.

(** [list.sort(key=...)] for any element type, as [sort_alerts] has it. *)
Fixpoint decorate_with {A : Type} (key : A -> result (Z * Z)) (l : list A)
    : result (list ((Z * Z) * A)) :=
  match l with
  | [] => Ok []
  | a :: rest =>
      k <- key a ;;
      ks <- decorate_with key rest ;;
      Ok ((k, a) :: ks)
  end.

Definition sort_by {A : Type} (key : A -> result (Z * Z)) (l : list A)
    : result (list A) :=
  ks <- decorate_with key l ;; Ok (map snd (stable_sort ks)).

(** The order a sort by [key] leaves between an earlier and a later
    element. *)
Definition ordered_by {A : Type} (key : A -> result (Z * Z)) (x y : A) : Prop :=
  exists kx ky, key x = Ok kx /\ key y = Ok ky /\ key_lt ky kx = false.

Section RemoteRows.

(** [json.loads] on a [str]; [None] when it raises. *)
Variable json_loads : string -> option json.

(** Lines 131-140.  [json.loads] raises [TypeError] on a number or a bool,
    which the [except] turns into the value itself. *)
Definition _parse_json_field (val : json) : json :=
  match val with
  | JNull => JNull
  | JObj _ | JList _ => val
  | JStr s =>
      match json_loads s with
      | Some parsed => parsed
      | None => val
      end
  | _ => val
  end.

(** The loop body of lines 975-977. *)
Definition parse_alert_row (alert : json) : result json :=
  match alert with
  | JObj a =>
      let a1 :=
        dict_set a "evidence"
          (py_or (_parse_json_field (dict_get a "evidence" JNull)) (JList [])) in
      let a2 :=
        dict_set a1 "fixes"
          (py_or (_parse_json_field (dict_get a1 "fixes" JNull)) (JList [])) in
      Ok (JObj a2)
  | _ => Raise AttributeError
  end.

(** The key of line 980:
    [(order.get(a.get("level", ""), 3), -(a.get("impact_monthly") or 0))]. *)
Definition row_key (a : json) : result (Z * Z) :=
  lv <- py_get a "level" (JStr EmptyString) ;;
  r <- level_rank lv ;;
  monthly <- py_get a "impact_monthly" JNull ;;
  m <- py_neg (py_or monthly (JNum 0)) ;;
  Ok (r, m).

(** Lines 973-981: the rows the remote store answered, parsed and sorted. *)
Definition alerts_detailed_remote (sb_alerts : list json)
    : result (list json) :=
  rows <- map_result parse_alert_row sb_alerts ;;
  sort_by row_key rows.

(** The loop body of lines 1051-1052. *)
Definition parse_action_row (action : json) : result json :=
  match action with
  | JObj a =>
      Ok (JObj (dict_set a "result"
                  (_parse_json_field (dict_get a "result" JNull))))
  | _ => Raise AttributeError
  end.

(** Lines 1041-1056.  [sb_actions] is what [_sb_get] answered, [None] when
    the remote store is not configured or the query failed. *)
Definition api_approvals (sb_actions : option (list json)) (st : store)
    : result json :=
  match sb_actions with
  | Some rows =>
      parsed <- map_result parse_action_row rows ;; Ok (JList parsed)
  | None => Ok (load_approvals st)
  end.

End RemoteRows.

(** [a.get("level") == name] *)
Definition level_is (name : string) (a : json) : result bool :=
  lv <- py_get a "level" JNull ;;
  Ok (match lv with
      | JStr s => (s =? name)%string
      | _ => false
      end).

(** [sum(1 for a in rows if a.get("level") == name)] *)
Definition count_level (name : string) (rows : list json) : result Z :=
  hits <- map_result (level_is name) rows ;;
  Ok (Z.of_nat (length (filter (fun b : bool => b) hits))).

(** The counters and the list [api_alerts] answers with. *)
Record alert_summary : Type := mk_summary {
  red : Z;
  yellow : Z;
  green : Z;
  alerts : list json
}.

(** Lines 942-946: the summary of the rows the remote store answered. *)
Definition api_alerts_remote (sb_alerts : list json) : result alert_summary :=
  r <- count_level "red" sb_alerts ;;
  y <- count_level "yellow" sb_alerts ;;
  g <- count_level "green" sb_alerts ;;
  Ok (mk_summary r y g sb_alerts).

(** The loop body of lines 955-960. *)
Definition count_alert (agent_id : string) (acc : alert_summary)
    (alert : json) : result alert_summary :=
  match alert with
  | JObj a =>
      lv <- as_str (dict_get a "level" (JStr EmptyString)) ;;
      let level := lower lv in
      let tagged := JObj (dict_set a "agent" (JStr agent_id)) in
      let listed := (alerts acc ++ [tagged])%list in
      Ok (if (level =? "red")%string then
            mk_summary (red acc + 1) (yellow acc) (green acc) listed
          else if (level =? "yellow")%string then
            mk_summary (red acc) (yellow acc + 1) (green acc) listed
          else if (level =? "green")%string then
            mk_summary (red acc) (yellow acc) (green acc + 1) listed
          else mk_summary (red acc) (yellow acc) (green acc) listed)
  | _ => Raise AttributeError
  end.

(** [for alert in report.get("alerts", [])] *)
Definition report_alerts (report : json) : result (list json) :=
  items <- py_get report "alerts" (JList []) ;; py_iter items.

Section LocalListing.

Variable py_hash : string -> Z.
Variable py_repr : json -> string.

(** [find_latest_report] over the file system of the call. *)
Variable latest : string -> result json.

(** Lines 949-961, for the agents still to visit. *)
Fixpoint count_reports (agents : list string) (acc : alert_summary)
    : result alert_summary :=
  match agents with
  | [] => Ok acc
  | agent_id :: rest =>
      report <- latest agent_id ;;
      if negb (truthy report) then count_reports rest acc
      else
        items <- report_alerts report ;;
        acc' <- fold_result (count_alert agent_id) items acc ;;
        count_reports rest acc'
  end.

Definition api_alerts_local : result alert_summary :=
  count_reports AGENTS (mk_summary 0 0 0 []).

(** Lines 984-991, for the agents still to visit. *)
Fixpoint enrich_reports (agents : list string) : result (list enriched) :=
  match agents with
  | [] => Ok []
  | agent_id :: rest =>
      report <- latest agent_id ;;
      if negb (truthy report) then enrich_reports rest
      else
        items <- report_alerts report ;;
        es <- map_result
                (fun alert => enrich_alert py_hash py_repr alert agent_id report)
                items ;;
        more <- enrich_reports rest ;;
        Ok (es ++ more)%list
  end.

(** Lines 983-994. *)
Definition alerts_detailed_local : result (list enriched) :=
  all_alerts <- enrich_reports AGENTS ;; sort_alerts all_alerts.

End LocalListing.

(* ================================================================= *)
(** ** Lead capture: [_load_leads], [_save_lead], [demo_request],
       [api_leads] *)

(** The leads file as the handlers find it. *)
Record lead_store : Type := mk_leads {
  leads_file : option json;   (* parsed LEADS_FILE, None if unreadable *)
  leads_writable : bool       (* makedirs and open(..., "w") succeed *)
}.

Definition _load_leads (ls : lead_store) : json :=
  match leads_file ls with
  | Some doc => doc
  | None => JList []
  end.

Definition _save_lead (ls : lead_store) (lead : json) : result lead_store :=
  match _load_leads ls with
  | JList leads =>
      if leads_writable ls then
        Ok (mk_leads (Some (JList (leads ++ [lead])%list)) (leads_writable ls))
      else Raise OSError
  | _ => Raise AttributeError
  end.

(** The lead dict of lines 1221-1230; [now] is the clock of the call. *)
Definition make_lead (now : string) (data : dict) : dict :=
  [ ("name", dict_get data "name" (JStr EmptyString));
    ("school", dict_get data "school" (JStr EmptyString));
    ("email", dict_get data "email" (JStr EmptyString));
    ("phone", dict_get data "phone" (JStr EmptyString));
    ("website", dict_get data "website" (JStr EmptyString));
    ("message", dict_get data "message" (JStr EmptyString));
    ("timestamp", JStr now);
    ("source", dict_get data "source" (JStr "website")) ].

(** A response with the headers the handler sets on it. *)
Record cors_response : Type := mk_cors {
  cors_payload : option json;
  cors_headers : list (string * string)
}.

(** Lines 1212-1237.  [body] is the value [request.get_json()] returned at
    line 1220; when [get_json] raises instead (Flask answers 415 or 400 for
    a request without a JSON content type or with a body that does not
    parse) the handler stops there, and such a request is not a call of this
    function.  The two notification threads are started after the lead is
    saved and run detached; they are not part of the answer. *)
Definition demo_request (now method : string) (body : json) (ls : lead_store)
    : result cors_response * lead_store :=
  if (method =? "OPTIONS")%string then
    (Ok (mk_cors None
           [ ("Access-Control-Allow-Origin", "*");
             ("Access-Control-Allow-Headers", "Content-Type");
             ("Access-Control-Allow-Methods", "POST") ]), ls)
  else
    match py_or body (JObj []) with
    | JObj data =>
        match _save_lead ls (JObj (make_lead now data)) with
        | Ok ls' =>
            (Ok (mk_cors
                   (Some (JObj [ ("ok", JBool true);
                                 ("message",
                                  JStr "Thank you! We'll contact you within 1 business day.") ]))
                   [ ("Access-Control-Allow-Origin", "*") ]), ls')
        | Raise e => (Raise e, ls)
        end
    | _ => (Raise AttributeError, ls)
    end.

(** [request.args.get("key") or request.headers.get("X-API-Key")] *)
Definition presented_key (arg_key header_key : option string) : option string :=
  match arg_key with
  | Some k => if negb (k =? EmptyString)%string then Some k else header_key
  | None => header_key
  end.

(** Lines 1243-1250.  [logged_in] is [session.get("logged_in")]. *)
Definition api_leads (LEADS_API_KEY : string) (logged_in : json)
    (arg_key header_key : option string) (ls : lead_store) : response :=
  let key := presented_key arg_key header_key in
  if negb (truthy logged_in) &&
     (negb (truthy (JStr LEADS_API_KEY)) ||
      negb (match key with
            | Some k => (k =? LEADS_API_KEY)%string
            | None => false
            end))
  then mk_response 401 (JObj [ ("error", JStr "unauthorized") ])
  else mk_response 200 (_load_leads ls).

(** Replaying requests against the ledger, each with its own clock reading
    and remote behaviour. *)
Definition record_all (json_dumps : json -> string)
    (calls : list (string * remote_mode * request)) (st : store) : store :=
  fold_left
    (fun s call =>
       snd (api_fix (fst (fst call)) json_dumps (snd (fst call)) s (snd call)))
    calls st.

(** The approval a request with an object body asks to record. *)
Definition approval_of (call : string * remote_mode * request) : json :=
  match get_json (snd call) with
  | JObj d => JObj (make_approval (fst (fst call)) d)
  | _ => JNull
  end.

(** A request [api_fix] goes on to record. *)
Definition accepted (rq : request) : bool :=
  negb (demo_mode rq) && is_dict (get_json rq) && truthy (get_json rq).

(** Two records give the same advice: the same explanation and, fix by fix,
    the same action, assignee and estimated impact. *)
Definition same_advice (e1 e2 : enriched) : Prop :=
  why e1 = why e2 /\
  map action_type (fixes e1) = map action_type (fixes e2) /\
  map assigned_agent (fixes e1) = map assigned_agent (fixes e2) /\
  map estimated_impact (fixes e1) = map estimated_impact (fixes e2).



(** A decorated entry pairs an element with its own key. *)
Definition keyed_by {A : Type} (key : A -> result (Z * Z))
    (p : (Z * Z) * A) : Prop :=
  key (snd p) = Ok (fst p).

(** The element sorts under key [k]. *)
Definition has_key_by {A : Type} (key : A -> result (Z * Z)) (k : Z * Z)
    (a : A) : bool :=
  match key a with
  | Ok k' => key_eqb k' k
  | Raise _ => false
  end.

(** A parsed field is never left null: it is the empty list or a true
    value. *)
Definition filled (v : json) : Prop :=
  v = JList [] \/ truthy v = true.

(** A reports directory where two annunci reports carry the same, newest
    modification time, and one where a matching path cannot be stat-ed. *)
Definition tied_mtime (path : string) : option Z :=
  if (path =? "/reports/annunci-2026-01-01.json")%string then Some 200
  else if (path =? "/reports/annunci-2026-01-08.json")%string then Some 200
  else None.

Definition tied_read (path : string) : option json :=
  Some (JObj [ ("file", JStr path) ]).

Definition dangling_mtime (path : string) : option Z :=
  if (path =? "/reports/annunci-2026-01-01.json")%string then Some 100
  else None.

(** A local log that was overwritten with a JSON object. *)
Definition corrupt_ledger : store :=
  mk_store (Some (JObj [])) None true [].

(** A remote table that answers reads with its rows, newest first. *)
Definition newest_first (table : list json) : option (list json) :=
  Some (rev table).

(** The listed row's level, lower-cased, is [name]. *)
Definition lowered_level_is (name : string) (row : json) : bool :=
  match row with
  | JObj a =>
      match dict_get a "level" (JStr EmptyString) with
      | JStr lv => (lower lv =? name)%string
      | _ => false
      end
  | _ => false
  end.

Definition count_rows (name : string) (rows : list json) : Z :=
  Z.of_nat (length (filter (lowered_level_is name) rows)).

(** A listed row is an object that names one of the agents. *)
Definition tagged (row : json) : Prop :=
  exists a agent_id,
    row = JObj a /\ In agent_id AGENTS /\
    dict_get a "agent" JNull = JStr agent_id.

(** What [api_alerts] keeps true of its counters and its list. *)
Definition summary_consistent (s : alert_summary) : Prop :=
  red s = count_rows "red" (alerts s) /\
  yellow s = count_rows "yellow" (alerts s) /\
  green s = count_rows "green" (alerts s) /\
  red s + yellow s + green s <= Z.of_nat (length (alerts s)) /\
  Forall tagged (alerts s).

(** Where a listed row comes from: it is an alert [a] of the report
    [find_latest_report] gave for one of the agents, with its ["agent"] key
    set to that agent's id (overriding any value the alert had there). *)
Definition listed_from (latest : string -> result json) (row : json) : Prop :=
  exists agent_id report items a,
    In agent_id AGENTS /\
    latest agent_id = Ok report /\
    report_alerts report = Ok items /\
    In (JObj a) items /\
    row = JObj (dict_set a "agent" (JStr agent_id)) /\
    py_get row "agent" JNull = Ok (JStr agent_id).

(** Reports for the listing scenario: annunci has two alerts, one of them
    with its level in capitals and one without a level. *)
Definition example_latest (agent_id : string) : result json :=
  if (agent_id =? "annunci")%string then
    Ok (JObj [ ("alerts",
                JList [ JObj [ ("finding", JStr "CPA high");
                               ("level", JStr "RED");
                               ("agent", JStr "someone") ];
                        JObj [ ("finding", JStr "All good") ] ]) ])
  else Ok JNull.

(** Reports in which one bussola alert has a null finding. *)
Definition broken_latest (agent_id : string) : result json :=
  if (agent_id =? "bussola")%string then
    Ok (JObj [ ("alerts", JList [ JObj [ ("finding", JNull) ] ]) ])
  else example_latest agent_id.

(** An empty, writable leads file. *)
Definition no_leads : lead_store := mk_leads None true.

(** The row's level is exactly [name]. *)
Definition exact_level_is (name : string) (row : json) : bool :=
  match row with
  | JObj a =>
      match dict_get a "level" JNull with
      | JStr lv => (lv =? name)%string
      | _ => false
      end
  | _ => false
  end.

(** ** Latest report rows of the remote store: the loop of [api_reports] *)

(** Equality of two values used as dict keys: [True == 1], a string only
    equals a string. *)
Definition py_key_eqb (k1 k2 : json) : bool :=
  match k1, k2 with
  | JStr a, JStr b => (a =? b)%string
  | JNull, JNull => true
  | _, _ =>
      match as_int k1, as_int k2 with
      | Some x, Some y => x =? y
      | _, _ => false
      end
  end.

(** [k in d] for a dict with arbitrary keys. *)
Definition key_in (k : json) (d : list (json * json)) : bool :=
  existsb (fun kv => py_key_eqb (fst kv) k) d.

(** [row.get("agent", "")]: the agent a row is filed under. *)
Definition row_agent (r : dict) : json :=
  dict_get r "agent" (JStr EmptyString).

Section ReportRows.

Variable json_loads : string -> option json.

(** The dict literal of lines 905-914. *)
Definition report_entry (row : dict) (agent_key : json) : json :=
  JObj
    [ ("date", dict_get row "date" (JStr "unknown"));
      ("severity", dict_get row "severity" (JStr "unknown"));
      ("alerts",
         py_or (_parse_json_field json_loads (dict_get row "alerts" JNull))
           (JList []));
      ("metrics",
         py_or (_parse_json_field json_loads (dict_get row "metrics" JNull))
           (JObj []));
      ("summary", dict_get row "summary" (JStr EmptyString));
      ("agent", agent_key);
      ("client_slug", dict_get row "client_slug" JNull);
      ("source", JStr "supabase") ].

(** The loop body of lines 901-914: only the first row of an agent is
    taken. *)
Definition add_report_row (found : list (json * json)) (row : json)
    : result (list (json * json)) :=
  match row with
  | JObj r =>
      let agent_key := row_agent r in
      if truthy agent_key then
        if hashable agent_key then
          if key_in agent_key found then Ok found
          else Ok (found ++ [(agent_key, report_entry r agent_key)])%list
        else Raise TypeError
      else Ok found
  | _ => Raise AttributeError
  end.

(** Lines 900-914, over the rows the remote store answered, newest first. *)
Definition latest_rows_per_agent (sb_reports : list json)
    : result (list (json * json)) :=
  fold_result add_report_row sb_reports [].

End ReportRows.

(** No two entries have equal keys. *)
Fixpoint distinct_keys (d : list (json * json)) : Prop :=
  match d with
  | [] => True
  | kv :: rest => key_in (fst kv) rest = false /\ distinct_keys rest
  end.

(* ================================================================= *)
(** ** Agent cards: [extract_quick_stats] *)

(** [len(v)] *)
Definition py_len (v : json) : result Z :=
  match v with
  | JList l => Ok (Z.of_nat (length l))
  | JObj d => Ok (Z.of_nat (length d))
  | JStr s => Ok (Z.of_nat (String.length s))
  | _ => Raise TypeError
  end.

(** [sum(s.get(key, 0) for s in values)]: each element is fetched and added
    in turn. *)
Definition sum_field (key : string) (values : list json) : result Z :=
  fold_result
    (fun total s =>
       v <- py_get s key (JNum 0) ;;
       n <- py_number v ;;
       Ok (total + n))
    values 0.

Section QuickStats.

(** [f"{n:.0f}"] on an integer. *)
Variable format_0f : Z -> string.

(** Lines 577-594. *)
Definition extract_quick_stats (agent_id : string) (report : json)
    : result dict :=
  if negb (truthy report) then Ok []
  else if (agent_id =? "annunci")%string then
    spend <- py_get report "spend" (JObj []) ;;
    values <- py_values spend ;;
    total_spend <- sum_field "weekly_spend" values ;;
    values' <- py_values spend ;;
    total_conv <- sum_field "conversions" values' ;;
    items <- py_get report "alerts" (JList []) ;;
    n <- py_len items ;;
    Ok [ ("Spend (7d)", JStr ("$" ++ format_0f total_spend));
         ("Conversions", JNum total_conv);
         ("Alerts", JNum n) ]
  else if (agent_id =? "spia")%string then
    kw <- py_get report "keywords" (JObj []) ;;
    beibei <- py_get kw "beibei" (JList []) ;;
    nb <- py_len beibei ;;
    amici <- py_get kw "amici" (JList []) ;;
    na <- py_len amici ;;
    items <- py_get report "alerts" (JList []) ;;
    n <- py_len items ;;
    Ok [ ("Keywords Tracked", JNum (nb + na)); ("Alerts", JNum n) ]
  else if (agent_id =? "zona")%string then
    m <- py_get report "metrics" (JObj []) ;;
    bb <- py_get m "beibei" (JObj []) ;;
    live <- py_get bb "pages_live" (JStr "?") ;;
    indexed <- py_get bb "pages_indexed" (JStr "?") ;;
    items <- py_get report "alerts" (JList []) ;;
    n <- py_len items ;;
    Ok [ ("Pages Live", live); ("Indexed", indexed); ("Alerts", JNum n) ]
  else if (agent_id =? "bussola")%string then
    items <- py_get report "alerts" (JList []) ;;
    n <- py_len items ;;
    Ok [ ("Alerts", JNum n) ]
  else
    severity <- py_get report "severity" (JStr "unknown") ;;
    Ok [ ("Severity", severity) ].

End QuickStats.

(* ================================================================= *)
(** * Properties *)

(** ** Dict and loop lemmas *)

Lemma dict_get_absent (d : dict) (k : string) (dflt : json) :
  lookup k d = None -> dict_get d k dflt = dflt.
Proof. unfold dict_get. intros ->. reflexivity. Qed.

Lemma dict_get_present (d : dict) (k : string) (dflt v : json) :
  lookup k d = Some v -> dict_get d k dflt = v.
Proof. unfold dict_get. intros ->. reflexivity. Qed.

Lemma lookup_forallb (P : json -> bool) (d : dict) (k : string) (v : json) :
  forallb P (map snd d) = true -> lookup k d = Some v -> P v = true.
Proof.
  induction d as [|[k' v'] d IH]; simpl; intros Hall Hk.
  - discriminate.
  - apply andb_true_iff in Hall as [Hv Hd].
    destruct (k' =? k)%string.
    + inversion Hk; subst; exact Hv.
    + apply IH; assumption.
Qed.

Lemma dict_get_forallb (P : json -> bool) (d : dict) (k : string) (dflt : json) :
  forallb P (map snd d) = true -> P dflt = true -> P (dict_get d k dflt) = true.
Proof.
  intros Hall Hd. unfold dict_get.
  destruct (lookup k d) eqn:E.
  - eapply lookup_forallb; eassumption.
  - exact Hd.
Qed.

Lemma is_number_py_number (v : json) :
  is_number v = true -> exists n, py_number v = Ok n.
Proof.
  unfold is_number, py_number. destruct (as_int v); intros H.
  - eauto.
  - discriminate.
Qed.

Lemma scan_campaigns_returns (cs : list json) :
  forallb well_formed_campaign cs = true ->
  exists hit, scan_campaigns cs = Ok hit.
Proof.
  induction cs as [|c cs IH]; simpl; intros Hall.
  - eauto.
  - apply andb_true_iff in Hall as [Hc Hcs].
    destruct c; try discriminate. simpl.
    destruct (py_eq_int _ 0); [|auto].
    apply is_number_py_number in Hc as [n Hn].
    unfold py_gt. rewrite Hn. simpl.
    destruct (50 <? n); eauto.
Qed.

Lemma find_campaign_returns (schools : list json) :
  forallb (fun v => match v with
                    | JList cs => forallb well_formed_campaign cs
                    | _ => false
                    end) schools = true ->
  forall name, exists name', find_campaign schools name = Ok name'.
Proof.
  induction schools as [|s schools IH]; simpl; intros Hall name.
  - eauto.
  - apply andb_true_iff in Hall as [Hs Hrest].
    destruct s; try discriminate. simpl.
    destruct (scan_campaigns_returns l Hs) as [hit ->]. simpl.
    apply IH; assumption.
Qed.

Lemma zona_metric_returns (r : dict) (school : json) (key : string) :
  well_formed_metrics (dict_get r "metrics" (JObj [])) = true ->
  hashable school = true ->
  exists v, zona_metric (JObj r) school key = Ok v.
Proof.
  intros Hm Hs. unfold zona_metric. simpl.
  destruct (dict_get r "metrics" (JObj [])) as [| | | | |m]; try discriminate.
  simpl in Hm.
  assert (Hd : forall dflt, is_dict dflt = true ->
            exists v, py_get dflt key (JStr "?") = Ok v).
  { intros [] Hx; try discriminate. simpl; eauto. }
  destruct school; try discriminate; cbn [py_get_key bind];
    try (apply Hd; reflexivity).
  apply Hd. apply dict_get_forallb; [assumption | reflexivity].
Qed.

(** ** The rule chain and the record it leaves *)

Ltac fire :=
  do 3 eexists; split; [reflexivity | repeat split; discriminate].

Ltac returned H :=
  match type of H with
  | Ok _ = Ok _ => inversion H; subst; clear H
  end.

Ltac other_kinds :=
  right; cbn [fixes diagnose]; unfold fix_of;
  repeat (constructor; [cbn [action_type]; discriminate|]); constructor.

Section EnrichmentFacts.

Variable py_hash : string -> Z.
Variable py_repr : json -> string.

Lemma annunci_rules_cases e report finding raw impact n e' :
  annunci_rules py_repr e report finding raw impact n = Ok e' ->
  let hit := annunci_zero_conversions finding || annunci_high_cpa finding ||
             annunci_collapsed finding || annunci_performing finding in
  (hit = false /\ e' = e) \/ (hit = true /\ fired e e').
Proof.
  unfold annunci_rules.
  destruct (annunci_zero_conversions finding) eqn:E1; cbn [orb].
  { destruct (py_get report "campaign_breakdown" (JObj [])) as [b|];
      cbn [bind]; [|discriminate].
    destruct (py_values b) as [schools|]; cbn [bind]; [|discriminate].
    destruct (find_campaign schools (JStr EmptyString)) as [name|];
      cbn [bind]; [|discriminate].
    intros H; returned H. right; split; [reflexivity | fire]. }
  destruct (annunci_high_cpa finding) eqn:E2; cbn [orb].
  { intros H; returned H. right; split; [reflexivity | fire]. }
  destruct (annunci_collapsed finding) eqn:E3; cbn [orb].
  { intros H; returned H. right; split; [reflexivity | fire]. }
  destruct (annunci_performing finding) eqn:E4.
  { intros H; returned H. right; split; [reflexivity | fire]. }
  intros H; returned H. left; split; reflexivity.
Qed.

Lemma zona_rules_cases e report finding raw school n e' :
  zona_rules py_repr e report finding raw school n = Ok e' ->
  let hit := zona_deindexed finding || zona_zero_results finding ||
             zona_not_indexed finding in
  (hit = false /\ e' = e) \/ (hit = true /\ fired e e').
Proof.
  unfold zona_rules.
  destruct (zona_deindexed finding) eqn:E1; cbn [orb].
  { destruct (zona_metric report school "pages_live") as [live|];
      cbn [bind]; [|discriminate].
    destruct (zona_metric report school "pages_indexed") as [indexed|];
      cbn [bind]; [|discriminate].
    intros H; returned H. right; split; [reflexivity | fire]. }
  destruct (zona_zero_results finding) eqn:E2; cbn [orb].
  { intros H; returned H. right; split; [reflexivity | fire]. }
  destruct (zona_not_indexed finding) eqn:E3.
  { intros H; returned H. right; split; [reflexivity | fire]. }
  intros H; returned H. left; split; reflexivity.
Qed.

Lemma spia_rules_cases e finding raw :
  let hit := spia_dropped finding || spia_ranking finding in
  (hit = false /\ spia_rules e finding raw = e) \/
  (hit = true /\ fired e (spia_rules e finding raw)).
Proof.
  unfold spia_rules.
  destruct (spia_dropped finding); cbn [orb].
  { right; split; [reflexivity | fire]. }
  destruct (spia_ranking finding).
  { right; split; [reflexivity | fire]. }
  left; split; reflexivity.
Qed.

Lemma bussola_rules_cases e finding raw :
  let hit := bussola_zero_conversions finding || bussola_bounce finding in
  (hit = false /\ bussola_rules e finding raw = e) \/
  (hit = true /\ fired e (bussola_rules e finding raw)).
Proof.
  unfold bussola_rules.
  destruct (bussola_zero_conversions finding); cbn [orb].
  { right; split; [reflexivity | fire]. }
  destruct (bussola_bounce finding).
  { right; split; [reflexivity | fire]. }
  left; split; reflexivity.
Qed.

(** The dispatch either leaves the record untouched, exactly when no rule of
    the agent's chain matches, or applies one rule. *)
Lemma apply_rules_cases e agent_id report finding raw school impact n e' :
  apply_rules py_repr e agent_id report finding raw school impact n = Ok e' ->
  (rule_matches agent_id finding = false /\ e' = e) \/
  (rule_matches agent_id finding = true /\ fired e e').
Proof.
  unfold apply_rules, rule_matches.
  destruct (agent_id =? "annunci")%string.
  { apply annunci_rules_cases. }
  destruct (agent_id =? "zona")%string.
  { apply zona_rules_cases. }
  destruct (agent_id =? "spia")%string.
  { intros H; returned H. apply spia_rules_cases. }
  destruct (agent_id =? "bussola")%string.
  { intros H; returned H. apply bussola_rules_cases. }
  intros H; returned H. left; split; reflexivity.
Qed.

(** On a typed report and a scalar school the dispatch returns. *)
Lemma apply_rules_returns e agent_id report finding raw school impact n :
  well_formed_report report = true ->
  hashable school = true ->
  exists e', apply_rules py_repr e agent_id report finding raw school impact n
             = Ok e'.
Proof.
  intros Hr Hs. destruct report as [| | | | |r]; try discriminate.
  simpl in Hr. apply andb_true_iff in Hr as [Hb Hm].
  unfold apply_rules.
  destruct (agent_id =? "annunci")%string.
  { unfold annunci_rules.
    destruct (annunci_zero_conversions finding).
    - cbn [py_get bind].
      destruct (dict_get r "campaign_breakdown" (JObj [])) as [| | | | |b];
        try discriminate.
      cbn [py_values bind]. simpl in Hb.
      destruct (find_campaign_returns _ Hb (JStr EmptyString)) as [name ->].
      cbn [bind]. eauto.
    - destruct (annunci_high_cpa finding); [eauto|].
      destruct (annunci_collapsed finding); [eauto|].
      destruct (annunci_performing finding); eauto. }
  destruct (agent_id =? "zona")%string.
  { unfold zona_rules.
    destruct (zona_deindexed finding).
    - destruct (zona_metric_returns r school "pages_live" Hm Hs) as [v1 ->].
      destruct (zona_metric_returns r school "pages_indexed" Hm Hs) as [v2 ->].
      cbn [bind]. eauto.
    - destruct (zona_zero_results finding); [eauto|].
      destruct (zona_not_indexed finding); eauto. }
  destruct (agent_id =? "spia")%string; [eauto|].
  destruct (agent_id =? "bussola")%string; eauto.
Qed.

End EnrichmentFacts.

(** ** What [enrich_alert] returns *)

Lemma truthy_nonempty (w : string) :
  w <> EmptyString -> truthy (JStr w) = true.
Proof.
  intros Hw. simpl. apply negb_true_iff. apply String.eqb_neq. exact Hw.
Qed.

Section EnrichmentShape.

Variable py_hash : string -> Z.
Variable py_repr : json -> string.

(** No rule matches: the dispatch returns the record as it got it, without
    reading the report. *)
Lemma apply_rules_unmatched e agent_id report finding raw school impact n :
  rule_matches agent_id finding = false ->
  apply_rules py_repr e agent_id report finding raw school impact n = Ok e.
Proof.
  unfold apply_rules, rule_matches, annunci_rules, zona_rules, spia_rules,
    bussola_rules.
  destruct (agent_id =? "annunci")%string.
  { destruct (annunci_zero_conversions finding); [discriminate|].
    destruct (annunci_high_cpa finding); [discriminate|].
    destruct (annunci_collapsed finding); [discriminate|].
    destruct (annunci_performing finding); [discriminate|].
    reflexivity. }
  destruct (agent_id =? "zona")%string.
  { destruct (zona_deindexed finding); [discriminate|].
    destruct (zona_zero_results finding); [discriminate|].
    destruct (zona_not_indexed finding); [discriminate|].
    reflexivity. }
  destruct (agent_id =? "spia")%string.
  { destruct (spia_dropped finding); [discriminate|].
    destruct (spia_ranking finding); [discriminate|].
    reflexivity. }
  destruct (agent_id =? "bussola")%string.
  { destruct (bussola_zero_conversions finding); [discriminate|].
    destruct (bussola_bounce finding); [discriminate|].
    reflexivity. }
  reflexivity.
Qed.

(** Every returned record is the initial record with its diagnosis filled in
    either by the fallback (no rule matched) or by one rule. *)
Lemma enrich_alert_shape alert agent_id report e :
  enrich_alert py_hash py_repr alert agent_id report = Ok e ->
  exists a raw n w ev fx,
    alert = JObj a /\
    dict_get a "finding" (JStr EmptyString) = JStr raw /\
    as_int (dict_get a "impact_dollars" (JNum 0)) = Some n /\
    e = diagnose (base_record py_hash py_repr a agent_id raw n) w ev fx /\
    ((rule_matches agent_id (lower raw) = false /\
      w = dict_get a "action_required"
            (JStr "Investigation needed to determine root cause.") /\
      ev = [raw] /\ fx = [manual_review_fix a agent_id]) \/
     (rule_matches agent_id (lower raw) = true /\
      exists s, w = JStr s /\ s <> EmptyString /\ ev <> [] /\ fx <> [])).
Proof.
  unfold enrich_alert. destruct alert as [| | | | |a]; try discriminate.
  destruct (dict_get a "finding" (JStr EmptyString)) as [| | |raw| |] eqn:Ef;
    try discriminate.
  cbn [as_str bind]. unfold py_number.
  destruct (as_int (dict_get a "impact_dollars" (JNum 0))) as [n|] eqn:En;
    [|discriminate].
  cbn [bind].
  destruct (apply_rules _ _ _ _ _ _ _ _ _) as [e'|] eqn:Er; [|discriminate].
  cbn [bind]. intros H; returned H.
  apply apply_rules_cases in Er as [[Hm ->] | [Hm (w & ev & fx & -> & Hw & Hev & Hfx)]].
  - exists a, raw, n,
      (dict_get a "action_required"
         (JStr "Investigation needed to determine root cause.")),
      [raw], [manual_review_fix a agent_id].
    split; [reflexivity|]. split; [exact Ef|]. split; [exact En|].
    split; [reflexivity|]. left. auto.
  - exists a, raw, n, (JStr w), ev, fx.
    split; [reflexivity|]. split; [exact Ef|]. split; [exact En|].
    split.
    + unfold fallback. cbn [why diagnose].
      rewrite (truthy_nonempty w Hw). reflexivity.
    + right. split; [assumption|]. exists w. auto.
Qed.

(** Typed inputs are always enriched. *)
Lemma enrich_alert_returns alert agent_id report :
  well_formed_alert alert = true ->
  well_formed_report report = true ->
  exists e, enrich_alert py_hash py_repr alert agent_id report = Ok e.
Proof.
  intros Ha Hr. destruct alert as [| | | | |a]; try discriminate.
  simpl in Ha. apply andb_true_iff in Ha as [Ha Hs].
  apply andb_true_iff in Ha as [Hf Hn].
  unfold enrich_alert.
  destruct (dict_get a "finding" (JStr EmptyString)) as [| | |raw| |];
    try discriminate.
  cbn [as_str bind].
  destruct (is_number_py_number _ Hn) as [n ->]. cbn [bind].
  destruct (apply_rules_returns py_repr
              (base_record py_hash py_repr a agent_id raw n) agent_id report
              (lower raw) raw (dict_get a "school" (JStr "unknown"))
              (dict_get a "impact_dollars" (JNum 0)) n Hr Hs) as [e' ->].
  cbn [bind]. eauto.
Qed.

End EnrichmentShape.

(** ** The engine over the interpreter's lower-casing *)

Section EnrichmentLoweringFacts.

Variable str_lower : string -> string.
Variable py_hash : string -> Z.
Variable py_repr : json -> string.

(** With the ASCII lower-casing the parameterised engine is
    [enrich_alert]. *)
Lemma enrich_alert_with_lower alert agent_id report :
  enrich_alert_with lower py_hash py_repr alert agent_id report =
  enrich_alert py_hash py_repr alert agent_id report.
Proof. reflexivity. Qed.

(** Every returned record is the initial record with its diagnosis filled in
    either by the fallback (no rule matched the lower-cased finding) or by one
    rule. *)
Lemma enrich_alert_with_shape alert agent_id report e :
  enrich_alert_with str_lower py_hash py_repr alert agent_id report = Ok e ->
  exists a raw n w ev fx,
    alert = JObj a /\
    dict_get a "finding" (JStr EmptyString) = JStr raw /\
    as_int (dict_get a "impact_dollars" (JNum 0)) = Some n /\
    e = diagnose (base_record py_hash py_repr a agent_id raw n) w ev fx /\
    ((rule_matches agent_id (str_lower raw) = false /\
      w = dict_get a "action_required"
            (JStr "Investigation needed to determine root cause.") /\
      ev = [raw] /\ fx = [manual_review_fix a agent_id]) \/
     (rule_matches agent_id (str_lower raw) = true /\
      exists s, w = JStr s /\ s <> EmptyString /\ ev <> [] /\ fx <> [])).
Proof.
  unfold enrich_alert_with. destruct alert as [| | | | |a]; try discriminate.
  destruct (dict_get a "finding" (JStr EmptyString)) as [| | |raw| |] eqn:Ef;
    try discriminate.
  cbn [as_str bind]. unfold py_number.
  destruct (as_int (dict_get a "impact_dollars" (JNum 0))) as [n|] eqn:En;
    [|discriminate].
  cbn [bind].
  destruct (apply_rules _ _ _ _ _ _ _ _ _) as [e'|] eqn:Er; [|discriminate].
  cbn [bind]. intros H; returned H.
  apply apply_rules_cases in Er
    as [[Hm ->] | [Hm (w & ev & fx & -> & Hw & Hev & Hfx)]].
  - exists a, raw, n,
      (dict_get a "action_required"
         (JStr "Investigation needed to determine root cause.")),
      [raw], [manual_review_fix a agent_id].
    split; [reflexivity|]. split; [exact Ef|]. split; [exact En|].
    split; [reflexivity|]. left. auto.
  - exists a, raw, n, (JStr w), ev, fx.
    split; [reflexivity|]. split; [exact Ef|]. split; [exact En|].
    split.
    + unfold fallback. cbn [why diagnose].
      rewrite (truthy_nonempty w Hw). reflexivity.
    + right. split; [assumption|]. exists w. auto.
Qed.

(** Typed inputs are always enriched. *)
Lemma enrich_alert_with_returns alert agent_id report :
  well_formed_alert alert = true ->
  well_formed_report report = true ->
  exists e,
    enrich_alert_with str_lower py_hash py_repr alert agent_id report = Ok e.
Proof.
  intros Ha Hr. destruct alert as [| | | | |a]; try discriminate.
  simpl in Ha. apply andb_true_iff in Ha as [Ha Hs].
  apply andb_true_iff in Ha as [Hf Hn].
  unfold enrich_alert_with.
  destruct (dict_get a "finding" (JStr EmptyString)) as [| | |raw| |];
    try discriminate.
  cbn [as_str bind].
  destruct (is_number_py_number _ Hn) as [n ->]. cbn [bind].
  destruct (apply_rules_returns py_repr
              (base_record py_hash py_repr a agent_id raw n) agent_id report
              (str_lower raw) raw (dict_get a "school" (JStr "unknown"))
              (dict_get a "impact_dollars" (JNum 0)) n Hr Hs) as [e' ->].
  cbn [bind]. eauto.
Qed.

(** No rule of any chain writes a manual_review fix: the dispatch either
    leaves the record as it got it or leaves fixes of other kinds. *)
Lemma apply_rules_fix_kinds e agent_id report finding raw school impact n e' :
  apply_rules py_repr e agent_id report finding raw school impact n = Ok e' ->
  e' = e \/
  Forall (fun f => action_type f <> "manual_review") (fixes e').
Proof.
  unfold apply_rules, annunci_rules, zona_rules, spia_rules, bussola_rules.
  destruct (agent_id =? "annunci")%string.
  { destruct (annunci_zero_conversions finding).
    { destruct (py_get report "campaign_breakdown" (JObj [])) as [b|];
        cbn [bind]; [|discriminate].
      destruct (py_values b) as [schools|]; cbn [bind]; [|discriminate].
      destruct (find_campaign schools (JStr EmptyString)) as [name|];
        cbn [bind]; [|discriminate].
      intros H; returned H. other_kinds. }
    destruct (annunci_high_cpa finding).
    { intros H; returned H. other_kinds. }
    destruct (annunci_collapsed finding).
    { intros H; returned H. other_kinds. }
    destruct (annunci_performing finding).
    { intros H; returned H. other_kinds. }
    intros H; returned H. left; reflexivity. }
  destruct (agent_id =? "zona")%string.
  { destruct (zona_deindexed finding).
    { destruct (zona_metric report school "pages_live") as [live|];
        cbn [bind]; [|discriminate].
      destruct (zona_metric report school "pages_indexed") as [indexed|];
        cbn [bind]; [|discriminate].
      intros H; returned H. other_kinds. }
    destruct (zona_zero_results finding).
    { intros H; returned H. other_kinds. }
    destruct (zona_not_indexed finding).
    { intros H; returned H. other_kinds. }
    intros H; returned H. left; reflexivity. }
  destruct (agent_id =? "spia")%string.
  { intros H; returned H.
    destruct (spia_dropped finding); [other_kinds|].
    destruct (spia_ranking finding); [other_kinds|].
    left; reflexivity. }
  destruct (agent_id =? "bussola")%string.
  { intros H; returned H.
    destruct (bussola_zero_conversions finding); [other_kinds|].
    destruct (bussola_bounce finding); [other_kinds|].
    left; reflexivity. }
  intros H; returned H. left; reflexivity.
Qed.

(** A manual_review fix in a returned record can only be the fallback's, and
    then [why] is the fallback's as well. *)
Lemma manual_review_only_from_fallback alert agent_id report e f :
  enrich_alert_with str_lower py_hash py_repr alert agent_id report = Ok e ->
  In f (fixes e) ->
  action_type f = "manual_review" ->
  exists a,
    alert = JObj a /\
    why e = dict_get a "action_required"
              (JStr "Investigation needed to determine root cause.") /\
    f = manual_review_fix a agent_id.
Proof.
  unfold enrich_alert_with. destruct alert as [| | | | |a]; try discriminate.
  destruct (dict_get a "finding" (JStr EmptyString)) as [| | |raw| |] eqn:Ef;
    try discriminate.
  cbn [as_str bind]. unfold py_number.
  destruct (as_int (dict_get a "impact_dollars" (JNum 0))) as [n|] eqn:En;
    [|discriminate].
  cbn [bind].
  destruct (apply_rules _ _ _ _ _ _ _ _ _) as [e'|] eqn:Er; [|discriminate].
  cbn [bind]. intros H; returned H.
  pose proof (apply_rules_fix_kinds _ _ _ _ _ _ _ _ _ Er) as Hkinds.
  apply apply_rules_cases in Er
    as [[Hm ->] | [Hm (w & ev & fx & -> & Hw & Hev & Hfx)]].
  - unfold fallback. cbn [why base_record truthy String.eqb negb fixes
                          diagnose].
    intros [<-|[]] _. exists a. auto.
  - unfold fallback. cbn [why diagnose].
    rewrite (truthy_nonempty w Hw). cbn [negb fixes diagnose].
    intros Hin Hact. exfalso.
    destruct Hkinds as [Heq | Hall].
    + apply (f_equal why) in Heq. cbn [why diagnose base_record] in Heq.
      inversion Heq. contradiction.
    + cbn [fixes diagnose] in Hall.
      apply (proj1 (Forall_forall _ _) Hall f Hin). exact Hact.
Qed.

End EnrichmentLoweringFacts.

(** ** Impact figures *)

(** C1. Whatever [enrich_alert] returns has [impact_monthly] equal to four
    times [impact_dollars] when that is positive, and 0 when it is 0 or the
    field is absent; and on typed inputs it does return. *)
Theorem impact_monthly_is_four_times_weekly
    (py_hash : string -> Z) (py_repr : json -> string)
    (alert : json) (agent_id : string) (report : json) :
  (forall e, enrich_alert py_hash py_repr alert agent_id report = Ok e ->
     exists a n,
       alert = JObj a /\
       as_int (dict_get a "impact_dollars" (JNum 0)) = Some n /\
       (0 < n -> impact_monthly e = n * 4) /\
       (n = 0 -> impact_monthly e = 0) /\
       (lookup "impact_dollars" a = None -> impact_monthly e = 0)) /\
  (well_formed_alert alert = true -> well_formed_report report = true ->
   exists e, enrich_alert py_hash py_repr alert agent_id report = Ok e).
Proof.
  split; [|apply enrich_alert_returns].
  intros e He.
  apply enrich_alert_shape in He
    as (a & raw & n & w & ev & fx & -> & _ & Hn & -> & _).
  exists a, n. split; [reflexivity|]. split; [exact Hn|].
  cbn [impact_monthly diagnose base_record].
  split; [|split].
  - intros Hpos. apply Z.ltb_lt in Hpos. rewrite Hpos. reflexivity.
  - intros ->. reflexivity.
  - intros Habs. rewrite (dict_get_absent _ _ _ Habs) in Hn.
    inversion Hn; subst. reflexivity.
Qed.

Lemma impact_monthly_is_four_times_weekly_witness :
  exists e,
    enrich_alert (fun _ => 0) (fun _ => EmptyString)
      zero_conversions_alert "annunci" (JObj []) = Ok e /\
    impact_monthly e = 420 * 4.
Proof.
  destruct (impact_monthly_is_four_times_weekly (fun _ => 0)
              (fun _ => EmptyString) zero_conversions_alert "annunci"
              (JObj [])) as [Hval Hret].
  destruct (Hret eq_refl eq_refl) as [e He].
  exists e. split; [exact He|].
  destruct (Hval e He) as (a & n & Ha & Hn & Hpos & _).
  inversion Ha; subst a. vm_compute in Hn. inversion Hn; subst n.
  apply Hpos. reflexivity.
Defined.

(** C2. Whatever [enrich_alert] returns has [impact_type] "confirmed"
    exactly when the agent is annunci or bussola and [impact_dollars] is
    positive, and "estimated" in every other case; and on typed inputs it
    does return. *)
Theorem impact_type_confirmed_iff
    (py_hash : string -> Z) (py_repr : json -> string)
    (alert : json) (agent_id : string) (report : json) :
  (forall e, enrich_alert py_hash py_repr alert agent_id report = Ok e ->
     exists a n,
       alert = JObj a /\
       as_int (dict_get a "impact_dollars" (JNum 0)) = Some n /\
       (impact_type e = "confirmed" <->
        (agent_id = "annunci" \/ agent_id = "bussola") /\ 0 < n) /\
       (impact_type e <> "confirmed" -> impact_type e = "estimated")) /\
  (well_formed_alert alert = true -> well_formed_report report = true ->
   exists e, enrich_alert py_hash py_repr alert agent_id report = Ok e).
Proof.
  split; [|apply enrich_alert_returns].
  intros e He.
  apply enrich_alert_shape in He
    as (a & raw & n & w & ev & fx & -> & _ & Hn & -> & _).
  exists a, n. split; [reflexivity|]. split; [exact Hn|].
  cbn [impact_type diagnose base_record].
  destruct (String.eqb_spec agent_id "annunci") as [Ha|Ha];
    destruct (String.eqb_spec agent_id "bussola") as [Hb|Hb];
    destruct (Z.ltb_spec 0 n) as [Hp|Hp]; cbn [andb];
    (split; [split|]);
    try (intros; reflexivity);
    try (intros; discriminate);
    try (intros; split; [auto | assumption]);
    try (intros [[?|?] ?]; first [contradiction | lia]);
    try (intros H; exfalso; apply H; reflexivity).
Qed.

Lemma impact_type_confirmed_iff_witness :
  exists e,
    enrich_alert (fun _ => 0) (fun _ => EmptyString)
      zero_conversions_alert "annunci" (JObj []) = Ok e /\
    impact_type e = "confirmed".
Proof.
  destruct (impact_type_confirmed_iff (fun _ => 0)
              (fun _ => EmptyString) zero_conversions_alert "annunci"
              (JObj [])) as [Hval Hret].
  destruct (Hret eq_refl eq_refl) as [e He].
  exists e. split; [exact He|].
  destruct (Hval e He) as (a & n & Ha & Hn & Hiff & _).
  inversion Ha; subst a. vm_compute in Hn. inversion Hn; subst n.
  apply Hiff. split; [left; reflexivity | reflexivity].
Defined.

(** ** Diagnosis: rules and fallback *)

(** The zero-conversions rule heads the annunci chain: when it matches, its
    fixes are the ones written, whatever later rules would match. *)
Lemma annunci_zero_conversions_first
    (py_repr : json -> string) e report finding raw impact n e' :
  annunci_zero_conversions finding = true ->
  annunci_rules py_repr e report finding raw impact n = Ok e' ->
  exists w f rest,
    why e' = JStr w /\ w <> EmptyString /\
    fixes e' = f :: rest /\ action_type f = "pause_campaign" /\
    impact_monthly e' = impact_monthly e /\ impact_type e' = impact_type e.
Proof.
  intros Hz. unfold annunci_rules. rewrite Hz.
  destruct (py_get report "campaign_breakdown" (JObj [])) as [b|];
    cbn [bind]; [|discriminate].
  destruct (py_values b) as [schools|]; cbn [bind]; [|discriminate].
  destruct (find_campaign schools (JStr EmptyString)) as [name|];
    cbn [bind]; [|discriminate].
  intros H; returned H.
  do 3 eexists. cbn [why fixes diagnose action_type].
  split; [reflexivity|]. split; [discriminate|].
  repeat split; reflexivity.
Qed.

(** C4. The zero-conversions alert of the advertising-spend agent enriches,
    with any report, to a confirmed impact of 1680 a month and a fixes list
    headed by the pause_campaign fix; more generally the first rule of the
    annunci chain wins on every finding it matches; and on every typed
    report the scenario does return. *)
Theorem zero_conversions_scenario
    (py_hash : string -> Z) (py_repr : json -> string) (report : json) :
  (forall e,
     enrich_alert py_hash py_repr zero_conversions_alert "annunci" report
       = Ok e ->
     impact_type e = "confirmed" /\ impact_monthly e = 1680 /\
     exists f rest, fixes e = f :: rest /\ action_type f = "pause_campaign") /\
  (forall a raw e,
     dict_get a "finding" (JStr EmptyString) = JStr raw ->
     annunci_zero_conversions (lower raw) = true ->
     enrich_alert py_hash py_repr (JObj a) "annunci" report = Ok e ->
     exists f rest, fixes e = f :: rest /\ action_type f = "pause_campaign") /\
  (well_formed_report report = true ->
   exists e,
     enrich_alert py_hash py_repr zero_conversions_alert "annunci" report
       = Ok e).
Proof.
  assert (Hgen : forall a raw e,
     dict_get a "finding" (JStr EmptyString) = JStr raw ->
     annunci_zero_conversions (lower raw) = true ->
     enrich_alert py_hash py_repr (JObj a) "annunci" report = Ok e ->
     exists n f rest,
       as_int (dict_get a "impact_dollars" (JNum 0)) = Some n /\
       fixes e = f :: rest /\ action_type f = "pause_campaign" /\
       impact_monthly e =
         impact_monthly (base_record py_hash py_repr a "annunci" raw n) /\
       impact_type e =
         impact_type (base_record py_hash py_repr a "annunci" raw n)).
  { intros a raw e Hf Hz. unfold enrich_alert. rewrite Hf.
    cbn [as_str bind]. unfold py_number.
    destruct (as_int (dict_get a "impact_dollars" (JNum 0))) as [n|];
      [|discriminate].
    cbn [bind]. unfold apply_rules.
    replace ("annunci" =? "annunci")%string with true by reflexivity.
    destruct (annunci_rules _ _ _ _ _ _ _) as [e'|] eqn:Er; [|discriminate].
    cbn [bind]. intros H; returned H.
    destruct (annunci_zero_conversions_first _ _ _ _ _ _ _ _ Hz Er)
      as (w & f & rest & Hw & Hne & Hfx & Hact & Him & Hit).
    exists n, f, rest. split; [reflexivity|].
    unfold fallback. rewrite Hw, (truthy_nonempty w Hne). cbn [negb].
    auto. }
  split; [|split].
  - intros e He. unfold zero_conversions_alert in He.
    match type of He with
    | enrich_alert _ _ (JObj ?a) _ _ = _ =>
        destruct (Hgen a "Zero conversions despite $420 spend" e
                    eq_refl eq_refl He)
          as (n & f & rest & Hn & Hfx & Hact & Him & Hit)
    end.
    vm_compute in Hn. inversion Hn; subst n.
    split; [exact Hit|]. split; [exact Him|]. eauto.
  - intros a raw e Hf Hz He.
    destruct (Hgen a raw e Hf Hz He) as (n & f & rest & _ & Hfx & Hact & _).
    eauto.
  - intros Hr. apply enrich_alert_returns; [reflexivity | exact Hr].
Qed.

Lemma zero_conversions_scenario_witness :
  exists e,
    enrich_alert (fun _ => 0) (fun _ => EmptyString)
      zero_conversions_alert "annunci" (JObj []) = Ok e /\
    impact_type e = "confirmed" /\ impact_monthly e = 1680 /\
    exists f rest, fixes e = f :: rest /\ action_type f = "pause_campaign".
Proof.
  destruct (zero_conversions_scenario (fun _ => 0) (fun _ => EmptyString)
              (JObj [])) as (Hval & _ & Hret).
  destruct (Hret eq_refl) as [e He].
  exists e. split; [exact He | exact (Hval e He)].
Defined.

(** C5. When the finding, lower-cased as the interpreter does it
    ([str.lower], Unicode-aware), matches no rule of the agent's chain, the
    returned record carries the generic fallback: [why] is the alert's
    [action_required] (or the investigation-needed text when absent),
    [evidence] is the raw finding alone, and [fixes] is one manual_review
    entry assigned to the alert's assignee; and such an alert is enriched
    whatever the report, as soon as its [impact_dollars] is a number. *)
Theorem unmatched_finding_gets_fallback
    (str_lower : string -> string)
    (py_hash : string -> Z) (py_repr : json -> string)
    (a : dict) (agent_id : string) (report : json) (raw : string) :
  dict_get a "finding" (JStr EmptyString) = JStr raw ->
  rule_matches agent_id (str_lower raw) = false ->
  (forall e,
     enrich_alert_with str_lower py_hash py_repr (JObj a) agent_id report
       = Ok e ->
     why e = dict_get a "action_required"
               (JStr "Investigation needed to determine root cause.") /\
     (lookup "action_required" a = None ->
      why e = JStr "Investigation needed to determine root cause.") /\
     evidence e = [raw] /\
     exists f,
       fixes e = [f] /\ action_type f = "manual_review" /\
       assigned_agent f = dict_get a "assigned_to" (JStr agent_id) /\
       assigned_agent f = assigned_to e) /\
  (is_number (dict_get a "impact_dollars" (JNum 0)) = true ->
   exists e,
     enrich_alert_with str_lower py_hash py_repr (JObj a) agent_id report
       = Ok e).
Proof.
  intros Hf Hm. split.
  - intros e He.
    apply enrich_alert_with_shape in He
      as (a' & raw' & n & w & ev & fx & Ha & Hf' & Hn & -> & Hcase).
    inversion Ha; subst a'. rewrite Hf in Hf'. inversion Hf'; subst raw'.
    destruct Hcase as [(_ & -> & -> & ->) | (Hm' & _)].
    + cbn [why evidence fixes diagnose].
      split; [reflexivity|]. split.
      { intros Habs. apply dict_get_absent. exact Habs. }
      split; [reflexivity|].
      exists (manual_review_fix a agent_id). repeat split; reflexivity.
    + rewrite Hm in Hm'. discriminate.
  - intros Hnum. unfold enrich_alert_with. rewrite Hf. cbn [as_str bind].
    destruct (is_number_py_number _ Hnum) as [n ->]. cbn [bind].
    rewrite (apply_rules_unmatched py_repr _ _ _ _ _ _ _ _ Hm).
    cbn [bind]. eauto.
Qed.

Lemma unmatched_finding_gets_fallback_witness :
  exists e,
    enrich_alert (fun _ => 0) (fun _ => EmptyString)
      (JObj unusual_pattern_alert) "spia" (JObj []) = Ok e /\
    why e = JStr "Review manually" /\
    exists f, fixes e = [f] /\ action_type f = "manual_review".
Proof.
  destruct (unmatched_finding_gets_fallback lower (fun _ => 0)
              (fun _ => EmptyString) unusual_pattern_alert "spia" (JObj [])
              "Unusual pattern observed" eq_refl eq_refl) as [Hval Hret].
  destruct (Hret eq_refl) as [e He].
  exists e. split; [exact He|].
  destruct (Hval e He) as (Hw & _ & _ & f & Hfx & Hact & _).
  split; [exact Hw|]. exists f. split; assumption.
Defined.

(** C10. Every record [enrich_alert] returns carries at least one fix and at
    least one evidence entry; and on typed inputs it does return. *)
Theorem fixes_and_evidence_never_empty
    (py_hash : string -> Z) (py_repr : json -> string)
    (alert : json) (agent_id : string) (report : json) :
  (forall e, enrich_alert py_hash py_repr alert agent_id report = Ok e ->
     fixes e <> [] /\ evidence e <> []) /\
  (well_formed_alert alert = true -> well_formed_report report = true ->
   exists e, enrich_alert py_hash py_repr alert agent_id report = Ok e).
Proof.
  split; [|apply enrich_alert_returns].
  intros e He.
  apply enrich_alert_shape in He
    as (a & raw & n & w & ev & fx & _ & _ & _ & -> & Hcase).
  cbn [fixes evidence diagnose].
  destruct Hcase as [(_ & _ & -> & ->) | (_ & s & _ & _ & Hev & Hfx)].
  - split; discriminate.
  - split; assumption.
Qed.

Lemma fixes_and_evidence_never_empty_witness :
  exists e,
    enrich_alert (fun _ => 0) (fun _ => EmptyString)
      zero_conversions_alert "annunci" (JObj []) = Ok e /\
    fixes e <> [] /\ evidence e <> [].
Proof.
  destruct (fixes_and_evidence_never_empty (fun _ => 0)
              (fun _ => EmptyString) zero_conversions_alert "annunci"
              (JObj [])) as [Hval Hret].
  destruct (Hret eq_refl eq_refl) as [e He].
  exists e. split; [exact He | exact (Hval e He)].
Defined.

(** ** Totality *)

(** C9, as stated, fails: a present but wrongly typed field raises.  Here
    [impact_dollars] is the text "420". *)
Lemma enrich_alert_raises_on_text_impact :
  enrich_alert (fun _ => 0) (fun _ => EmptyString)
    (JObj [ ("finding", JStr "Zero conversions despite $420 spend");
            ("school", JStr "beibei");
            ("level", JStr "red");
            ("impact_dollars", JStr "420") ])
    "annunci" (JObj []) = Raise TypeError.
Proof. reflexivity. Qed.

(** A null [finding] raises as well. *)
Lemma enrich_alert_raises_on_null_finding :
  enrich_alert (fun _ => 0) (fun _ => EmptyString)
    (JObj [ ("finding", JNull) ]) "spia" (JObj []) = Raise AttributeError.
Proof. reflexivity. Qed.

(** C9, amended. On an alert and a report typed as the data model says,
    [enrich_alert] returns, whatever the interpreter's lower-casing, and
    every absent alert field takes its default: the empty title, impact 0
    (hence "estimated"), school "unknown", level "yellow", the agent itself
    as assignee, and, for [action_required], the generic texts: [why] is
    never left empty, and wherever the manual_review fallback is in the
    record, [why] is the investigation-needed text and the fix is described
    as "Review and take action". *)
Theorem enrich_alert_total_on_typed_input
    (str_lower : string -> string)
    (py_hash : string -> Z) (py_repr : json -> string)
    (alert : json) (agent_id : string) (report : json) :
  well_formed_alert alert = true ->
  well_formed_report report = true ->
  exists a e,
    alert = JObj a /\
    enrich_alert_with str_lower py_hash py_repr alert agent_id report
      = Ok e /\
    (lookup "finding" a = None -> title e = EmptyString) /\
    (lookup "impact_dollars" a = None ->
     impact_monthly e = 0 /\ impact_type e = "estimated") /\
    (lookup "school" a = None -> school e = JStr "unknown") /\
    (lookup "level" a = None -> level e = JStr "yellow") /\
    (lookup "assigned_to" a = None -> assigned_to e = JStr agent_id) /\
    (lookup "action_required" a = None ->
     (exists s, why e = JStr s /\ s <> EmptyString) /\
     (forall f, In f (fixes e) -> action_type f = "manual_review" ->
        why e = JStr "Investigation needed to determine root cause." /\
        description f = JStr "Review and take action")).
Proof.
  intros Ha Hr.
  destruct (enrich_alert_with_returns str_lower py_hash py_repr alert
              agent_id report Ha Hr) as [e He].
  pose proof He as Hshape.
  apply enrich_alert_with_shape in Hshape
    as (a & raw & n & w & ev & fx & -> & Hf & Hn & Hex & Hcase).
  exists a, e. split; [reflexivity|]. split; [exact He|].
  split; [|split; [|split; [|split; [|split]]]].
  - subst e. cbn [title diagnose base_record].
    intros Habs. rewrite (dict_get_absent _ _ _ Habs) in Hf.
    inversion Hf; reflexivity.
  - subst e. cbn [impact_monthly impact_type diagnose base_record].
    intros Habs. rewrite (dict_get_absent _ _ _ Habs) in Hn.
    inversion Hn; subst n. rewrite !andb_false_r. split; reflexivity.
  - subst e. cbn [school diagnose base_record].
    intros Habs. apply dict_get_absent; exact Habs.
  - subst e. cbn [level diagnose base_record].
    intros Habs. apply dict_get_absent; exact Habs.
  - subst e. cbn [assigned_to diagnose base_record].
    intros Habs. apply dict_get_absent; exact Habs.
  - intros Habs. split.
    + subst e. cbn [why diagnose].
      destruct Hcase as [(_ & -> & _) | (_ & s & -> & Hs & _)].
      * rewrite (dict_get_absent _ _ _ Habs).
        eexists. split; [reflexivity | discriminate].
      * exists s. split; [reflexivity | exact Hs].
    + intros f Hin Hact.
      destruct (manual_review_only_from_fallback str_lower py_hash py_repr
                  _ _ _ _ _ He Hin Hact) as (a' & Ha' & Hw & ->).
      inversion Ha'; subst a'. rewrite Hw.
      unfold manual_review_fix. cbn [description].
      rewrite !(dict_get_absent _ _ _ Habs). split; reflexivity.
Qed.

Lemma enrich_alert_total_on_typed_input_witness :
  exists e,
    enrich_alert_with lower (fun _ => 0) (fun _ => EmptyString)
      (JObj []) "zona" (JObj []) = Ok e /\
    title e = EmptyString /\ impact_monthly e = 0 /\
    school e = JStr "unknown" /\ level e = JStr "yellow" /\
    assigned_to e = JStr "zona" /\
    why e = JStr "Investigation needed to determine root cause.".
Proof.
  destruct (enrich_alert_total_on_typed_input lower (fun _ => 0)
              (fun _ => EmptyString) (JObj []) "zona" (JObj [])
              eq_refl eq_refl)
    as (a & e & Ha & He & Ht & Hi & Hs & Hl & Has & Hact).
  inversion Ha; subst a.
  exists e. split; [exact He|].
  split; [exact (Ht eq_refl)|]. split; [exact (proj1 (Hi eq_refl))|].
  split; [exact (Hs eq_refl)|]. split; [exact (Hl eq_refl)|].
  split; [exact (Has eq_refl)|].
  destruct (Hact eq_refl) as [_ Hfix].
  refine (proj1 (Hfix (manual_review_fix [] "zona") _ eq_refl)).
  vm_compute in He. inversion He. left. reflexivity.
Defined.

(** ** Severity ranking *)

Lemma key_lt_asym (k1 k2 : Z * Z) : key_lt k1 k2 = true -> key_lt k2 k1 = false.
Proof.
  unfold key_lt. destruct k1 as [r1 m1], k2 as [r2 m2]. cbn [fst snd].
  intros H. apply orb_true_iff in H.
  apply orb_false_iff. split; [|apply andb_false_iff].
  - apply Z.ltb_ge. destruct H as [H|H]; [apply Z.ltb_lt in H; lia|].
    apply andb_true_iff in H as [H _]. apply Z.eqb_eq in H. lia.
  - destruct H as [H|H].
    + left. apply Z.eqb_neq. apply Z.ltb_lt in H. lia.
    + right. apply andb_true_iff in H as [_ H]. apply Z.ltb_ge.
      apply Z.ltb_lt in H. lia.
Qed.

(** [key_lt k2 k1 = false] reads [k1 <= k2] and is transitive. *)
Lemma key_le_spec (k1 k2 : Z * Z) :
  key_lt k2 k1 = false <->
  fst k1 < fst k2 \/ (fst k1 = fst k2 /\ snd k1 <= snd k2).
Proof.
  unfold key_lt. destruct k1 as [r1 m1], k2 as [r2 m2]. cbn [fst snd].
  rewrite orb_false_iff, andb_false_iff, Z.ltb_ge, Z.eqb_neq, Z.ltb_ge.
  lia.
Qed.

Lemma key_le_trans (k1 k2 k3 : Z * Z) :
  key_lt k2 k1 = false -> key_lt k3 k2 = false -> key_lt k3 k1 = false.
Proof. rewrite !key_le_spec. lia. Qed.

Lemma key_eqb_lt (k1 k2 : Z * Z) :
  key_eqb k1 k2 = true -> key_lt k1 k2 = false.
Proof.
  unfold key_eqb. intros H. apply andb_true_iff in H as [H1 H2].
  apply Z.eqb_eq in H1, H2. apply key_le_spec. lia.
Qed.

Section StableSort.

Variable A : Type.

Implicit Types (x y : (Z * Z) * A) (l : list ((Z * Z) * A)).

Lemma insert_perm x l : Permutation (x :: l) (insert x l).
Proof.
  induction l as [|y ys IH]; simpl.
  - apply Permutation_refl.
  - destruct (key_lt (fst y) (fst x)).
    + eapply Permutation_trans; [apply perm_swap|].
      apply perm_skip. exact IH.
    + apply Permutation_refl.
Qed.

Lemma stable_sort_perm l : Permutation l (stable_sort l).
Proof.
  induction l as [|x xs IH]; simpl.
  - apply Permutation_refl.
  - eapply Permutation_trans; [apply perm_skip; exact IH|].
    apply insert_perm.
Qed.

Lemma insert_sorted x l :
  StronglySorted keys_ordered l -> StronglySorted keys_ordered (insert x l).
Proof.
  induction 1 as [|y ys Hs IH Hall]; simpl.
  - constructor; constructor.
  - destruct (key_lt (fst y) (fst x)) eqn:E.
    + constructor; [exact IH|].
      apply (Permutation_Forall (insert_perm x ys)).
      constructor; [|exact Hall].
      unfold keys_ordered. apply key_lt_asym. exact E.
    + constructor; [constructor; assumption|].
      constructor; [exact E|].
      eapply Forall_impl; [|exact Hall].
      intros z Hz. unfold keys_ordered in *.
      eapply key_le_trans; eassumption.
Qed.

Lemma stable_sort_sorted l : StronglySorted keys_ordered (stable_sort l).
Proof.
  induction l as [|x xs IH]; simpl.
  - constructor.
  - apply insert_sorted. exact IH.
Qed.

(** Stability: the elements of any one key come out in the order they went
    in. *)
Lemma insert_stable (k : Z * Z) x l :
  filter (fun p => key_eqb (fst p) k) (insert x l) =
  filter (fun p => key_eqb (fst p) k) (x :: l).
Proof.
  induction l as [|y ys IH]; [reflexivity|].
  cbn [insert]. destruct (key_lt (fst y) (fst x)) eqn:E; [|reflexivity].
  cbn [filter] in *. rewrite IH.
  destruct (key_eqb (fst x) k) eqn:Ex; [|reflexivity].
  destruct (key_eqb (fst y) k) eqn:Ey; [|reflexivity].
  exfalso.
  assert (Hxy : key_eqb (fst y) (fst x) = true).
  { unfold key_eqb in *. apply andb_true_iff in Ex as [Hx1 Hx2].
    apply andb_true_iff in Ey as [Hy1 Hy2].
    apply Z.eqb_eq in Hx1, Hx2, Hy1, Hy2.
    apply andb_true_iff. split; apply Z.eqb_eq; congruence. }
  apply key_eqb_lt in Hxy. congruence.
Qed.

Lemma stable_sort_stable (k : Z * Z) l :
  filter (fun p => key_eqb (fst p) k) (stable_sort l) =
  filter (fun p => key_eqb (fst p) k) l.
Proof.
  induction l as [|x xs IH]; [reflexivity|].
  cbn [stable_sort]. rewrite insert_stable. cbn [filter].
  rewrite IH. reflexivity.
Qed.

Lemma key_eqb_refl (k : Z * Z) : key_eqb k k = true.
Proof. unfold key_eqb. rewrite !Z.eqb_refl. reflexivity. Qed.

Lemma key_eqb_eq (k1 k2 : Z * Z) : key_eqb k1 k2 = true -> k1 = k2.
Proof.
  destruct k1, k2. unfold key_eqb. cbn [fst snd]. intros H.
  apply andb_true_iff in H as [H1 H2]. apply Z.eqb_eq in H1, H2.
  congruence.
Qed.

Lemma key_le_antisym (k1 k2 : Z * Z) :
  key_lt k2 k1 = false -> key_lt k1 k2 = false -> key_eqb k1 k2 = true.
Proof.
  rewrite !key_le_spec. unfold key_eqb. intros H1 H2.
  apply andb_true_iff. split; apply Z.eqb_eq; lia.
Qed.

(** The head of a sorted list has the least key. *)
Lemma sorted_head_least x l y :
  StronglySorted keys_ordered (x :: l) -> In y (x :: l) ->
  key_lt (fst y) (fst x) = false.
Proof.
  intros Hs [<-|Hy].
  - apply key_eqb_lt. apply key_eqb_refl.
  - apply StronglySorted_inv in Hs as [_ Hall].
    rewrite Forall_forall in Hall. apply Hall. exact Hy.
Qed.

(** Two sorted lists with the same elements in the same order under every
    key are equal: the output of a stable sort does not depend on the
    sorting algorithm. *)
Lemma stable_sorted_unique l1 l2 :
  StronglySorted keys_ordered l1 -> StronglySorted keys_ordered l2 ->
  (forall k, filter (fun p => key_eqb (fst p) k) l1 =
             filter (fun p => key_eqb (fst p) k) l2) ->
  l1 = l2.
Proof.
  revert l2. induction l1 as [|x l1 IH]; intros [|y l2] Hs1 Hs2 Hf.
  - reflexivity.
  - specialize (Hf (fst y)). cbn [filter] in Hf.
    rewrite key_eqb_refl in Hf. discriminate.
  - specialize (Hf (fst x)). cbn [filter] in Hf.
    rewrite key_eqb_refl in Hf. discriminate.
  - assert (Hxy : In x (y :: l2)).
    { assert (H : In x (filter (fun p => key_eqb (fst p) (fst x)) (y :: l2))).
      { rewrite <- Hf. cbn [filter]. rewrite key_eqb_refl. left. reflexivity. }
      apply filter_In in H. apply H. }
    assert (Hyx : In y (x :: l1)).
    { assert (H : In y (filter (fun p => key_eqb (fst p) (fst y)) (x :: l1))).
      { rewrite Hf. cbn [filter]. rewrite key_eqb_refl. left. reflexivity. }
      apply filter_In in H. apply H. }
    pose proof (sorted_head_least y l2 x Hs2 Hxy) as Hle1.
    pose proof (sorted_head_least x l1 y Hs1 Hyx) as Hle2.
    pose proof (key_le_antisym _ _ Hle1 Hle2) as Heq.
    pose proof (Hf (fst x)) as Hhead. cbn [filter] in Hhead.
    rewrite key_eqb_refl, Heq in Hhead. inversion Hhead; subst y.
    f_equal. apply IH.
    + apply StronglySorted_inv in Hs1. apply Hs1.
    + apply StronglySorted_inv in Hs2. apply Hs2.
    + intros k. specialize (Hf k). cbn [filter] in Hf.
      destruct (key_eqb (fst x) k); [inversion Hf; reflexivity | exact Hf].
Qed.

(** Hence every sorted, order-preserving rearrangement of [l] is
    [stable_sort l]. *)
Lemma stable_sort_canonical l l' :
  StronglySorted keys_ordered l' ->
  (forall k, filter (fun p => key_eqb (fst p) k) l' =
             filter (fun p => key_eqb (fst p) k) l) ->
  l' = stable_sort l.
Proof.
  intros Hs Hf. apply stable_sorted_unique.
  - exact Hs.
  - apply stable_sort_sorted.
  - intros k. rewrite Hf, stable_sort_stable. reflexivity.
Qed.

End StableSort.

Lemma sorted_precedes {A : Type} (R : A -> A -> Prop) (l : list A) (x y : A) :
  StronglySorted R l -> precedes x y l -> R x y.
Proof.
  intros Hs (p & q & r & ->).
  induction p as [|z p IH]; simpl in Hs.
  - apply StronglySorted_inv in Hs as [_ Hall].
    rewrite Forall_forall in Hall. apply Hall.
    apply in_or_app. right. left. reflexivity.
  - apply StronglySorted_inv in Hs as [Hs _]. apply IH. exact Hs.
Qed.

Lemma decorate_keyed (l : list enriched) ks :
  decorate l = Ok ks -> map snd ks = l /\ Forall keyed ks.
Proof.
  revert ks. induction l as [|a l IH]; simpl; intros ks H.
  - returned H. split; constructor.
  - destruct (sort_key a) as [k|] eqn:Ek; cbn [bind] in H; [|discriminate].
    destruct (decorate l) as [ks'|]; cbn [bind] in H; [|discriminate].
    returned H. destruct (IH ks' eq_refl) as [Hm Hk].
    split; [simpl; rewrite Hm; reflexivity|].
    constructor; [exact Ek | exact Hk].
Qed.

Lemma decorate_returns (l : list enriched) :
  Forall (fun a => hashable (level a) = true) l ->
  exists ks, decorate l = Ok ks.
Proof.
  induction 1 as [|a l Ha _ [ks IH]]; simpl.
  - eauto.
  - unfold sort_key.
    destruct (level a); try discriminate; cbn [level_rank bind];
      rewrite IH; cbn [bind]; eauto.
Qed.

Lemma level_rank_cases (lv : json) (r : Z) :
  level_rank lv = Ok r ->
  (lv = JStr "red" /\ r = 0) \/ (lv = JStr "yellow" /\ r = 1) \/
  (lv = JStr "green" /\ r = 2) \/ (~ recognized lv /\ r = 3).
Proof.
  unfold recognized.
  destruct lv as [|b|n|s|l|d]; simpl; intros H; try discriminate;
    try (returned H; right; right; right; split; [|reflexivity];
         intros [?|[?|?]]; discriminate).
  destruct (String.eqb_spec s "red") as [->|Hr]; [returned H; auto|].
  destruct (String.eqb_spec s "yellow") as [->|Hy]; [returned H; auto|].
  destruct (String.eqb_spec s "green") as [->|Hg];
    [returned H; right; right; left; auto|].
  returned H. right; right; right. split; [|reflexivity].
  intros [E|[E|E]]; inversion E; contradiction.
Qed.

Lemma sorted_map_in_order ks :
  Forall keyed ks -> StronglySorted (keys_ordered) ks ->
  StronglySorted in_order (map snd ks).
Proof.
  intros Hk Hs. induction Hs as [|p ps Hs IH Hall]; simpl.
  - constructor.
  - apply Forall_cons_iff in Hk as [Hp Hps].
    constructor; [apply IH; exact Hps|].
    apply Forall_map. rewrite Forall_forall in *.
    intros q Hq. exists (fst p), (fst q).
    split; [exact Hp|]. split; [apply Hps; exact Hq|].
    apply Hall. exact Hq.
Qed.

Lemma filter_has_key (k : Z * Z) ks :
  Forall keyed ks ->
  filter (has_key k) (map snd ks) =
  map snd (filter (fun p => key_eqb (fst p) k) ks).
Proof.
  induction 1 as [|p ps Hp _ IH]; [reflexivity|].
  cbn [map filter]. unfold has_key at 1. rewrite Hp.
  destruct (key_eqb (fst p) k); cbn [map]; rewrite IH; reflexivity.
Qed.

Lemma level_rank_spec (lv : json) (r : Z) :
  level_rank lv = Ok r ->
  0 <= r <= 3 /\
  (lv = JStr "red" <-> r = 0) /\ (lv = JStr "yellow" <-> r = 1) /\
  (lv = JStr "green" <-> r = 2) /\ (recognized lv <-> r <= 2).
Proof.
  intros H. unfold recognized.
  apply level_rank_cases in H as [[-> ->]|[[-> ->]|[[-> ->]|[Hn ->]]]].
  - repeat split; try lia; try discriminate; auto.
  - repeat split; try lia; try discriminate; auto.
  - repeat split; try lia; try discriminate; auto.
  - unfold recognized in Hn.
    repeat split; try lia; try discriminate;
      try (intros E; exfalso; apply Hn; auto).
Qed.

(** What the order of two alerts in the output says about their levels and
    impacts. *)
Lemma in_order_levels (x y : enriched) :
  in_order x y ->
  (level y = JStr "red" ->
   level x <> JStr "yellow" /\ level x <> JStr "green") /\
  (level y = JStr "yellow" -> level x <> JStr "green") /\
  (level x = level y -> impact_monthly y <= impact_monthly x) /\
  (recognized (level y) -> recognized (level x)).
Proof.
  intros (kx & ky & Hx & Hy & Hle). unfold sort_key in Hx, Hy.
  destruct (level_rank (level x)) as [rx|] eqn:Ex; [|discriminate].
  destruct (level_rank (level y)) as [ry|] eqn:Ey; [|discriminate].
  cbn [bind] in Hx, Hy. returned Hx. returned Hy.
  apply key_le_spec in Hle. cbn [fst snd] in Hle.
  assert (Hsame : level x = level y -> rx = ry).
  { intros E. rewrite E in Ex. congruence. }
  apply level_rank_spec in Ex as (Bx & Rx & Yx & Gx & Kx).
  apply level_rank_spec in Ey as (By & Ry & Yy & Gy & Ky).
  split; [|split; [|split]].
  - intros E. apply Ry in E. split; intros E'.
    + apply Yx in E'. lia.
    + apply Gx in E'. lia.
  - intros E. apply Yy in E. intros E'. apply Gx in E'. lia.
  - intros E. specialize (Hsame E). lia.
  - intros E. apply Ky in E. apply Kx. lia.
Qed.

(** C3. On every list of enriched alerts (with levels that can be looked up,
    i.e. not lists or dicts) the sort returns a rearrangement of the input
    in which no yellow or green alert precedes a red one (nor a green a
    yellow one), alerts of one level are in non-increasing [impact_monthly],
    no alert of an unrecognized level precedes a red, yellow or green one,
    and alerts with equal keys keep their input order. *)
Theorem severity_sort_correct (l : list enriched) :
  Forall (fun a => hashable (level a) = true) l ->
  exists l',
    sort_alerts l = Ok l' /\
    Permutation l l' /\
    (forall x y, precedes x y l' ->
       (level y = JStr "red" ->
        level x <> JStr "yellow" /\ level x <> JStr "green") /\
       (level y = JStr "yellow" -> level x <> JStr "green") /\
       (level x = level y -> impact_monthly y <= impact_monthly x) /\
       (recognized (level y) -> recognized (level x))) /\
    (forall k, filter (has_key k) l' = filter (has_key k) l).
Proof.
  intros Hh. destruct (decorate_returns l Hh) as [ks Hks].
  destruct (decorate_keyed l ks Hks) as [Hmap Hkeyed].
  assert (Hsorted_keyed : Forall keyed (stable_sort ks)).
  { apply (Permutation_Forall (stable_sort_perm enriched ks)). exact Hkeyed. }
  exists (map snd (stable_sort ks)).
  split; [unfold sort_alerts; rewrite Hks; reflexivity|].
  split; [|split].
  - rewrite <- Hmap at 1. apply Permutation_map. apply stable_sort_perm.
  - intros x y Hp. apply in_order_levels.
    eapply sorted_precedes; [|exact Hp].
    apply sorted_map_in_order; [exact Hsorted_keyed|].
    apply stable_sort_sorted.
  - intros k. rewrite (filter_has_key k _ Hsorted_keyed).
    rewrite stable_sort_stable. rewrite <- (filter_has_key k _ Hkeyed).
    rewrite Hmap. reflexivity.
Qed.

Lemma severity_sort_correct_witness :
  exists l',
    sort_alerts [ranked_alert "green" 100; ranked_alert "red" 100;
                 ranked_alert "yellow" 100] = Ok l' /\
    map level l' = [JStr "red"; JStr "yellow"; JStr "green"].
Proof.
  destruct (severity_sort_correct
              [ranked_alert "green" 100; ranked_alert "red" 100;
               ranked_alert "yellow" 100]) as (l' & Hs & _).
  - repeat constructor.
  - exists l'. split; [exact Hs|].
    vm_compute in Hs. inversion Hs. reflexivity.
Defined.

(** ** Source resolver *)

Section SourceResolverFacts.

Variable REPORTS_DIR : string.
Variable glob : string -> list string.
Variable getmtime : string -> option Z.
Variable read_json : string -> option json.
Variable sample_file : option json.





End SourceResolverFacts.


(** ** Approval ledger *)

Section LedgerFacts.

Variable now : string.
Variable json_dumps : json -> string.

Lemma truthy_nonempty_dict (d : dict) : d <> [] -> truthy (JObj d) = true.
Proof. destruct d; [contradiction | reflexivity]. Qed.

(** An accepted request with a healthy local log: what the handler does, for
    every behaviour of the remote store. *)
Lemma api_fix_accepted (remote : remote_mode) (st : store) (rq : request)
    (d : dict) (prev : list json) :
  demo_mode rq = false ->
  get_json rq = JObj d -> d <> [] ->
  load_approvals st = JList prev ->
  disk_writable st = true ->
  api_fix now json_dumps remote st rq =
    (Ok (recorded (make_approval now d)),
     mirror json_dumps remote
       (mk_store (Some (JList (prev ++ [JObj (make_approval now d)])))
          (sample_approvals st) true (remote_actions st))
       (make_approval now d)).
Proof.
  intros Hdemo Hbody Hne Hlog Hdisk.
  unfold api_fix. rewrite Hdemo, Hbody, (truthy_nonempty_dict d Hne).
  cbn [negb]. unfold save_approval. rewrite Hlog, Hdisk. reflexivity.
Qed.




End LedgerFacts.




(* ================================================================= *)
(** * Further properties of the code *)

(** ** Enrichment *)

(** X1. In every returned record [impact_monthly] is never negative, and a
    "confirmed" impact is never zero: a non-positive [impact_dollars] is
    clamped to 0 and typed "estimated". *)
Theorem impact_fields_consistent
    (py_hash : string -> Z) (py_repr : json -> string)
    (alert : json) (agent_id : string) (report : json) (e : enriched) :
  enrich_alert py_hash py_repr alert agent_id report = Ok e ->
  0 <= impact_monthly e /\
  (impact_type e = "confirmed" -> 0 < impact_monthly e) /\
  (impact_monthly e = 0 -> impact_type e = "estimated").
Proof.
  intros He.
  apply enrich_alert_shape in He
    as (a & raw & n & w & ev & fx & _ & _ & _ & -> & _).
  cbn [impact_monthly impact_type diagnose base_record].
  destruct (Z.ltb_spec 0 n) as [Hp|Hp].
  - split; [lia|]. split; [intros _; lia|].
    intros H. lia.
  - rewrite !andb_false_r.
    split; [lia|].
    split; [discriminate | reflexivity].
Qed.

Lemma impact_fields_consistent_witness :
  exists e,
    enrich_alert (fun _ => 0) (fun _ => EmptyString)
      (JObj [ ("finding", JStr "Bounce rate up"); ("impact_dollars", JNum (-5)) ])
      "bussola" (JObj []) = Ok e /\
    impact_monthly e = 0 /\ impact_type e = "estimated".
Proof.
  eexists. split; [reflexivity|].
  destruct (impact_fields_consistent (fun _ => 0) (fun _ => EmptyString)
              (JObj [ ("finding", JStr "Bounce rate up");
                      ("impact_dollars", JNum (-5)) ])
              "bussola" (JObj []) _ eq_refl) as (_ & _ & Hz).
  split; [reflexivity | apply Hz; reflexivity].
Defined.

(** X2. The [alert_id] of a returned record is school, agent and a number
    below 10000, and depends on the finding only through the residue of its
    hash: two findings whose hashes agree modulo 10000 in absolute value get
    the same id for the same school and agent, whatever else differs. *)
Theorem alert_id_collides_on_hash_residue
    (py_hash : string -> Z) (py_repr : json -> string)
    (a1 a2 : dict) (agent_id : string) (report1 report2 : json)
    (raw1 raw2 : string) (e1 e2 : enriched) :
  enrich_alert py_hash py_repr (JObj a1) agent_id report1 = Ok e1 ->
  enrich_alert py_hash py_repr (JObj a2) agent_id report2 = Ok e2 ->
  dict_get a1 "finding" (JStr EmptyString) = JStr raw1 ->
  dict_get a2 "finding" (JStr EmptyString) = JStr raw2 ->
  dict_get a1 "school" (JStr "unknown") = dict_get a2 "school" (JStr "unknown") ->
  Z.abs (py_hash raw1) mod 10000 = Z.abs (py_hash raw2) mod 10000 ->
  alert_id e1 = alert_id e2 /\
  exists suffix,
    0 <= suffix < 10000 /\
    alert_id e1 =
      py_str py_repr (dict_get a1 "school" (JStr "unknown")) ++ "-" ++
      agent_id ++ "-" ++ str_of_Z suffix.
Proof.
  intros He1 He2 Hf1 Hf2 Hschool Hres.
  apply enrich_alert_shape in He1
    as (b1 & r1 & n1 & w1 & ev1 & fx1 & Hb1 & Hr1 & _ & -> & _).
  apply enrich_alert_shape in He2
    as (b2 & r2 & n2 & w2 & ev2 & fx2 & Hb2 & Hr2 & _ & -> & _).
  inversion Hb1; subst b1. inversion Hb2; subst b2.
  rewrite Hf1 in Hr1. rewrite Hf2 in Hr2.
  inversion Hr1; subst r1. inversion Hr2; subst r2.
  cbn [alert_id diagnose base_record]. rewrite Hschool, Hres.
  split; [reflexivity|].
  exists (Z.abs (py_hash raw2) mod 10000).
  split; [apply Z.mod_pos_bound; lia | reflexivity].
Qed.

Lemma alert_id_collides_on_hash_residue_witness :
  exists e1 e2,
    enrich_alert (fun s => Z.of_nat (String.length s)) (fun _ => EmptyString)
      (JObj [ ("finding", JStr "CPA high"); ("school", JStr "amici") ])
      "annunci" (JObj []) = Ok e1 /\
    enrich_alert (fun s => Z.of_nat (String.length s)) (fun _ => EmptyString)
      (JObj [ ("finding", JStr "All good"); ("school", JStr "amici") ])
      "annunci" JNull = Ok e2 /\
    alert_id e1 = alert_id e2 /\ alert_id e1 = "amici-annunci-8".
Proof.
  eexists. eexists. split; [reflexivity|]. split; [reflexivity|].
  destruct (alert_id_collides_on_hash_residue
              (fun s => Z.of_nat (String.length s)) (fun _ => EmptyString)
              [ ("finding", JStr "CPA high"); ("school", JStr "amici") ]
              [ ("finding", JStr "All good"); ("school", JStr "amici") ]
              "annunci" (JObj []) JNull "CPA high" "All good" _ _
              eq_refl eq_refl eq_refl eq_refl eq_refl eq_refl) as [Hsame _].
  split; [exact Hsame | reflexivity].
Defined.

(** X3. Only annunci, zona, spia and bussola have a rule chain: for every
    other agent the record is the manual-review fallback whatever the
    finding says, and the report is not read at all. *)
Theorem agents_without_rules_get_fallback
    (py_hash : string -> Z) (py_repr : json -> string)
    (a : dict) (agent_id : string) (report : json) (raw : string) :
  ~ In agent_id ["annunci"; "zona"; "spia"; "bussola"] ->
  dict_get a "finding" (JStr EmptyString) = JStr raw ->
  is_number (dict_get a "impact_dollars" (JNum 0)) = true ->
  exists e,
    enrich_alert py_hash py_repr (JObj a) agent_id report = Ok e /\
    why e = dict_get a "action_required"
              (JStr "Investigation needed to determine root cause.") /\
    evidence e = [raw] /\
    fixes e = [manual_review_fix a agent_id].
Proof.
  intros Hnot Hf Hnum.
  assert (Hm : forall finding, rule_matches agent_id finding = false).
  { intros finding. unfold rule_matches.
    destruct (String.eqb_spec agent_id "annunci") as [->|_];
      [exfalso; apply Hnot; simpl; auto|].
    destruct (String.eqb_spec agent_id "zona") as [->|_];
      [exfalso; apply Hnot; simpl; auto|].
    destruct (String.eqb_spec agent_id "spia") as [->|_];
      [exfalso; apply Hnot; simpl; auto|].
    destruct (String.eqb_spec agent_id "bussola") as [->|_];
      [exfalso; apply Hnot; simpl; auto|].
    reflexivity. }
  unfold enrich_alert. rewrite Hf. cbn [as_str bind].
  destruct (is_number_py_number _ Hnum) as [n ->]. cbn [bind].
  rewrite (apply_rules_unmatched py_repr _ _ _ _ _ _ _ _ (Hm (lower raw))).
  cbn [bind]. eexists. split; [reflexivity|].
  unfold fallback. cbn [why base_record truthy String.eqb negb].
  cbn [why evidence fixes diagnose]. auto.
Qed.

Lemma agents_without_rules_get_fallback_witness :
  exists e,
    enrich_alert (fun _ => 0) (fun _ => EmptyString)
      (JObj [ ("finding", JStr "Zero conversions, traffic dropped") ])
      "stella" JNull = Ok e /\
    fixes e =
      [manual_review_fix [ ("finding", JStr "Zero conversions, traffic dropped") ]
         "stella"].
Proof.
  destruct (agents_without_rules_get_fallback (fun _ => 0)
              (fun _ => EmptyString)
              [ ("finding", JStr "Zero conversions, traffic dropped") ]
              "stella" JNull "Zero conversions, traffic dropped")
    as (e & He & _ & _ & Hfx).
  - intros [H|[H|[H|[H|[]]]]]; discriminate.
  - reflexivity.
  - reflexivity.
  - exists e. split; [exact He | exact Hfx].
Defined.





Lemma dict_get_head (k : string) (v : json) (d : dict) (dflt : json) :
  dict_get ((k, v) :: d) k dflt = v.
Proof. unfold dict_get. cbn [lookup]. rewrite String.eqb_refl. reflexivity. Qed.

Lemma dict_get_other (k k' : string) (v : json) (d : dict) (dflt : json) :
  k' <> k -> dict_get ((k', v) :: d) k dflt = dict_get d k dflt.
Proof.
  intros Hk. unfold dict_get. cbn [lookup].
  apply String.eqb_neq in Hk. rewrite Hk. reflexivity.
Qed.

Ltac same_rule H1 H2 :=
  inversion H1; inversion H2; subst; right;
  repeat split; reflexivity.

(** With the same lower-cased finding the chain takes the same branch. *)
Lemma apply_rules_same_advice (py_repr : json -> string)
    e1 e2 agent_id report finding raw1 raw2 school impact n e1' e2' :
  apply_rules py_repr e1 agent_id report finding raw1 school impact n = Ok e1' ->
  apply_rules py_repr e2 agent_id report finding raw2 school impact n = Ok e2' ->
  (e1' = e1 /\ e2' = e2) \/
  (same_advice e1' e2' /\ truthy (why e1') = true /\ truthy (why e2') = true).
Proof.
  unfold apply_rules, same_advice.
  destruct (agent_id =? "annunci")%string.
  { unfold annunci_rules.
    destruct (annunci_zero_conversions finding).
    { destruct (py_get report "campaign_breakdown" (JObj [])) as [b|];
        cbn [bind]; [|discriminate].
      destruct (py_values b) as [schools|]; cbn [bind]; [|discriminate].
      destruct (find_campaign schools (JStr EmptyString)) as [name|];
        cbn [bind]; [|discriminate].
      intros H1 H2. same_rule H1 H2. }
    destruct (annunci_high_cpa finding); [intros H1 H2; same_rule H1 H2|].
    destruct (annunci_collapsed finding); [intros H1 H2; same_rule H1 H2|].
    destruct (annunci_performing finding); [intros H1 H2; same_rule H1 H2|].
    intros H1 H2. inversion H1; inversion H2; subst. left. auto. }
  destruct (agent_id =? "zona")%string.
  { unfold zona_rules.
    destruct (zona_deindexed finding).
    { destruct (zona_metric report school "pages_live") as [live|];
        cbn [bind]; [|discriminate].
      destruct (zona_metric report school "pages_indexed") as [indexed|];
        cbn [bind]; [|discriminate].
      intros H1 H2. same_rule H1 H2. }
    destruct (zona_zero_results finding); [intros H1 H2; same_rule H1 H2|].
    destruct (zona_not_indexed finding); [intros H1 H2; same_rule H1 H2|].
    intros H1 H2. inversion H1; inversion H2; subst. left. auto. }
  destruct (agent_id =? "spia")%string.
  { unfold spia_rules.
    destruct (spia_dropped finding); [intros H1 H2; same_rule H1 H2|].
    destruct (spia_ranking finding); [intros H1 H2; same_rule H1 H2|].
    intros H1 H2. inversion H1; inversion H2; subst. left. auto. }
  destruct (agent_id =? "bussola")%string.
  { unfold bussola_rules.
    destruct (bussola_zero_conversions finding);
      [intros H1 H2; same_rule H1 H2|].
    destruct (bussola_bounce finding); [intros H1 H2; same_rule H1 H2|].
    intros H1 H2. inversion H1; inversion H2; subst. left. auto. }
  intros H1 H2. inversion H1; inversion H2; subst. left. auto.
Qed.

(** X5. Rules are matched on the lower-cased finding only: two alerts that
    differ in nothing but the letter case of their finding get the same
    explanation and the same fixes (action, assignee, estimated impact), and
    the same impact figures. *)
Theorem advice_ignores_letter_case
    (py_hash : string -> Z) (py_repr : json -> string)
    (fields : dict) (agent_id : string) (report : json)
    (raw1 raw2 : string) (e1 e2 : enriched) :
  lower raw1 = lower raw2 ->
  enrich_alert py_hash py_repr (JObj (("finding", JStr raw1) :: fields))
    agent_id report = Ok e1 ->
  enrich_alert py_hash py_repr (JObj (("finding", JStr raw2) :: fields))
    agent_id report = Ok e2 ->
  same_advice e1 e2 /\
  impact_monthly e1 = impact_monthly e2 /\ impact_type e1 = impact_type e2.
Proof.
  intros Hcase H1 H2. unfold enrich_alert in H1, H2.
  rewrite dict_get_head in H1, H2. cbn [as_str bind] in H1, H2.
  cbv zeta in H1, H2.
  rewrite !(dict_get_other "impact_dollars" "finding") in H1, H2
    by discriminate.
  rewrite !(dict_get_other "school" "finding") in H1, H2 by discriminate.
  destruct (py_number (dict_get fields "impact_dollars" (JNum 0))) as [n|];
    cbn [bind] in H1, H2; [|discriminate].
  rewrite <- Hcase in H2.
  destruct (apply_rules _ _ _ _ _ raw1 _ _ _) as [e1'|] eqn:R1;
    cbn [bind] in H1; [|discriminate].
  destruct (apply_rules _ _ _ _ _ raw2 _ _ _) as [e2'|] eqn:R2;
    cbn [bind] in H2; [|discriminate].
  inversion H1; subst e1. inversion H2; subst e2. clear H1 H2.
  destruct (apply_rules_same_advice _ _ _ _ _ _ _ _ _ _ _ _ _ R1 R2)
    as [[-> ->] | (Hsame & T1 & T2)].
  - unfold fallback, same_advice, manual_review_fix.
    cbn [why base_record truthy String.eqb negb].
    cbn [why fixes impact_monthly impact_type diagnose map action_type
         assigned_agent estimated_impact].
    rewrite !(dict_get_other "action_required" "finding") by discriminate.
    rewrite !(dict_get_other "assigned_to" "finding") by discriminate.
    repeat split; reflexivity.
  - unfold fallback. rewrite T1, T2. cbn [negb].
    split; [exact Hsame|].
    clear Hsame T1 T2.
    apply apply_rules_cases in R1 as [[_ ->] | [_ (w1 & v1 & f1 & -> & _)]];
      apply apply_rules_cases in R2 as [[_ ->] | [_ (w2 & v2 & f2 & -> & _)]];
      split; reflexivity.
Qed.

Lemma advice_ignores_letter_case_witness :
  exists e1 e2,
    enrich_alert (fun _ => 0) (fun _ => EmptyString)
      (JObj [ ("finding", JStr "BOUNCE rate above 80%") ]) "bussola" JNull
      = Ok e1 /\
    enrich_alert (fun _ => 0) (fun _ => EmptyString)
      (JObj [ ("finding", JStr "Bounce Rate Above 80%") ]) "bussola" JNull
      = Ok e2 /\
    same_advice e1 e2.
Proof.
  eexists. eexists. split; [reflexivity|]. split; [reflexivity|].
  apply (advice_ignores_letter_case (fun _ => 0) (fun _ => EmptyString)
           [] "bussola" JNull "BOUNCE rate above 80%" "Bounce Rate Above 80%"
           _ _ eq_refl eq_refl eq_refl).
Defined.

(** ** Sorting, for any element type *)

Section SortBy.

Variable A : Type.
Variable key : A -> result (Z * Z).

Lemma decorate_with_keyed (l : list A) ks :
  decorate_with key l = Ok ks -> map snd ks = l /\ Forall (keyed_by key) ks.
Proof.
  revert ks. induction l as [|a l IH]; cbn [decorate_with]; intros ks H.
  - returned H. split; constructor.
  - destruct (key a) as [k|] eqn:Ek; cbn [bind] in H; [|discriminate].
    destruct (decorate_with key l) as [ks'|]; cbn [bind] in H; [|discriminate].
    returned H. destruct (IH ks' eq_refl) as [Hm Hk].
    split; [cbn [map snd]; rewrite Hm; reflexivity|].
    constructor; [exact Ek | exact Hk].
Qed.

Lemma decorate_with_of_keyed ks :
  Forall (keyed_by key) ks -> decorate_with key (map snd ks) = Ok ks.
Proof.
  induction 1 as [|[k a] ks Hp _ IH]; [reflexivity|].
  cbn [map snd decorate_with]. unfold keyed_by in Hp. cbn [fst snd] in Hp.
  rewrite Hp, IH. reflexivity.
Qed.

Lemma sorted_map_ordered_by ks :
  Forall (keyed_by key) ks -> StronglySorted keys_ordered ks ->
  StronglySorted (ordered_by key) (map snd ks).
Proof.
  intros Hk Hs. induction Hs as [|p ps Hs IH Hall]; cbn [map].
  - constructor.
  - apply Forall_cons_iff in Hk as [Hp Hps].
    constructor; [apply IH; exact Hps|].
    apply Forall_map. rewrite Forall_forall in *.
    intros q Hq. exists (fst p), (fst q).
    split; [exact Hp|]. split; [apply Hps; exact Hq|].
    apply Hall. exact Hq.
Qed.

Lemma filter_has_key_by (k : Z * Z) ks :
  Forall (keyed_by key) ks ->
  filter (has_key_by key k) (map snd ks) =
  map snd (filter (fun p => key_eqb (fst p) k) ks).
Proof.
  induction 1 as [|p ps Hp _ IH]; [reflexivity|].
  cbn [map filter]. unfold has_key_by at 1. rewrite Hp.
  destruct (key_eqb (fst p) k); cbn [map]; rewrite IH; reflexivity.
Qed.

(** What [list.sort(key=...)] guarantees when it returns. *)
Lemma sort_by_sorted (l l' : list A) :
  sort_by key l = Ok l' ->
  Permutation l l' /\
  StronglySorted (ordered_by key) l' /\
  (forall k, filter (has_key_by key k) l' = filter (has_key_by key k) l).
Proof.
  unfold sort_by. intros H.
  destruct (decorate_with key l) as [ks|] eqn:Hks; cbn [bind] in H;
    [|discriminate].
  returned H. destruct (decorate_with_keyed l ks Hks) as [Hmap Hkeyed].
  assert (Hsk : Forall (keyed_by key) (stable_sort ks)).
  { apply (Permutation_Forall (stable_sort_perm A ks)). exact Hkeyed. }
  split; [|split].
  - rewrite <- Hmap at 1. apply Permutation_map. apply stable_sort_perm.
  - apply sorted_map_ordered_by; [exact Hsk | apply stable_sort_sorted].
  - intros k. rewrite (filter_has_key_by k _ Hsk), stable_sort_stable.
    rewrite <- (filter_has_key_by k _ Hkeyed), Hmap. reflexivity.
Qed.

(** Sorting what is already sorted changes nothing. *)
Lemma sort_by_idempotent (l l' : list A) :
  sort_by key l = Ok l' -> sort_by key l' = Ok l'.
Proof.
  unfold sort_by. intros H.
  destruct (decorate_with key l) as [ks|] eqn:Hks; cbn [bind] in H;
    [|discriminate].
  returned H. destruct (decorate_with_keyed l ks Hks) as [_ Hkeyed].
  assert (Hsk : Forall (keyed_by key) (stable_sort ks)).
  { apply (Permutation_Forall (stable_sort_perm A ks)). exact Hkeyed. }
  rewrite (decorate_with_of_keyed _ Hsk). cbn [bind].
  f_equal. f_equal. symmetry. apply stable_sort_canonical.
  - apply stable_sort_sorted.
  - reflexivity.
Qed.

End SortBy.

Lemma sort_alerts_sort_by (l : list enriched) :
  sort_alerts l = sort_by sort_key l.
Proof.
  unfold sort_alerts, sort_by. f_equal.
  induction l as [|a l IH]; [reflexivity|].
  cbn [decorate decorate_with]. rewrite IH. reflexivity.
Qed.

(** X6. Ranking is idempotent: sorting the list the ranking returned gives
    that same list again. *)
Theorem severity_sort_idempotent (l l' : list enriched) :
  sort_alerts l = Ok l' -> sort_alerts l' = Ok l'.
Proof.
  rewrite !sort_alerts_sort_by. apply sort_by_idempotent.
Qed.

Lemma severity_sort_idempotent_witness :
  sort_alerts [ranked_alert "red" 100; ranked_alert "yellow" 100;
               ranked_alert "green" 100]
  = Ok [ranked_alert "red" 100; ranked_alert "yellow" 100;
        ranked_alert "green" 100].
Proof.
  apply (severity_sort_idempotent
           [ranked_alert "green" 100; ranked_alert "red" 100;
            ranked_alert "yellow" 100]).
  reflexivity.
Defined.

(** ** Rows of the remote store *)

Lemma dict_get_set_same (d : dict) (k : string) (v dflt : json) :
  dict_get (dict_set d k v) k dflt = v.
Proof.
  unfold dict_get. induction d as [|[k' v'] d IH]; cbn [dict_set lookup].
  - rewrite String.eqb_refl. reflexivity.
  - destruct (k' =? k)%string eqn:E; cbn [lookup]; rewrite E;
      [reflexivity | exact IH].
Qed.

Lemma dict_get_set_other (d : dict) (k k' : string) (v dflt : json) :
  k <> k' -> dict_get (dict_set d k v) k' dflt = dict_get d k' dflt.
Proof.
  intros Hk. unfold dict_get.
  induction d as [|[k0 v0] d IH]; cbn [dict_set lookup].
  - apply String.eqb_neq in Hk. rewrite Hk. reflexivity.
  - destruct (String.eqb_spec k0 k) as [->|Hk0]; cbn [lookup].
    + apply String.eqb_neq in Hk. rewrite Hk. reflexivity.
    + destruct (k0 =? k')%string; [reflexivity | exact IH].
Qed.

Lemma map_result_Forall2 {A B : Type} (f : A -> result B) (l : list A) l' :
  map_result f l = Ok l' -> Forall2 (fun x y => f x = Ok y) l l'.
Proof.
  revert l'. induction l as [|x l IH]; cbn [map_result]; intros l' H.
  - returned H. constructor.
  - destruct (f x) as [y|] eqn:Ex; cbn [bind] in H; [|discriminate].
    destruct (map_result f l) as [ys|]; cbn [bind] in H; [|discriminate].
    returned H. constructor; [exact Ex | apply IH; reflexivity].
Qed.

Lemma map_result_length {A B : Type} (f : A -> result B) (l : list A) l' :
  map_result f l = Ok l' -> length l' = length l.
Proof.
  intros H. apply map_result_Forall2 in H.
  symmetry. eapply Forall2_length. exact H.
Qed.

Lemma py_or_filled (v : json) : filled (py_or v (JList [])).
Proof.
  unfold filled, py_or. destruct (truthy v) eqn:E; auto.
Qed.

Section RemoteRowFacts.

Variable json_loads : string -> option json.

Lemma parse_alert_row_filled (row row' : json) :
  parse_alert_row json_loads row = Ok row' ->
  exists a,
    row' = JObj a /\
    filled (dict_get a "evidence" JNull) /\
    filled (dict_get a "fixes" JNull).
Proof.
  destruct row as [| | | | |a]; cbn [parse_alert_row]; try discriminate.
  intros H. returned H. eexists. split; [reflexivity|]. split.
  - rewrite dict_get_set_other by discriminate.
    rewrite dict_get_set_same. apply py_or_filled.
  - rewrite dict_get_set_same. apply py_or_filled.
Qed.

(** X7. The remote branch of the detailed listing returns as many rows as
    the store answered, each an object whose [evidence] and [fixes] are
    filled in (never null), ordered by level rank and then by decreasing
    [impact_monthly], where a row without an [impact_monthly] (absent or
    null) counts as impact 0. *)
Theorem remote_alerts_parsed_and_ranked (sb_alerts out : list json) :
  alerts_detailed_remote json_loads sb_alerts = Ok out ->
  length out = length sb_alerts /\
  (forall x y, precedes x y out -> ordered_by row_key x y) /\
  Forall (fun row =>
            exists a,
              row = JObj a /\
              filled (dict_get a "evidence" JNull) /\
              filled (dict_get a "fixes" JNull)) out /\
  (forall a k,
     In (JObj a) out ->
     dict_get a "impact_monthly" JNull = JNull ->
     row_key (JObj a) = Ok k -> snd k = 0).
Proof.
  unfold alerts_detailed_remote. intros H.
  destruct (map_result (parse_alert_row json_loads) sb_alerts) as [rows|]
    eqn:Hrows; cbn [bind] in H; [|discriminate].
  apply sort_by_sorted in H as (Hperm & Hsorted & _).
  split; [|split; [|split]].
  - rewrite <- (Permutation_length Hperm).
    eapply map_result_length. exact Hrows.
  - intros x y Hp. eapply sorted_precedes; eassumption.
  - apply (Permutation_Forall Hperm).
    apply map_result_Forall2 in Hrows.
    clear Hperm Hsorted. induction Hrows as [|r r' rs rs' Hr _ IH];
      constructor; [|exact IH].
    eapply parse_alert_row_filled. exact Hr.
  - intros a k _ Hnull. unfold row_key. cbn [py_get bind].
    destruct (level_rank _) as [r|]; cbn [bind]; [|discriminate].
    rewrite Hnull. cbn [py_or truthy py_neg py_number as_int bind].
    intros Hk. returned Hk. reflexivity.
Qed.

End RemoteRowFacts.

Lemma remote_alerts_parsed_and_ranked_witness :
  alerts_detailed_remote (fun _ => None)
    [ JObj [ ("level", JStr "yellow"); ("impact_monthly", JNum 400) ];
      JObj [ ("level", JStr "red"); ("impact_monthly", JNull) ];
      JObj [ ("level", JStr "red"); ("impact_monthly", JNum 40) ] ]
  = Ok
    [ JObj [ ("level", JStr "red"); ("impact_monthly", JNum 40);
             ("evidence", JList []); ("fixes", JList []) ];
      JObj [ ("level", JStr "red"); ("impact_monthly", JNull);
             ("evidence", JList []); ("fixes", JList []) ];
      JObj [ ("level", JStr "yellow"); ("impact_monthly", JNum 400);
             ("evidence", JList []); ("fixes", JList []) ] ] /\
  length
    [ JObj [ ("level", JStr "red"); ("impact_monthly", JNum 40);
             ("evidence", JList []); ("fixes", JList []) ];
      JObj [ ("level", JStr "red"); ("impact_monthly", JNull);
             ("evidence", JList []); ("fixes", JList []) ];
      JObj [ ("level", JStr "yellow"); ("impact_monthly", JNum 400);
             ("evidence", JList []); ("fixes", JList []) ] ] = 3%nat.
Proof.
  split; [reflexivity|].
  apply (remote_alerts_parsed_and_ranked (fun _ => None)
           [ JObj [ ("level", JStr "yellow"); ("impact_monthly", JNum 400) ];
             JObj [ ("level", JStr "red"); ("impact_monthly", JNull) ];
             JObj [ ("level", JStr "red"); ("impact_monthly", JNum 40) ] ]).
  reflexivity.
Defined.

(** ** Source resolver: ties and failures *)

Section SourceResolverEdges.

Variable REPORTS_DIR : string.
Variable glob : string -> list string.
Variable getmtime : string -> option Z.
Variable read_json : string -> option json.
Variable sample_file : option json.

(** Files that are not strictly newer never replace the current best. *)
Lemma newest_from_keeps (best : string) (t : Z) (rest : list string) :
  (forall g, In g rest -> exists t', getmtime g = Some t' /\ t' <= t) ->
  newest_from getmtime best t rest = Ok best.
Proof.
  induction rest as [|g rest IH]; intros Hold; [reflexivity|].
  cbn [newest_from].
  destruct (Hold g (or_introl eq_refl)) as (t' & -> & Hle).
  destruct (Z.ltb_spec t t') as [Hlt|_]; [lia|].
  apply IH. intros g' Hg'. apply Hold. right. exact Hg'.
Qed.

(** A strictly newer file replaces whatever was best before it. *)
Lemma newest_from_switches (best : string) (bt : Z) (pre : list string)
    (f : string) (t : Z) (post : list string) :
  bt < t ->
  (forall g, In g pre -> exists t', getmtime g = Some t' /\ t' < t) ->
  getmtime f = Some t ->
  newest_from getmtime best bt (pre ++ f :: post) =
  newest_from getmtime f t post.
Proof.
  revert best bt. induction pre as [|g pre IH]; intros best bt Hbt Hold Hf.
  - cbn [app newest_from]. rewrite Hf.
    destruct (Z.ltb_spec bt t) as [_|Hge]; [reflexivity | lia].
  - cbn [app newest_from].
    destruct (Hold g (or_introl eq_refl)) as (tg & -> & Hlt).
    assert (Hpre : forall g', In g' pre ->
              exists t', getmtime g' = Some t' /\ t' < t).
    { intros g' Hg'. apply Hold. right. exact Hg'. }
    destruct (bt <? tg); apply IH; assumption.
Qed.

(** One path that cannot be stat-ed makes [max] raise. *)
Lemma newest_from_raises (best : string) (bt : Z) (rest : list string) :
  (exists g, In g rest /\ getmtime g = None) ->
  newest_from getmtime best bt rest = Raise OSError.
Proof.
  revert best bt. induction rest as [|g rest IH]; intros best bt (x & Hin & Hx).
  - destruct Hin.
  - cbn [newest_from]. destruct (getmtime g) as [tg|] eqn:Eg; [|reflexivity].
    assert (Hrest : exists g', In g' rest /\ getmtime g' = None).
    { destruct Hin as [->|Hin]; [congruence|]. exists x. auto. }
    destruct (bt <? tg); apply IH; exact Hrest.
Qed.

(** X8. Among matching files with the same newest modification time the
    first one in glob order is the one read: a file is chosen when every
    file before it is strictly older and none after it is newer. *)
Theorem latest_report_ties_go_to_first
    (agent_id : string) (pre : list string) (f : string) (t : Z)
    (post : list string) :
  matching_files REPORTS_DIR glob agent_id = (pre ++ f :: post)%list ->
  getmtime f = Some t ->
  (forall g, In g pre -> exists t', getmtime g = Some t' /\ t' < t) ->
  (forall g, In g post -> exists t', getmtime g = Some t' /\ t' <= t) ->
  find_latest_report REPORTS_DIR glob getmtime read_json sample_file agent_id =
  match read_json f with
  | Some doc => Ok doc
  | None => sample_report sample_file agent_id
  end.
Proof.
  intros Hfiles Hf Hpre Hpost. unfold find_latest_report. rewrite Hfiles.
  destruct pre as [|g pre]; cbn [app].
  - rewrite Hf, (newest_from_keeps f t post Hpost). reflexivity.
  - destruct (Hpre g (or_introl eq_refl)) as (tg & -> & Hlt).
    rewrite (newest_from_switches g tg pre f t post Hlt); [|
      intros g' Hg'; apply Hpre; right; exact Hg' | exact Hf].
    rewrite (newest_from_keeps f t post Hpost). reflexivity.
Qed.

(** X9. A matching path whose modification time cannot be read (a dangling
    link, a file removed meanwhile) makes [find_latest_report] raise
    [OSError]: the sample fallback covers a failed read of the newest file,
    not a failed stat of any file. *)
Theorem latest_report_raises_on_failed_stat
    (agent_id : string) (g : string) :
  In g (matching_files REPORTS_DIR glob agent_id) ->
  getmtime g = None ->
  find_latest_report REPORTS_DIR glob getmtime read_json sample_file agent_id =
  Raise OSError.
Proof.
  intros Hin Hg. unfold find_latest_report.
  destruct (matching_files REPORTS_DIR glob agent_id) as [|f rest];
    [destruct Hin|].
  destruct (getmtime f) as [tf|] eqn:Ef; [|reflexivity].
  rewrite newest_from_raises; [reflexivity|].
  destruct Hin as [->|Hin]; [congruence|]. exists g. auto.
Qed.

End SourceResolverEdges.

Lemma latest_report_ties_go_to_first_witness :
  find_latest_report "/reports" example_glob tied_mtime tied_read None
    "annunci"
  = Ok (JObj [ ("file", JStr "/reports/annunci-2026-01-01.json") ]).
Proof.
  apply (latest_report_ties_go_to_first "/reports" example_glob tied_mtime
           tied_read None "annunci" []
           "/reports/annunci-2026-01-01.json" 200
           [ "/reports/annunci-2026-01-08.json" ]).
  - reflexivity.
  - reflexivity.
  - intros g [].
  - intros g [<-|[]]. exists 200. split; [reflexivity | lia].
Defined.

Lemma latest_report_raises_on_failed_stat_witness :
  find_latest_report "/reports" example_glob dangling_mtime example_read
    (Some (JObj [ ("annunci", JObj []) ])) "annunci"
  = Raise OSError.
Proof.
  apply (latest_report_raises_on_failed_stat "/reports" example_glob
           dangling_mtime example_read _ "annunci"
           "/reports/annunci-2026-01-08.json").
  - right. left. reflexivity.
  - reflexivity.
Defined.

(** ** Approval ledger: failures, sequences and the read path *)

Lemma accepted_body (rq : request) :
  accepted rq = true ->
  demo_mode rq = false /\ exists d, get_json rq = JObj d /\ d <> [].
Proof.
  unfold accepted. intros H.
  apply andb_true_iff in H as [H Ht]. apply andb_true_iff in H as [Hd Hi].
  apply negb_true_iff in Hd. split; [exact Hd|].
  destruct (get_json rq) as [| | | | |d]; try discriminate.
  exists d. split; [reflexivity|]. destruct d; [discriminate | discriminate].
Qed.

Section LedgerEdges.

Variable json_dumps : json -> string.

(** X10. A request [api_fix] rejects (403, 400) leaves the local log and the
    remote table as they were, and so does a request that ends in
    [AttributeError], which is raised before the log file is opened for
    writing; a 200 answer means exactly one entry was appended to the local
    log; and a local log that is not a JSON array makes every request that
    gets that far raise [AttributeError]. *)
Theorem api_fix_rejections_write_nothing
    (now : string) (remote : remote_mode) (st : store) (rq : request) :
  let out := api_fix now json_dumps remote st rq in
  (fst out = Raise AttributeError -> snd out = st) /\
  (forall r, fst out = Ok r -> status r <> 200 -> snd out = st) /\
  (forall r, fst out = Ok r -> status r = 200 ->
     accepted rq = true /\
     exists prev d,
       get_json rq = JObj d /\
       load_approvals st = JList prev /\
       load_approvals (snd out) =
         JList (prev ++ [JObj (make_approval now d)])) /\
  (accepted rq = true ->
   (forall prev, load_approvals st <> JList prev) ->
   fst out = Raise AttributeError).
Proof.
  cbv zeta. unfold api_fix, accepted.
  destruct (demo_mode rq).
  { cbn [fst snd negb andb].
    split; [intros H; discriminate|].
    split; [intros r _ _; reflexivity|].
    split; [intros r H Hs; returned H; discriminate Hs|].
    intros H; discriminate H. }
  destruct (truthy (get_json rq)) eqn:Et; cbn [negb].
  2: { cbn [fst snd]. rewrite andb_false_r.
       split; [intros H; discriminate|].
       split; [intros r _ _; reflexivity|].
       split; [intros r H Hs; returned H; discriminate Hs|].
       intros H; discriminate H. }
  assert (Hraise : forall e : exn,
    let out := (@Raise response e, st) in
    (fst out = Raise AttributeError -> snd out = st) /\
    (forall r, fst out = Ok r -> status r <> 200 -> snd out = st) /\
    (forall r, fst out = Ok r -> status r = 200 ->
       true && is_dict (get_json rq) && true = true /\
       exists prev d,
         get_json rq = JObj d /\
         load_approvals st = JList prev /\
         load_approvals (snd out) =
           JList (prev ++ [JObj (make_approval now d)]))).
  { intros e. cbn [fst snd].
    split; [intros; reflexivity|].
    split; [intros r H; discriminate|]. intros r H; discriminate. }
  destruct (get_json rq) as [| | | | |d] eqn:Eb;
    try (destruct (Hraise AttributeError) as (H1 & H2 & H3);
         split; [exact H1|]; split; [exact H2|]; split; [exact H3|];
         intros; reflexivity).
  unfold save_approval.
  destruct (load_approvals st) as [| | | |prev|] eqn:El;
    try (destruct (Hraise AttributeError) as (H1 & H2 & H3);
         split; [exact H1|]; split; [exact H2|]; split; [exact H3|];
         intros; reflexivity).
  destruct (disk_writable st) eqn:Ew.
  - cbn [fst snd is_dict andb].
    split; [intros H; discriminate|].
    split; [intros r H Hs; returned H; exfalso; apply Hs; reflexivity|].
    split.
    { intros r _ _. split; [reflexivity|]. exists prev, d.
      split; [reflexivity|]. split; [reflexivity|].
      destruct remote; reflexivity. }
    intros _ Hbad. exfalso. apply (Hbad prev). reflexivity.
  - destruct (Hraise OSError) as (H1 & H2 & H3).
    split; [exact H1|]. split; [exact H2|]. split; [exact H3|].
    intros _ Hbad. exfalso. apply (Hbad prev). reflexivity.
Qed.

(** X11. The local log only grows: replaying any sequence of accepted
    requests appends their approvals in call order after what was there,
    whatever the remote store does at each call. *)
Theorem approvals_accumulate_in_order
    (calls : list (string * remote_mode * request)) (st : store)
    (prev : list json) :
  Forall (fun call => accepted (snd call) = true) calls ->
  load_approvals st = JList prev ->
  disk_writable st = true ->
  load_approvals (record_all json_dumps calls st) =
    JList (prev ++ map approval_of calls).
Proof.
  intros Hall. revert st prev.
  induction Hall as [|[[now remote] rq] calls Hacc _ IH]; intros st prev Hlog Hw.
  - cbn [record_all fold_left map]. rewrite app_nil_r. exact Hlog.
  - unfold record_all in *. cbn [fold_left fst snd map].
    cbn [snd] in Hacc.
    destruct (accepted_body rq Hacc) as (Hdemo & d & Hbody & Hne).
    rewrite (api_fix_accepted now json_dumps remote st rq d prev
               Hdemo Hbody Hne Hlog Hw).
    cbn [snd]. unfold approval_of at 1. cbn [fst snd]. rewrite Hbody.
    replace (prev ++ JObj (make_approval now d) :: map approval_of calls)%list
      with ((prev ++ [JObj (make_approval now d)]) ++ map approval_of calls)%list
      by (rewrite <- app_assoc; reflexivity).
    apply IH; destruct remote; reflexivity.
Qed.

Variable json_loads : string -> option json.

(** What the remote store answers a read with, given its table, or [None]
    when it is not configured or the query fails. *)
Variable sb_select : list json -> option (list json).

(** X12. Writes are local-first but reads prefer the remote store: an
    approval whose mirror write failed is missing from the listing for as
    long as the remote store answers reads (the listing is what it was
    before the approval), and shows up only when the listing falls back to
    the local log. *)
Theorem unmirrored_approval_hidden_from_listing
    (now : string) (remote : remote_mode) (st : store) (rq : request)
    (prev : list json) :
  accepted rq = true ->
  load_approvals st = JList prev ->
  disk_writable st = true ->
  remote <> Reachable ->
  let st' := snd (api_fix now json_dumps remote st rq) in
  (forall rows, sb_select (remote_actions st) = Some rows ->
     api_approvals json_loads (sb_select (remote_actions st')) st' =
     api_approvals json_loads (sb_select (remote_actions st)) st) /\
  (sb_select (remote_actions st) = None ->
     api_approvals json_loads (sb_select (remote_actions st')) st' =
     Ok (JList (prev ++ [approval_of (now, remote, rq)]))).
Proof.
  intros Hacc Hlog Hw Hremote. cbv zeta.
  destruct (accepted_body rq Hacc) as (Hdemo & d & Hbody & Hne).
  rewrite (api_fix_accepted now json_dumps remote st rq d prev
             Hdemo Hbody Hne Hlog Hw).
  cbn [snd]. unfold approval_of. cbn [fst snd]. rewrite Hbody.
  assert (Htable :
    remote_actions
      (mirror json_dumps remote
         (mk_store (Some (JList (prev ++ [JObj (make_approval now d)])))
            (sample_approvals st) true (remote_actions st))
         (make_approval now d)) = remote_actions st).
  { destruct remote; try reflexivity. exfalso; apply Hremote; reflexivity. }
  rewrite Htable. split.
  - intros rows ->. reflexivity.
  - intros ->. cbn [api_approvals]. destruct remote; reflexivity.
Qed.

End LedgerEdges.

Lemma api_fix_rejections_write_nothing_witness :
  api_fix "2026-01-09T10:00:00+00:00" (fun _ => EmptyString) Reachable
    corrupt_ledger example_request
  = (Raise AttributeError, corrupt_ledger).
Proof.
  destruct (api_fix_rejections_write_nothing (fun _ => EmptyString)
              "2026-01-09T10:00:00+00:00" Reachable corrupt_ledger
              example_request) as (Hraise & _ & _ & Hcorrupt).
  assert (H : fst (api_fix "2026-01-09T10:00:00+00:00" (fun _ => EmptyString)
                     Reachable corrupt_ledger example_request)
              = Raise AttributeError).
  { apply Hcorrupt; [reflexivity | discriminate]. }
  rewrite (surjective_pairing (api_fix _ _ _ _ _)).
  rewrite H, (Hraise H). reflexivity.
Defined.

Lemma approvals_accumulate_in_order_witness :
  load_approvals
    (record_all (fun _ => EmptyString)
       [ ("2026-01-09T10:00:00+00:00", Unreachable, example_request);
         ("2026-01-09T11:00:00+00:00", Reachable, example_request) ]
       empty_ledger)
  = JList
      [ approval_of ("2026-01-09T10:00:00+00:00", Unreachable, example_request);
        approval_of ("2026-01-09T11:00:00+00:00", Reachable, example_request) ].
Proof.
  apply (approvals_accumulate_in_order (fun _ => EmptyString)
           [ ("2026-01-09T10:00:00+00:00", Unreachable, example_request);
             ("2026-01-09T11:00:00+00:00", Reachable, example_request) ]
           empty_ledger []).
  - repeat constructor.
  - reflexivity.
  - reflexivity.
Defined.

Lemma unmirrored_approval_hidden_from_listing_witness :
  api_approvals (fun _ => None)
    (newest_first
       (remote_actions
          (snd (api_fix "2026-01-09T10:00:00+00:00" (fun _ => EmptyString)
                  Unreachable empty_ledger example_request))))
    (snd (api_fix "2026-01-09T10:00:00+00:00" (fun _ => EmptyString)
            Unreachable empty_ledger example_request))
  = Ok (JList []).
Proof.
  destruct (unmirrored_approval_hidden_from_listing (fun _ => EmptyString)
              (fun _ => None) newest_first "2026-01-09T10:00:00+00:00"
              Unreachable empty_ledger example_request []
              eq_refl eq_refl eq_refl ltac:(discriminate)) as [Hhidden _].
  rewrite (Hhidden [] eq_refl). reflexivity.
Defined.

(** ** Listing endpoints *)

Lemma count_rows_app (name : string) (rows : list json) (row : json) :
  count_rows name (rows ++ [row]) =
  count_rows name rows + (if lowered_level_is name row then 1 else 0).
Proof.
  unfold count_rows. rewrite filter_app, length_app. cbn [filter].
  destruct (lowered_level_is name row); cbn [length]; lia.
Qed.

Lemma count_alert_consistent (agent_id : string) (acc acc' : alert_summary)
    (alert : json) :
  In agent_id AGENTS ->
  summary_consistent acc ->
  count_alert agent_id acc alert = Ok acc' ->
  summary_consistent acc' /\
  length (alerts acc') = S (length (alerts acc)).
Proof.
  intros Hag (Hr & Hy & Hg & Hsum & Htag).
  destruct alert as [| | | | |a]; cbn [count_alert]; try discriminate.
  destruct (dict_get a "level" (JStr EmptyString)) as [| | |lv| |] eqn:El;
    cbn [as_str bind]; try discriminate.
  set (row := JObj (dict_set a "agent" (JStr agent_id))).
  assert (Hlevel : forall name,
            lowered_level_is name row = (lower lv =? name)%string).
  { intros name. unfold row. cbn [lowered_level_is].
    rewrite dict_get_set_other by discriminate. rewrite El. reflexivity. }
  assert (Hrow : tagged row).
  { exists (dict_set a "agent" (JStr agent_id)), agent_id.
    split; [reflexivity|]. split; [exact Hag|]. apply dict_get_set_same. }
  assert (Hlen : length (alerts acc ++ [row]) = S (length (alerts acc))).
  { rewrite length_app. cbn [length]. lia. }
  assert (Htags : Forall tagged (alerts acc ++ [row])).
  { apply Forall_app. split; [exact Htag | constructor; [exact Hrow | constructor]]. }
  assert (Hstep : forall dr dy dg,
    dr = (if (lower lv =? "red")%string then 1 else 0) ->
    dy = (if (lower lv =? "yellow")%string then 1 else 0) ->
    dg = (if (lower lv =? "green")%string then 1 else 0) ->
    summary_consistent
      (mk_summary (red acc + dr) (yellow acc + dy) (green acc + dg)
         (alerts acc ++ [row]))).
  { intros dr dy dg -> -> ->.
    unfold summary_consistent. cbn [red yellow green alerts].
    rewrite !count_rows_app, !Hlevel, Hlen.
    split; [lia|]. split; [lia|]. split; [lia|]. split; [|exact Htags].
    destruct (String.eqb_spec (lower lv) "red") as [->|_];
      [cbn [String.eqb Ascii.eqb Bool.eqb]; lia|].
    destruct (String.eqb_spec (lower lv) "yellow") as [->|_];
      [cbn [String.eqb Ascii.eqb Bool.eqb]; lia|].
    destruct (lower lv =? "green")%string; lia. }
  intros H. split; [|destruct (lower lv =? "red")%string;
                     [|destruct (lower lv =? "yellow")%string;
                       [|destruct (lower lv =? "green")%string]];
                     returned H; exact Hlen].
  destruct (String.eqb_spec (lower lv) "red") as [Er|Er].
  { returned H.
    replace (yellow acc) with (yellow acc + 0) by lia.
    replace (green acc) with (green acc + 0) by lia.
    apply Hstep; rewrite ?Er; reflexivity. }
  destruct (String.eqb_spec (lower lv) "yellow") as [Ey|Ey].
  { returned H.
    replace (red acc) with (red acc + 0) by lia.
    replace (green acc) with (green acc + 0) by lia.
    apply Hstep; rewrite ?Ey; reflexivity. }
  destruct (String.eqb_spec (lower lv) "green") as [Eg|Eg].
  { returned H.
    replace (red acc) with (red acc + 0) by lia.
    replace (yellow acc) with (yellow acc + 0) by lia.
    apply Hstep; reflexivity. }
  returned H.
  replace (red acc) with (red acc + 0) by lia.
  replace (yellow acc) with (yellow acc + 0) by lia.
  replace (green acc) with (green acc + 0) by lia.
  apply Hstep; reflexivity.
Qed.

Lemma fold_count_alert_consistent (agent_id : string) (items : list json)
    (acc acc' : alert_summary) :
  In agent_id AGENTS ->
  summary_consistent acc ->
  fold_result (count_alert agent_id) items acc = Ok acc' ->
  summary_consistent acc' /\
  length (alerts acc') = (length (alerts acc) + length items)%nat.
Proof.
  intros Hag. revert acc.
  induction items as [|x items IH]; cbn [fold_result]; intros acc Hc H.
  - returned H. split; [exact Hc | cbn [length]; lia].
  - destruct (count_alert agent_id acc x) as [acc1|] eqn:E1; cbn [bind] in H;
      [|discriminate].
    destruct (count_alert_consistent _ _ _ _ Hag Hc E1) as [Hc1 Hl1].
    destruct (IH acc1 Hc1 H) as [Hc' Hl'].
    split; [exact Hc'|]. rewrite Hl', Hl1. cbn [length]. lia.
Qed.

(** One pass of the loop body appends the alert, tagged, to the list. *)
Lemma count_alert_listed (agent_id : string) (acc acc' : alert_summary)
    (alert : json) :
  count_alert agent_id acc alert = Ok acc' ->
  exists a,
    alert = JObj a /\
    alerts acc' =
      (alerts acc ++ [JObj (dict_set a "agent" (JStr agent_id))])%list.
Proof.
  unfold count_alert. destruct alert as [| | | | |a]; try discriminate.
  destruct (dict_get a "level" (JStr EmptyString)) as [| | |lv| |];
    try discriminate.
  cbn [as_str bind]. intros H. exists a. split; [reflexivity|].
  destruct (lower lv =? "red")%string; [returned H; reflexivity|].
  destruct (lower lv =? "yellow")%string; [returned H; reflexivity|].
  destruct (lower lv =? "green")%string; returned H; reflexivity.
Qed.

Lemma fold_count_alert_listed (P : json -> Prop) (agent_id : string)
    (items : list json) (acc acc' : alert_summary) :
  (forall a, In (JObj a) items ->
     P (JObj (dict_set a "agent" (JStr agent_id)))) ->
  Forall P (alerts acc) ->
  fold_result (count_alert agent_id) items acc = Ok acc' ->
  Forall P (alerts acc').
Proof.
  revert acc. induction items as [|x items IH]; cbn [fold_result];
    intros acc Hitems Hacc H.
  - returned H. exact Hacc.
  - destruct (count_alert agent_id acc x) as [acc1|] eqn:E1; cbn [bind] in H;
      [|discriminate].
    apply count_alert_listed in E1 as (a & -> & Hl).
    apply (IH acc1).
    + intros b Hb. apply Hitems. right. exact Hb.
    + rewrite Hl. apply Forall_app. split; [exact Hacc|].
      constructor; [|constructor]. apply Hitems. left. reflexivity.
    + exact H.
Qed.

Section LocalListingFacts.

Variable py_hash : string -> Z.
Variable py_repr : json -> string.
Variable latest : string -> result json.

Lemma count_reports_listed (agents : list string) (acc s : alert_summary) :
  incl agents AGENTS ->
  Forall (listed_from latest) (alerts acc) ->
  count_reports latest agents acc = Ok s ->
  Forall (listed_from latest) (alerts s).
Proof.
  revert acc. induction agents as [|ag agents IH]; cbn [count_reports];
    intros acc Hincl Hacc H.
  - returned H. exact Hacc.
  - assert (Hag : In ag AGENTS) by (apply Hincl; left; reflexivity).
    assert (Hrest : incl agents AGENTS).
    { intros x Hx. apply Hincl. right. exact Hx. }
    destruct (latest ag) as [report|] eqn:El; cbn [bind] in H;
      [|discriminate].
    destruct (truthy report); cbn [negb] in H; [|eapply IH; eassumption].
    destruct (report_alerts report) as [items|] eqn:Ei; cbn [bind] in H;
      [|discriminate].
    destruct (fold_result (count_alert ag) items acc) as [acc1|] eqn:E1;
      cbn [bind] in H; [|discriminate].
    apply (IH acc1 Hrest); [|exact H].
    apply (fold_count_alert_listed _ ag items acc acc1); [|exact Hacc|exact E1].
    intros a Ha. exists ag, report, items, a.
    split; [exact Hag|]. split; [exact El|]. split; [exact Ei|].
    split; [exact Ha|]. split; [reflexivity|].
    cbn [py_get]. rewrite dict_get_set_same. reflexivity.
Qed.

Lemma count_reports_consistent (agents : list string)
    (acc s : alert_summary) :
  incl agents AGENTS ->
  summary_consistent acc ->
  count_reports latest agents acc = Ok s ->
  summary_consistent s.
Proof.
  revert acc. induction agents as [|ag agents IH]; cbn [count_reports];
    intros acc Hincl Hc H.
  - returned H. exact Hc.
  - assert (Hag : In ag AGENTS) by (apply Hincl; left; reflexivity).
    assert (Hrest : incl agents AGENTS).
    { intros x Hx. apply Hincl. right. exact Hx. }
    destruct (latest ag) as [report|]; cbn [bind] in H; [|discriminate].
    destruct (truthy report); cbn [negb] in H; [|eapply IH; eassumption].
    destruct (report_alerts report) as [items|]; cbn [bind] in H;
      [|discriminate].
    destruct (fold_result (count_alert ag) items acc) as [acc1|] eqn:E1;
      cbn [bind] in H; [|discriminate].
    destruct (fold_count_alert_consistent _ _ _ _ Hag Hc E1) as [Hc1 _].
    eapply IH; eassumption.
Qed.

(** X13. The summary [api_alerts] builds from local reports is consistent:
    each counter is the number of listed alerts whose level, lower-cased, is
    that colour, the three counters never add up to more than the list
    holds, and every listed alert is an alert of the latest report of one of
    the agents, with its ["agent"] key set to the id of that very agent. *)
Theorem alert_summary_counts_match_list (s : alert_summary) :
  api_alerts_local latest = Ok s ->
  summary_consistent s /\ Forall (listed_from latest) (alerts s).
Proof.
  unfold api_alerts_local. intros H. split.
  - revert H. apply count_reports_consistent.
    + apply incl_refl.
    + unfold summary_consistent, count_rows.
      cbn [red yellow green alerts filter length].
      repeat split; try reflexivity; try lia. constructor.
  - revert H. apply count_reports_listed.
    + apply incl_refl.
    + constructor.
Qed.

Lemma count_reports_length (agents : list string) (acc s : alert_summary)
    (es : list enriched) :
  incl agents AGENTS ->
  summary_consistent acc ->
  count_reports latest agents acc = Ok s ->
  enrich_reports py_hash py_repr latest agents = Ok es ->
  length (alerts s) = (length (alerts acc) + length es)%nat.
Proof.
  revert acc es. induction agents as [|ag agents IH];
    cbn [count_reports enrich_reports]; intros acc es Hincl Hc H1 H2.
  - returned H1. returned H2. cbn [length]. lia.
  - assert (Hag : In ag AGENTS) by (apply Hincl; left; reflexivity).
    assert (Hrest : incl agents AGENTS).
    { intros x Hx. apply Hincl. right. exact Hx. }
    destruct (latest ag) as [report|]; cbn [bind] in H1, H2; [|discriminate].
    destruct (truthy report); cbn [negb] in H1, H2;
      [|eapply IH; eassumption].
    destruct (report_alerts report) as [items|]; cbn [bind] in H1, H2;
      [|discriminate].
    destruct (fold_result (count_alert ag) items acc) as [acc1|] eqn:E1;
      cbn [bind] in H1; [|discriminate].
    destruct (map_result _ items) as [es1|] eqn:E2; cbn [bind] in H2;
      [|discriminate].
    destruct (enrich_reports py_hash py_repr latest agents) as [more|] eqn:E3;
      cbn [bind] in H2; [|discriminate].
    returned H2.
    destruct (fold_count_alert_consistent _ _ _ _ Hag Hc E1) as [Hc1 Hl1].
    rewrite (IH acc1 more Hrest Hc1 H1 eq_refl), Hl1, length_app.
    rewrite (map_result_length _ _ _ E2). lia.
Qed.

Lemma sort_alerts_length (l l' : list enriched) :
  sort_alerts l = Ok l' -> length l' = length l.
Proof.
  rewrite sort_alerts_sort_by. intros H.
  apply sort_by_sorted in H as (Hperm & _).
  symmetry. apply Permutation_length. exact Hperm.
Qed.

(** X14. Over the same local reports the summary and the detailed listing
    agree on how many alerts there are: whenever both endpoints answer, the
    summary lists exactly as many alerts as the detailed listing returns. *)
Theorem summary_and_detail_list_same_number
    (s : alert_summary) (out : list enriched) :
  api_alerts_local latest = Ok s ->
  alerts_detailed_local py_hash py_repr latest = Ok out ->
  length (alerts s) = length out.
Proof.
  unfold api_alerts_local, alerts_detailed_local. intros H1 H2.
  destruct (enrich_reports py_hash py_repr latest AGENTS) as [es|] eqn:E;
    cbn [bind] in H2; [|discriminate].
  rewrite (sort_alerts_length _ _ H2).
  apply (count_reports_length AGENTS (mk_summary 0 0 0 []) s es);
    [apply incl_refl | | exact H1 | exact E].
  unfold summary_consistent, count_rows. cbn [red yellow green alerts filter length].
  repeat split; try reflexivity; try lia. constructor.
Qed.

End LocalListingFacts.

Lemma alert_summary_counts_match_list_witness :
  exists s,
    api_alerts_local example_latest = Ok s /\
    red s = 1 /\ yellow s = 0 /\ length (alerts s) = 2%nat /\
    summary_consistent s /\ Forall (listed_from example_latest) (alerts s).
Proof.
  eexists. split; [reflexivity|].
  split; [reflexivity|]. split; [reflexivity|]. split; [reflexivity|].
  apply (alert_summary_counts_match_list example_latest). reflexivity.
Defined.

Lemma summary_and_detail_list_same_number_witness :
  exists s out,
    api_alerts_local example_latest = Ok s /\
    alerts_detailed_local (fun _ => 0) (fun _ => EmptyString) example_latest
      = Ok out /\
    length (alerts s) = length out.
Proof.
  eexists. eexists. split; [reflexivity|]. split; [reflexivity|].
  apply (summary_and_detail_list_same_number (fun _ => 0)
           (fun _ => EmptyString) example_latest); reflexivity.
Defined.

Lemma map_result_raises {A B : Type} (f : A -> result B) (l : list A)
    (x : A) (e : exn) :
  In x l -> f x = Raise e -> exists e', map_result f l = Raise e'.
Proof.
  induction l as [|y l IH]; intros Hin Hx; [destruct Hin|].
  cbn [map_result]. destruct (f y) as [b|ey] eqn:Ey; cbn [bind]; [|eauto].
  destruct Hin as [->|Hin]; [congruence|].
  destruct (IH Hin Hx) as [e' ->]. cbn [bind]. eauto.
Qed.

Lemma map_result_Forall {A B : Type} (f : A -> result B) (P : B -> Prop)
    (l : list A) (l' : list B) :
  (forall x y, f x = Ok y -> P y) ->
  map_result f l = Ok l' -> Forall P l'.
Proof.
  intros HP H. apply map_result_Forall2 in H.
  induction H as [|x y l l' Hxy _ IH]; constructor; eauto.
Qed.

Section DetailedListingFacts.

Variable py_hash : string -> Z.
Variable py_repr : json -> string.
Variable latest : string -> result json.

Lemma enrich_reports_records (agents : list string) (es : list enriched) :
  enrich_reports py_hash py_repr latest agents = Ok es ->
  Forall (fun e => In (agent e) agents /\ fixes e <> [] /\ evidence e <> [])
    es.
Proof.
  revert es. induction agents as [|ag agents IH]; cbn [enrich_reports];
    intros es H.
  - returned H. constructor.
  - assert (Hweak : forall l,
      Forall (fun e => In (agent e) agents /\ fixes e <> [] /\ evidence e <> []) l ->
      Forall (fun e => In (agent e) (ag :: agents) /\ fixes e <> [] /\
                       evidence e <> []) l).
    { intros l Hl. eapply Forall_impl; [|exact Hl].
      intros e (Hin & Hfe). split; [right; exact Hin | exact Hfe]. }
    destruct (latest ag) as [report|]; cbn [bind] in H; [|discriminate].
    destruct (truthy report); cbn [negb] in H; [|apply Hweak, IH; exact H].
    destruct (report_alerts report) as [items|]; cbn [bind] in H;
      [|discriminate].
    destruct (map_result _ items) as [es1|] eqn:E1; cbn [bind] in H;
      [|discriminate].
    destruct (enrich_reports py_hash py_repr latest agents) as [more|];
      cbn [bind] in H; [|discriminate].
    returned H. apply Forall_app. split; [|apply Hweak, IH; reflexivity].
    eapply map_result_Forall; [|exact E1].
    intros alert e He. cbv beta in He.
    apply enrich_alert_shape in He
      as (a & raw & n & w & ev & fx & _ & _ & _ & -> & Hcase).
    cbn [agent fixes evidence diagnose base_record].
    split; [left; reflexivity|].
    destruct Hcase as [(_ & _ & -> & ->) | (_ & s & _ & _ & Hev & Hfx)].
    + split; discriminate.
    + split; assumption.
Qed.

(** X15. The detailed listing built from local reports is ranked and
    complete in itself: of two records the earlier never has the larger
    sort key, and every record names one of the twelve agents and carries at
    least one fix and one evidence entry. *)
Theorem detailed_listing_ranked_and_filled (out : list enriched) :
  alerts_detailed_local py_hash py_repr latest = Ok out ->
  (forall x y, precedes x y out -> in_order x y) /\
  Forall (fun e => In (agent e) AGENTS /\ fixes e <> [] /\ evidence e <> [])
    out.
Proof.
  unfold alerts_detailed_local. intros H.
  destruct (enrich_reports py_hash py_repr latest AGENTS) as [es|] eqn:E;
    cbn [bind] in H; [|discriminate].
  rewrite sort_alerts_sort_by in H.
  apply sort_by_sorted in H as (Hperm & Hsorted & _).
  split.
  - intros x y Hp.
    destruct (sorted_precedes _ _ _ _ Hsorted Hp) as (kx & ky & Hx & Hy & Hle).
    exists kx, ky. auto.
  - apply (Permutation_Forall Hperm). apply enrich_reports_records. exact E.
Qed.

Lemma enrich_reports_raises (agents : list string) (agent_id : string)
    (report : json) (items : list json) (alert : json) (e : exn) :
  In agent_id agents ->
  latest agent_id = Ok report ->
  truthy report = true ->
  report_alerts report = Ok items ->
  In alert items ->
  enrich_alert py_hash py_repr alert agent_id report = Raise e ->
  exists e', enrich_reports py_hash py_repr latest agents = Raise e'.
Proof.
  intros Hin Hl Ht Hitems Halert Hbad.
  induction agents as [|ag agents IH]; [destruct Hin|].
  cbn [enrich_reports].
  destruct (String.eqb_spec ag agent_id) as [->|Hne].
  - rewrite Hl. cbn [bind]. rewrite Ht. cbn [negb]. rewrite Hitems.
    cbn [bind].
    destruct (map_result_raises
                (fun alert => enrich_alert py_hash py_repr alert agent_id report)
                items alert e Halert Hbad) as [e' ->].
    cbn [bind]. eauto.
  - destruct Hin as [Heq|Hin]; [contradiction|].
    destruct (IH Hin) as [e' He'].
    destruct (latest ag) as [r|]; cbn [bind]; [|eauto].
    destruct (truthy r); cbn [negb]; [|eauto].
    destruct (report_alerts r) as [its|]; cbn [bind]; [|eauto].
    destruct (map_result _ its) as [es1|]; cbn [bind]; [|eauto].
    rewrite He'. cbn [bind]. eauto.
Qed.

(** X16. The detailed listing is all or nothing: one alert, in the latest
    report of any of the agents, that [enrich_alert] raises on makes the
    whole listing raise; the alerts of the other agents are not returned. *)
Theorem detailed_listing_fails_on_one_bad_alert
    (agent_id : string) (report : json) (items : list json) (alert : json)
    (e : exn) :
  In agent_id AGENTS ->
  latest agent_id = Ok report ->
  truthy report = true ->
  report_alerts report = Ok items ->
  In alert items ->
  enrich_alert py_hash py_repr alert agent_id report = Raise e ->
  exists e', alerts_detailed_local py_hash py_repr latest = Raise e'.
Proof.
  intros Hin Hl Ht Hitems Halert Hbad. unfold alerts_detailed_local.
  destruct (enrich_reports_raises AGENTS agent_id report items alert e
              Hin Hl Ht Hitems Halert Hbad) as [e' ->].
  cbn [bind]. eauto.
Qed.

End DetailedListingFacts.

Lemma detailed_listing_ranked_and_filled_witness :
  exists out,
    alerts_detailed_local (fun _ => 0) (fun _ => EmptyString) example_latest
      = Ok out /\
    Forall (fun e => In (agent e) AGENTS /\ fixes e <> [] /\ evidence e <> [])
      out.
Proof.
  eexists. split; [reflexivity|].
  apply (detailed_listing_ranked_and_filled (fun _ => 0)
           (fun _ => EmptyString) example_latest).
  reflexivity.
Defined.

Lemma detailed_listing_fails_on_one_bad_alert_witness :
  exists e',
    alerts_detailed_local (fun _ => 0) (fun _ => EmptyString) broken_latest
      = Raise e'.
Proof.
  apply (detailed_listing_fails_on_one_bad_alert (fun _ => 0)
           (fun _ => EmptyString) broken_latest "bussola"
           (JObj [ ("alerts", JList [ JObj [ ("finding", JNull) ] ]) ])
           [ JObj [ ("finding", JNull) ] ]
           (JObj [ ("finding", JNull) ]) AttributeError).
  - do 2 right. left. reflexivity.
  - reflexivity.
  - reflexivity.
  - reflexivity.
  - left. reflexivity.
  - reflexivity.
Defined.

(** X17. The summary lower-cases the level and defaults it to the empty
    text, the ranking compares it as written and enrichment defaults it to
    "yellow".  So an alert whose level is red in other than lower case is
    counted as red by the summary yet ranked with the unrecognized levels,
    and an alert without a level is counted under no colour yet ranked as
    yellow. *)
Theorem summary_and_ranking_read_levels_differently
    (py_hash : string -> Z) (py_repr : json -> string)
    (a : dict) (agent_id : string) (report : json) (acc : alert_summary) :
  (forall s,
     lookup "level" a = Some (JStr s) -> lower s = "red" -> s <> "red" ->
     (exists acc',
        count_alert agent_id acc (JObj a) = Ok acc' /\
        red acc' = red acc + 1) /\
     (forall e,
        enrich_alert py_hash py_repr (JObj a) agent_id report = Ok e ->
        exists m, sort_key e = Ok (3, m))) /\
  (lookup "level" a = None ->
     (exists acc',
        count_alert agent_id acc (JObj a) = Ok acc' /\
        red acc' = red acc /\ yellow acc' = yellow acc /\
        green acc' = green acc) /\
     (forall e,
        enrich_alert py_hash py_repr (JObj a) agent_id report = Ok e ->
        exists m, sort_key e = Ok (1, m))).
Proof.
  split.
  - intros s Hs Hlow Hne. split.
    + cbn [count_alert]. rewrite (dict_get_present _ _ _ _ Hs).
      cbn [as_str bind]. rewrite Hlow. eexists. split; reflexivity.
    + intros e He.
      apply enrich_alert_shape in He
        as (a' & raw & n & w & ev & fx & Ha & _ & _ & -> & _).
      inversion Ha; subst a'.
      unfold sort_key. cbn [level diagnose base_record].
      rewrite (dict_get_present _ _ _ _ Hs). cbn [level_rank].
      destruct (String.eqb_spec s "red") as [E|_]; [contradiction|].
      destruct (String.eqb_spec s "yellow") as [E|_];
        [rewrite E in Hlow; discriminate|].
      destruct (String.eqb_spec s "green") as [E|_];
        [rewrite E in Hlow; discriminate|].
      cbn [bind]. eauto.
  - intros Habs. split.
    + cbn [count_alert]. rewrite (dict_get_absent _ _ _ Habs).
      cbn [as_str bind]. eexists. split; [reflexivity|].
      cbn [red yellow green]. auto.
    + intros e He.
      apply enrich_alert_shape in He
        as (a' & raw & n & w & ev & fx & Ha & _ & _ & -> & _).
      inversion Ha; subst a'.
      unfold sort_key. cbn [level diagnose base_record].
      rewrite (dict_get_absent _ _ _ Habs). cbn [level_rank bind]. eauto.
Qed.

Lemma summary_and_ranking_read_levels_differently_witness :
  (exists acc',
     count_alert "annunci" (mk_summary 0 0 0 [])
       (JObj [ ("finding", JStr "CPA high"); ("level", JStr "RED") ])
       = Ok acc' /\
     red acc' = 1) /\
  (exists e,
     enrich_alert (fun _ => 0) (fun _ => EmptyString)
       (JObj [ ("finding", JStr "CPA high"); ("level", JStr "RED") ])
       "annunci" JNull = Ok e /\
     sort_key e = Ok (3, 0)).
Proof.
  destruct (summary_and_ranking_read_levels_differently (fun _ => 0)
              (fun _ => EmptyString)
              [ ("finding", JStr "CPA high"); ("level", JStr "RED") ]
              "annunci" JNull (mk_summary 0 0 0 [])) as [Hcase _].
  destruct (Hcase "RED" eq_refl eq_refl ltac:(discriminate)) as [Hcount _].
  split; [exact Hcount|].
  eexists. split; reflexivity.
Defined.

(** ** Lead capture *)

(** X18. Who may read the leads: the request is answered with the leads
    exactly when the session is logged in, or an API key is configured and
    the presented key equals it, where a non-empty [key] query argument is
    the presented key and hides the [X-API-Key] header.  With no API key
    configured no key opens the endpoint. *)
Theorem leads_access_rule
    (LEADS_API_KEY : string) (logged_in : json)
    (arg_key header_key : option string) (ls : lead_store) :
  let answer := api_leads LEADS_API_KEY logged_in arg_key header_key ls in
  (status answer = 200 <->
   truthy logged_in = true \/
   (LEADS_API_KEY <> EmptyString /\
    presented_key arg_key header_key = Some LEADS_API_KEY)) /\
  (status answer = 200 -> payload answer = _load_leads ls) /\
  (status answer <> 200 ->
   answer = mk_response 401 (JObj [ ("error", JStr "unauthorized") ])) /\
  (forall k, arg_key = Some k -> k <> EmptyString -> k <> LEADS_API_KEY ->
   truthy logged_in = false -> status answer = 401).
Proof.
  cbv zeta. unfold api_leads.
  assert (Hkey : truthy (JStr LEADS_API_KEY) = true <->
                 LEADS_API_KEY <> EmptyString).
  { cbn [truthy]. rewrite negb_true_iff. apply String.eqb_neq. }
  destruct (truthy logged_in); cbn [negb andb].
  { cbn [status payload]. repeat split; auto; try discriminate.
    intros H; exfalso; apply H; reflexivity. }
  destruct (truthy (JStr LEADS_API_KEY)) eqn:Ek; cbn [negb orb].
  2: { cbn [status payload].
       split; [split; [discriminate|]|].
       - intros [H|[H _]]; [discriminate|].
         apply Hkey in H. discriminate.
       - repeat split; auto; discriminate. }
  assert (Hk : LEADS_API_KEY <> EmptyString) by (apply Hkey; reflexivity).
  destruct (presented_key arg_key header_key) as [k|] eqn:Ep.
  - destruct (String.eqb_spec k LEADS_API_KEY) as [->|Hne];
      cbn [negb status payload].
    + split; [split; auto|]. split; [reflexivity|]. split.
      * intros H; exfalso; apply H; reflexivity.
      * intros k' -> Hk' Hne' _. exfalso.
        unfold presented_key in Ep.
        destruct (k' =? EmptyString)%string eqn:E; cbn [negb] in Ep.
        -- apply String.eqb_eq in E. contradiction.
        -- inversion Ep. contradiction.
    + split; [split; [discriminate|]|].
      * intros [H|[_ H]]; [discriminate|]. inversion H. contradiction.
      * repeat split; auto; discriminate.
  - cbn [negb status payload].
    split; [split; [discriminate|]|].
    + intros [H|[_ H]]; discriminate.
    + repeat split; auto; discriminate.
Qed.

Lemma leads_access_rule_witness :
  status (api_leads "s3cret" JNull (Some "guess") (Some "s3cret") no_leads)
    = 401 /\
  status (api_leads "s3cret" JNull None (Some "s3cret") no_leads) = 200 /\
  status (api_leads EmptyString JNull None (Some EmptyString) no_leads) = 401.
Proof.
  destruct (leads_access_rule "s3cret" JNull (Some "guess") (Some "s3cret")
              no_leads) as (_ & _ & _ & Hmask).
  destruct (leads_access_rule "s3cret" JNull None (Some "s3cret") no_leads)
    as (Hiff & _).
  split; [apply (Hmask "guess"); [reflexivity | discriminate | discriminate
                                 | reflexivity]|].
  split; [apply Hiff; right; split; [discriminate | reflexivity]|].
  reflexivity.
Defined.

(** X19. Once [request.get_json()] has returned, a demo request is never
    turned away for what it returned: a falsy value (JSON null, an empty
    object or list, 0, false, the empty string) and every object are
    recorded, the lead is appended to the leads file after what was there,
    its timestamp is always the server's clock (a timestamp sent by the
    caller is ignored), and with a falsy value the source is "website" and
    the name empty; a preflight (OPTIONS) request writes nothing.  Requests
    on which [get_json] itself raises (no JSON content type, no parsable
    body) are not covered: they never reach the handler's own lines. *)
Theorem demo_request_records_lead
    (now method : string) (body : json) (ls : lead_store)
    (prev : list json) :
  _load_leads ls = JList prev ->
  leads_writable ls = true ->
  (method <> "OPTIONS" ->
   truthy body = false \/ is_dict body = true ->
   exists lead,
     lead = make_lead now (match py_or body (JObj []) with
                           | JObj d => d
                           | _ => []
                           end) /\
     snd (demo_request now method body ls) =
       mk_leads (Some (JList (prev ++ [JObj lead]))) true /\
     _load_leads (snd (demo_request now method body ls)) =
       JList (prev ++ [JObj lead]) /\
     (exists answer, fst (demo_request now method body ls) = Ok answer) /\
     lookup "timestamp" lead = Some (JStr now) /\
     (truthy body = false ->
      lookup "source" lead = Some (JStr "website") /\
      lookup "name" lead = Some (JStr EmptyString))) /\
  snd (demo_request now "OPTIONS" body ls) = ls.
Proof.
  intros Hlog Hw. split; [|reflexivity].
  intros Hm Hbody. unfold demo_request.
  apply String.eqb_neq in Hm. rewrite Hm.
  assert (Hd : exists d, py_or body (JObj []) = JObj d /\
                         (truthy body = false -> d = [])).
  { unfold py_or. destruct Hbody as [Hf|Hdict].
    - rewrite Hf. exists []. auto.
    - destruct body as [| | | | |d]; try discriminate.
      destruct (truthy (JObj d)) eqn:E.
      + exists d. split; [reflexivity | discriminate].
      + exists []. auto. }
  destruct Hd as (d & -> & Hempty).
  unfold _save_lead. rewrite Hlog, Hw. cbn [fst snd].
  eexists. split; [reflexivity|].
  split; [reflexivity|]. split; [reflexivity|]. split; [eauto|].
  split; [reflexivity|].
  intros Hf. rewrite (Hempty Hf). split; reflexivity.
Qed.

Lemma demo_request_records_lead_witness :
  _load_leads
    (snd (demo_request "2026-01-09T10:00:00+00:00" "POST"
            (JObj [ ("name", JStr "Ada");
                    ("timestamp", JStr "1999-01-01T00:00:00") ])
            no_leads))
  = JList
      [ JObj (make_lead "2026-01-09T10:00:00+00:00" [ ("name", JStr "Ada") ]) ].
Proof.
  destruct (demo_request_records_lead "2026-01-09T10:00:00+00:00" "POST"
              (JObj [ ("name", JStr "Ada");
                      ("timestamp", JStr "1999-01-01T00:00:00") ])
              no_leads [] eq_refl eq_refl) as [Hpost _].
  destruct (Hpost ltac:(discriminate) (or_intror eq_refl))
    as (lead & Hlead & _ & Hlog & _).
  rewrite Hlog, Hlead. reflexivity.
Defined.

(** ** Summary of remote rows *)

Lemma level_is_exact (name : string) (row : json) (b : bool) :
  level_is name row = Ok b -> b = exact_level_is name row.
Proof.
  destruct row as [| | | | |a]; cbn [level_is py_get bind]; try discriminate.
  intros H. returned H. reflexivity.
Qed.

Lemma count_level_exact (name : string) (rows : list json) (n : Z) :
  count_level name rows = Ok n ->
  n = Z.of_nat (length (filter (exact_level_is name) rows)) /\
  Forall (fun row => is_dict row = true) rows.
Proof.
  unfold count_level. intros H.
  destruct (map_result (level_is name) rows) as [hits|] eqn:E;
    cbn [bind] in H; [|discriminate].
  returned H. apply map_result_Forall2 in E.
  induction E as [|row b rows hits Hb _ [IH1 IH2]]; [split; [reflexivity | constructor]|].
  split.
  - cbn [filter]. rewrite (level_is_exact _ _ _ Hb).
    destruct (exact_level_is name row); cbn [length]; lia.
  - constructor; [|exact IH2].
    destruct row; cbn [level_is py_get bind] in Hb; try discriminate.
    reflexivity.
Qed.

Lemma exact_levels_disjoint (rows : list json) :
  (length (filter (exact_level_is "red") rows) +
   length (filter (exact_level_is "yellow") rows) +
   length (filter (exact_level_is "green") rows) <= length rows)%nat.
Proof.
  induction rows as [|row rows IH]; [cbn; lia|].
  cbn [filter length].
  assert (H : (if exact_level_is "red" row then 1 else 0) +
              (if exact_level_is "yellow" row then 1 else 0) +
              (if exact_level_is "green" row then 1 else 0) <= 1).
  { unfold exact_level_is. destruct row as [| | | | |a]; try lia.
    destruct (dict_get a "level" JNull) as [| | |lv| |]; try lia.
    destruct (String.eqb_spec lv "red") as [->|_];
      [cbn [String.eqb Ascii.eqb Bool.eqb]; lia|].
    destruct (String.eqb_spec lv "yellow") as [->|_];
      [cbn [String.eqb Ascii.eqb Bool.eqb]; lia|].
    destruct (lv =? "green")%string; lia. }
  destruct (exact_level_is "red" row), (exact_level_is "yellow" row),
    (exact_level_is "green" row); cbn [length]; lia.
Qed.

(** X20. The summary of remote rows returns the rows as the store answered
    them and counts levels as written, without lower-casing: each counter is
    the number of rows whose level is exactly that colour, and the counters
    never add up to more than the number of rows. *)
Theorem remote_summary_counts_exact_levels
    (sb_alerts : list json) (s : alert_summary) :
  api_alerts_remote sb_alerts = Ok s ->
  alerts s = sb_alerts /\
  red s = Z.of_nat (length (filter (exact_level_is "red") sb_alerts)) /\
  yellow s = Z.of_nat (length (filter (exact_level_is "yellow") sb_alerts)) /\
  green s = Z.of_nat (length (filter (exact_level_is "green") sb_alerts)) /\
  red s + yellow s + green s <= Z.of_nat (length sb_alerts).
Proof.
  unfold api_alerts_remote. intros H.
  destruct (count_level "red" sb_alerts) as [r|] eqn:Er; cbn [bind] in H;
    [|discriminate].
  destruct (count_level "yellow" sb_alerts) as [y|] eqn:Ey; cbn [bind] in H;
    [|discriminate].
  destruct (count_level "green" sb_alerts) as [g|] eqn:Eg; cbn [bind] in H;
    [|discriminate].
  returned H. cbn [red yellow green alerts].
  apply count_level_exact in Er as [-> _].
  apply count_level_exact in Ey as [-> _].
  apply count_level_exact in Eg as [-> _].
  repeat split; try reflexivity.
  pose proof (exact_levels_disjoint sb_alerts). lia.
Qed.

Lemma remote_summary_counts_exact_levels_witness :
  exists s,
    api_alerts_remote
      [ JObj [ ("level", JStr "red") ]; JObj [ ("level", JStr "RED") ];
        JObj [ ("finding", JStr "no level") ] ] = Ok s /\
    red s = 1 /\ red s + yellow s + green s <= 3.
Proof.
  eexists. split; [reflexivity|].
  destruct (remote_summary_counts_exact_levels
              [ JObj [ ("level", JStr "red") ]; JObj [ ("level", JStr "RED") ];
                JObj [ ("finding", JStr "no level") ] ] _ eq_refl)
    as (_ & Hred & _ & _ & Hsum).
  split; [exact Hred | exact Hsum].
Defined.

(** ** Latest report rows of the remote store *)

Lemma py_key_eqb_sym (k1 k2 : json) : py_key_eqb k1 k2 = py_key_eqb k2 k1.
Proof.
  destruct k1 as [|b1|n1|s1|l1|d1], k2 as [|b2|n2|s2|l2|d2];
    cbn [py_key_eqb as_int]; try reflexivity;
    try apply Z.eqb_sym; apply String.eqb_sym.
Qed.

Lemma key_in_app (k : json) (d1 d2 : list (json * json)) :
  key_in k (d1 ++ d2) = key_in k d1 || key_in k d2.
Proof. unfold key_in. apply existsb_app. Qed.

Lemma key_in_false (k : json) (d : list (json * json)) (kv : json * json) :
  key_in k d = false -> In kv d -> py_key_eqb (fst kv) k = false.
Proof.
  unfold key_in. intros H Hin.
  destruct (py_key_eqb (fst kv) k) eqn:E; [|reflexivity].
  assert (Hex : existsb (fun kv' => py_key_eqb (fst kv') k) d = true).
  { apply existsb_exists. exists kv. auto. }
  congruence.
Qed.

Lemma distinct_keys_snoc (d : list (json * json)) (k v : json) :
  distinct_keys d -> key_in k d = false -> distinct_keys (d ++ [(k, v)]).
Proof.
  induction d as [|kv d IH]; cbn [app distinct_keys]; intros Hd Hk.
  - split; [reflexivity | exact I].
  - destruct Hd as [Hkv Hd].
    unfold key_in in Hk. cbn [existsb] in Hk.
    apply orb_false_iff in Hk as [Hk1 Hk2].
    split; [|apply IH; assumption].
    rewrite key_in_app, Hkv. unfold key_in at 1. cbn [existsb fst orb].
    rewrite py_key_eqb_sym, Hk1. reflexivity.
Qed.

Lemma fold_result_app {A B : Type} (f : B -> A -> result B)
    (l1 l2 : list A) (acc : B) :
  fold_result f (l1 ++ l2) acc =
  (acc' <- fold_result f l1 acc ;; fold_result f l2 acc').
Proof.
  revert acc. induction l1 as [|x l1 IH]; intros acc; [reflexivity|].
  cbn [app fold_result]. destruct (f acc x); cbn [bind]; [apply IH | reflexivity].
Qed.

Section ReportRowFacts.

Variable json_loads : string -> option json.

Lemma add_report_row_step (found found' : list (json * json)) (row : json) :
  add_report_row json_loads found row = Ok found' ->
  distinct_keys found ->
  (forall kv, In kv found -> In kv found') /\
  distinct_keys found' /\
  (length found' <= S (length found))%nat /\
  (forall kv, In kv found' ->
     In kv found \/ exists r, row = JObj r /\ fst kv = row_agent r).
Proof.
  destruct row as [| | | | |r]; cbn [add_report_row]; try discriminate.
  fold (row_agent r).
  destruct (truthy (row_agent r)).
  2: { intros H Hd. returned H. repeat split; auto. }
  destruct (hashable (row_agent r)); [|discriminate].
  destruct (key_in (row_agent r) found) eqn:Ek; intros H Hd; returned H.
  - repeat split; auto.
  - split; [intros kv Hin; apply in_or_app; auto|].
    split; [apply distinct_keys_snoc; assumption|].
    split; [rewrite length_app; cbn [length]; lia|].
    intros kv Hin. apply in_app_or in Hin as [Hin|[<-|[]]]; [auto|].
    right. exists r. auto.
Qed.

Lemma latest_rows_fold (rows : list json) (found found' : list (json * json)) :
  fold_result (add_report_row json_loads) rows found = Ok found' ->
  distinct_keys found ->
  (forall kv, In kv found -> In kv found') /\
  distinct_keys found' /\
  (length found' <= length found + length rows)%nat /\
  (forall kv, In kv found' ->
     In kv found \/ exists r, In (JObj r) rows /\ fst kv = row_agent r).
Proof.
  revert found. induction rows as [|row rows IH]; cbn [fold_result];
    intros found H Hd.
  - returned H. repeat split; auto. cbn [length]. lia.
  - destruct (add_report_row json_loads found row) as [found1|] eqn:E1;
      cbn [bind] in H; [|discriminate].
    destruct (add_report_row_step _ _ _ E1 Hd) as (Hi1 & Hd1 & Hl1 & Hp1).
    destruct (IH found1 H Hd1) as (Hi & Hd' & Hl & Hp).
    split; [auto|]. split; [exact Hd'|]. split; [cbn [length]; lia|].
    intros kv Hin. destruct (Hp kv Hin) as [Hin1|(r & Hr & Hk)].
    + destruct (Hp1 kv Hin1) as [Hin0|(r & -> & Hk)]; [auto|].
      right. exists r. split; [left; reflexivity | exact Hk].
    + right. exists r. split; [right; exact Hr | exact Hk].
Qed.

(** X21. From the rows the remote store answers, newest first, at most one
    entry per agent is kept, and it is built from the first row of that
    agent: later rows of the same agent are ignored, the entries have
    pairwise different keys and there are never more entries than rows. *)
Theorem latest_row_per_agent_is_first
    (pre : list json) (r : dict) (post : list json)
    (found : list (json * json)) :
  truthy (dict_get r "agent" (JStr EmptyString)) = true ->
  hashable (dict_get r "agent" (JStr EmptyString)) = true ->
  (forall r', In (JObj r') pre ->
     py_key_eqb (dict_get r' "agent" (JStr EmptyString))
       (dict_get r "agent" (JStr EmptyString)) = false) ->
  latest_rows_per_agent json_loads (pre ++ JObj r :: post) = Ok found ->
  In (dict_get r "agent" (JStr EmptyString),
      report_entry json_loads r (dict_get r "agent" (JStr EmptyString)))
     found /\
  distinct_keys found /\
  (length found <= length (pre ++ JObj r :: post))%nat.
Proof.
  intros Ht Hh Hpre. unfold latest_rows_per_agent.
  rewrite fold_result_app. intros H.
  destruct (fold_result (add_report_row json_loads) pre []) as [found1|]
    eqn:E1; cbn [bind] in H; [|discriminate].
  destruct (latest_rows_fold pre [] found1 E1 I) as (_ & Hd1 & Hl1 & Hp1).
  cbn [fold_result] in H.
  assert (Hnew : key_in (row_agent r) found1 = false).
  { unfold key_in. destruct (existsb _ found1) eqn:Ex; [|reflexivity].
    apply existsb_exists in Ex as (kv & Hin & Hkv).
    destruct (Hp1 kv Hin) as [[]|(r' & Hr' & Hk)].
    rewrite Hk in Hkv. unfold row_agent in Hkv.
    rewrite (Hpre r' Hr') in Hkv. discriminate. }
  cbn [add_report_row] in H. fold (row_agent r) in H, Ht, Hh |- *.
  rewrite Ht, Hh, Hnew in H. cbn [bind] in H.
  assert (Hd2 : distinct_keys
                  (found1 ++ [(row_agent r, report_entry json_loads r (row_agent r))])).
  { apply distinct_keys_snoc; assumption. }
  destruct (latest_rows_fold post _ found H Hd2) as (Hi & Hd & Hl & _).
  split; [apply Hi; apply in_or_app; right; left; reflexivity|].
  split; [exact Hd|].
  rewrite length_app in Hl |- *. cbn [length] in Hl, Hl1 |- *. lia.
Qed.

End ReportRowFacts.

Lemma latest_row_per_agent_is_first_witness :
  latest_rows_per_agent (fun _ => None)
    [ JObj [ ("agent", JStr "zona"); ("date", JStr "2026-01-08") ];
      JObj [ ("agent", JStr "spia"); ("date", JStr "2026-01-08") ];
      JObj [ ("agent", JStr "spia"); ("date", JStr "2026-01-01") ] ]
  = Ok
      [ (JStr "zona",
         report_entry (fun _ => None)
           [ ("agent", JStr "zona"); ("date", JStr "2026-01-08") ]
           (JStr "zona"));
        (JStr "spia",
         report_entry (fun _ => None)
           [ ("agent", JStr "spia"); ("date", JStr "2026-01-08") ]
           (JStr "spia")) ] /\
  In (JStr "spia",
      report_entry (fun _ => None)
        [ ("agent", JStr "spia"); ("date", JStr "2026-01-08") ] (JStr "spia"))
     [ (JStr "zona",
        report_entry (fun _ => None)
          [ ("agent", JStr "zona"); ("date", JStr "2026-01-08") ]
          (JStr "zona"));
       (JStr "spia",
        report_entry (fun _ => None)
          [ ("agent", JStr "spia"); ("date", JStr "2026-01-08") ]
          (JStr "spia")) ].
Proof.
  split; [reflexivity|].
  apply (latest_row_per_agent_is_first (fun _ => None)
           [ JObj [ ("agent", JStr "zona"); ("date", JStr "2026-01-08") ] ]
           [ ("agent", JStr "spia"); ("date", JStr "2026-01-08") ]
           [ JObj [ ("agent", JStr "spia"); ("date", JStr "2026-01-01") ] ]).
  - reflexivity.
  - reflexivity.
  - intros r' [H|[]]. inversion H. reflexivity.
  - reflexivity.
Defined.

(** ** Agent cards *)

Lemma py_len_iter (v : json) (n : Z) (items : list json) :
  py_len v = Ok n -> py_iter v = Ok items -> n = Z.of_nat (length items).
Proof.
  destruct v as [| | |s|l|d]; cbn [py_len py_iter]; try discriminate;
    intros Hn Hi; returned Hn; returned Hi.
  - f_equal. induction s as [|c s IH]; cbn [chars length String.length];
      [reflexivity | f_equal; exact IH].
  - reflexivity.
  - rewrite length_map. reflexivity.
Qed.

(** X22. The alert count on an agent's card is the number of alerts the
    listings go through for that agent: for annunci, spia, zona and bussola
    the card's "Alerts" figure equals the number of items the alert loops
    iterate over in the same report; the card of any other agent shows the
    severity only and no alert count; a missing report gives an empty
    card. *)
Theorem card_alert_count_matches_listing
    (format_0f : Z -> string) (agent_id : string) (report : json)
    (stats : dict) :
  extract_quick_stats format_0f agent_id report = Ok stats ->
  (truthy report = false -> stats = []) /\
  (truthy report = true ->
   In agent_id ["annunci"; "spia"; "zona"; "bussola"] ->
   exists n,
     lookup "Alerts" stats = Some (JNum n) /\
     (forall items, report_alerts report = Ok items ->
        n = Z.of_nat (length items))) /\
  (truthy report = true ->
   ~ In agent_id ["annunci"; "spia"; "zona"; "bussola"] ->
   lookup "Alerts" stats = None /\
   exists severity, stats = [ ("Severity", severity) ]).
Proof.
  unfold extract_quick_stats. destruct (truthy report) eqn:Et; cbn [negb].
  2: { intros H. returned H.
       split; [reflexivity|]. split; discriminate. }
  assert (Hcount : forall n,
    (items <- py_get report "alerts" (JList []) ;; py_len items) = Ok n ->
    forall items, report_alerts report = Ok items ->
      n = Z.of_nat (length items)).
  { intros n Hn items Hi. unfold report_alerts in Hi.
    destruct (py_get report "alerts" (JList [])) as [v|]; cbn [bind] in Hn, Hi;
      [|discriminate].
    eapply py_len_iter; eassumption. }
  destruct (String.eqb_spec agent_id "annunci") as [Ea|Ea].
  { intros H.
    destruct (py_get report "spend" (JObj [])) as [spend|]; cbn [bind] in H;
      [|discriminate].
    destruct (py_values spend) as [values|]; cbn [bind] in H; [|discriminate].
    destruct (sum_field "weekly_spend" values) as [ts|]; cbn [bind] in H;
      [|discriminate].
    destruct (sum_field "conversions" values) as [tc|]; cbn [bind] in H;
      [|discriminate].
    destruct (py_get report "alerts" (JList [])) as [items|] eqn:Ei;
      cbn [bind] in H; [|discriminate].
    destruct (py_len items) as [n|] eqn:En; cbn [bind] in H; [|discriminate].
    returned H. split; [discriminate|]. split.
    - intros _ _. exists n. split; [reflexivity|].
      apply Hcount. exact En.
    - intros _ Hnot. exfalso. apply Hnot. simpl. auto. }
  destruct (String.eqb_spec agent_id "spia") as [Es|Es].
  { intros H.
    destruct (py_get report "keywords" (JObj [])) as [kw|]; cbn [bind] in H;
      [|discriminate].
    destruct (py_get kw "beibei" (JList [])) as [bb|]; cbn [bind] in H;
      [|discriminate].
    destruct (py_len bb) as [nb|]; cbn [bind] in H; [|discriminate].
    destruct (py_get kw "amici" (JList [])) as [am|]; cbn [bind] in H;
      [|discriminate].
    destruct (py_len am) as [na|]; cbn [bind] in H; [|discriminate].
    destruct (py_get report "alerts" (JList [])) as [items|] eqn:Ei;
      cbn [bind] in H; [|discriminate].
    destruct (py_len items) as [n|] eqn:En; cbn [bind] in H; [|discriminate].
    returned H. split; [discriminate|]. split.
    - intros _ _. exists n. split; [reflexivity|].
      apply Hcount. exact En.
    - intros _ Hnot. exfalso. apply Hnot. simpl. auto. }
  destruct (String.eqb_spec agent_id "zona") as [Ez|Ez].
  { intros H.
    destruct (py_get report "metrics" (JObj [])) as [m|]; cbn [bind] in H;
      [|discriminate].
    destruct (py_get m "beibei" (JObj [])) as [bb|]; cbn [bind] in H;
      [|discriminate].
    destruct (py_get bb "pages_live" (JStr "?")) as [live|]; cbn [bind] in H;
      [|discriminate].
    destruct (py_get bb "pages_indexed" (JStr "?")) as [ix|]; cbn [bind] in H;
      [|discriminate].
    destruct (py_get report "alerts" (JList [])) as [items|] eqn:Ei;
      cbn [bind] in H; [|discriminate].
    destruct (py_len items) as [n|] eqn:En; cbn [bind] in H; [|discriminate].
    returned H. split; [discriminate|]. split.
    - intros _ _. exists n. split; [reflexivity|].
      apply Hcount. exact En.
    - intros _ Hnot. exfalso. apply Hnot. simpl. auto. }
  destruct (String.eqb_spec agent_id "bussola") as [Eb|Eb].
  { intros H.
    destruct (py_get report "alerts" (JList [])) as [items|] eqn:Ei;
      cbn [bind] in H; [|discriminate].
    destruct (py_len items) as [n|] eqn:En; cbn [bind] in H; [|discriminate].
    returned H. split; [discriminate|]. split.
    - intros _ _. exists n. split; [reflexivity|].
      apply Hcount. exact En.
    - intros _ Hnot. exfalso. apply Hnot. simpl. auto. }
  intros H.
  destruct (py_get report "severity" (JStr "unknown")) as [sev|];
    cbn [bind] in H; [|discriminate].
  returned H. split; [discriminate|]. split.
  - intros _ [E|[E|[E|[E|[]]]]]; symmetry in E; contradiction.
  - intros _ _. split; [reflexivity | eauto].
Qed.

Lemma card_alert_count_matches_listing_witness :
  exists stats,
    extract_quick_stats (fun _ => "0") "bussola"
      (JObj [ ("alerts", JList [ JObj [ ("finding", JStr "Bounce rate up") ];
                                 JObj [ ("finding", JStr "All good") ] ]) ])
      = Ok stats /\
    lookup "Alerts" stats = Some (JNum 2).
Proof.
  eexists. split; [reflexivity|].
  destruct (card_alert_count_matches_listing (fun _ => "0") "bussola"
              (JObj [ ("alerts",
                       JList [ JObj [ ("finding", JStr "Bounce rate up") ];
                               JObj [ ("finding", JStr "All good") ] ]) ])
              _ eq_refl) as (_ & Hfour & _).
  destruct (Hfour eq_refl ltac:(simpl; auto)) as (n & Hn & Hitems).
  rewrite Hn, (Hitems _ eq_refl). reflexivity.
Defined.
